(** * GenomicDataLake: the ingestion pipeline of [genomic_data_upload.py]

    A shallow embedding of the validation, deduplication, upload and
    verification functions of [src/genomic_data_upload.py], and the
    properties of the specification that concern them.

    Conventions of the embedding:
    - a pandas row (a [Series], or the [dict] built from it) is an
      association list from column names to cell values, in column order;
      a [DataFrame] is the list of its rows;
    - Python exceptions are the [Raise] results of the [res] monad, and a
      [try]/[except] is a match on them;
    - the wall-clock reading [datetime.now()] is an explicit argument [now];
    - the database behind the SQLAlchemy engine is a finite map from table
      names to the rows they hold, threaded through the upload functions;
    - what the Python runtime and its libraries compute outside this
      repository (MD5, [str] of floats and timestamps, [float] of a string,
      [re.match], [DataFrame.sample], driver errors) is the interface
      [PyRuntime]. *)

From Stdlib Require Import ZArith Ascii Bool Lia.
From Stdlib Require Import Floats.SpecFloat.
From Stdlib Require QArith.
From stdpp Require Import base option list sorting countable strings pretty gmap.

Local Open Scope Z_scope.

(** ** Cell values and exceptions *)

(** The scalars a cell of the frame can hold. [VNull] stands for [None]
    (and [NaT]); the float NaN is [VFloat S754_nan]. *)
Inductive pyvalue :=
  | VNull
  | VInt (z : Z)
  | VFloat (f : spec_float)
  | VStr (s : string)
  | VTime (t : Z).

Inductive exn := ValueError | TypeError | OverflowError | DatabaseError (msg : string).

Inductive res (A : Type) :=
  | Ok (a : A)
  | Raise (e : exn).
Arguments Ok {A} a.
Arguments Raise {A} e.

Global Instance res_bind : MBind res := fun A B k m =>
  match m with
  | Ok a => k a
  | Raise e => Raise e
  end.

Global Instance res_fmap : FMap res := fun A B f m =>
  match m with
  | Ok a => Ok (f a)
  | Raise e => Raise e
  end.

(** [try: body except (ValueError, TypeError): handler] *)
Definition except_value_type {A} (body : res A) (handler : res A) : res A :=
  match body with
  | Raise ValueError | Raise TypeError => handler
  | other => other
  end.

Fixpoint mapM {A B} (f : A -> res B) (l : list A) : res (list B) :=
  match l with
  | [] => Ok []
  | x :: l' => y ← f x; ys ← mapM f l'; Ok (y :: ys)
  end.

Global Instance spec_float_eq_dec : EqDecision spec_float.
Proof. solve_decision. Defined.

Global Instance pyvalue_eq_dec : EqDecision pyvalue.
Proof. solve_decision. Defined.

Global Instance exn_eq_dec : EqDecision exn.
Proof. solve_decision. Defined.

(** ** Strings: the [str] methods the code calls *)

Module PyStr.

Definition is_lower (c : ascii) : bool :=
  let n := N_of_ascii c in (97 <=? n)%N && (n <=? 122)%N.

Definition is_upper (c : ascii) : bool :=
  let n := N_of_ascii c in (65 <=? n)%N && (n <=? 90)%N.

Definition upper_char (c : ascii) : ascii :=
  if is_lower c then ascii_of_N (N_of_ascii c - 32) else c.

Definition lower_char (c : ascii) : ascii :=
  if is_upper c then ascii_of_N (N_of_ascii c + 32) else c.

Fixpoint map_chars (f : ascii -> ascii) (s : string) : string :=
  match s with
  | EmptyString => EmptyString
  | String c s' => String (f c) (map_chars f s')
  end.

(** [s.upper()] and [s.lower()] *)
Definition upper : string -> string := map_chars upper_char.
Definition lower : string -> string := map_chars lower_char.

(** [s.isascii()]. The methods of this module are those of [str] on the
    strings for which it holds: on other strings [str.upper], [str.lower]
    and [str.strip] also change letters and strip spaces that are not
    ASCII, and the properties below are stated for ASCII text. *)
Definition is_ascii (s : string) : bool :=
  forallb (fun c => (N_of_ascii c <? 128)%N) (String.list_ascii_of_string s).

(** [sub in s] *)
Fixpoint contains (sub s : string) : bool :=
  String.prefix sub s ||
  match s with
  | EmptyString => false
  | String _ s' => contains sub s'
  end.

(** [s.replace(old, '')] for a non-empty [old]: the occurrences of [old]
    are removed from left to right, without rescanning. [skip] counts the
    characters of the occurrence being removed that are still ahead. *)
Fixpoint remove_from (old : string) (skip : nat) (s : string) : string :=
  match s with
  | EmptyString => EmptyString
  | String c s' =>
      match skip with
      | S k => remove_from old k s'
      | O =>
          if String.prefix old s
          then remove_from old (Nat.pred (String.length old)) s'
          else String c (remove_from old O s')
      end
  end.

Definition remove (old s : string) : string := remove_from old O s.

(** The characters [str.isspace] accepts among the first 128. *)
Definition is_space (c : ascii) : bool :=
  let n := N_of_ascii c in
  ((9 <=? n)%N && (n <=? 13)%N) || ((28 <=? n)%N && (n <=? 32)%N).

Fixpoint lstrip (s : string) : string :=
  match s with
  | EmptyString => EmptyString
  | String c s' => if is_space c then lstrip s' else s
  end.

(** [s.strip()] *)
Definition strip (s : string) : string :=
  String.rev (lstrip (String.rev (lstrip s))).

Fixpoint join (sep : string) (l : list string) : string :=
  match l with
  | [] => ""
  | [x] => x
  | x :: l' => x +:+ sep +:+ join sep l'
  end.

End PyStr.

(** ** Floats: the part of binary64 the code touches *)

Module PyFloat.

Definition is_nan (f : spec_float) : bool :=
  match f with S754_nan => true | _ => false end.

(** [float(z)] for an [int]: rounding to nearest, [OverflowError] when the
    integer is too large for a binary64. *)
Definition of_int (z : Z) : res spec_float :=
  match binary_normalize 53 1024 z 0 false with
  | S754_infinity _ => Raise OverflowError
  | f => Ok f
  end.

(** [int(f)]: truncation toward zero; NaN is a [ValueError], an infinity an
    [OverflowError]. *)
Definition to_int (f : spec_float) : res Z :=
  match f with
  | S754_zero _ => Ok 0
  | S754_nan => Raise ValueError
  | S754_infinity _ => Raise OverflowError
  | S754_finite s m e =>
      let a := if 0 <=? e then Z.pos m * 2 ^ e else Z.pos m / 2 ^ (- e) in
      Ok (if s then - a else a)
  end.

(** The exact comparison of a float with an integer bound, as Python's [<]
    and [>] between a [float] and an [int]; every comparison with NaN is
    false. *)
Definition compare_int (f : spec_float) (z : Z) : option comparison :=
  match f with
  | S754_nan => None
  | S754_infinity s => Some (if s then Lt else Gt)
  | S754_zero _ => Some (0 ?= z)
  | S754_finite s m e =>
      let n := if s then Z.neg m else Z.pos m in
      Some (if 0 <=? e then (n * 2 ^ e ?= z) else (n ?= z * 2 ^ (- e)))
  end.

Definition lt_int (f : spec_float) (z : Z) : bool :=
  match compare_int f z with Some Lt => true | _ => false end.

Definition gt_int (f : spec_float) (z : Z) : bool :=
  match compare_int f z with Some Gt => true | _ => false end.

End PyFloat.

(** ** Rows and frames *)

Abbreviation item := (string * pyvalue)%type.
Abbreviation Series := (list item).
Abbreviation DataFrame := (list Series).

Definition keys (r : Series) : list string := map fst r.

(** [d[k] = v] on a dict: the value is replaced where the key stands, a new
    key goes to the end. *)
Fixpoint dict_set (k : string) (v : pyvalue) (d : Series) : Series :=
  match d with
  | [] => [(k, v)]
  | (k', v') :: d' =>
      if String.eqb k k' then (k, v) :: d' else (k', v') :: dict_set k v d'
  end.

Fixpoint dict_get (k : string) (d : Series) : option pyvalue :=
  match d with
  | [] => None
  | (k', v') :: d' => if String.eqb k k' then Some v' else dict_get k d'
  end.

(** [d.update(r)], also [{**d, **r}] *)
Definition dict_update (d r : Series) : Series :=
  fold_left (fun acc kv => dict_set (fst kv) (snd kv) acc) r d.

(** [row.to_dict()] *)
Definition to_dict (r : Series) : Series := dict_update [] r.

(** [pd.isna(value)] on a scalar *)
Definition isna (v : pyvalue) : bool :=
  match v with
  | VNull => true
  | VFloat f => PyFloat.is_nan f
  | _ => false
  end.

(** [x is None] *)
Definition is_None (v : pyvalue) : bool :=
  match v with VNull => true | _ => false end.

(** ** The Python runtime outside the repository *)

Class PyRuntime := {
  (** [float(s)] for a string; [None] is the [ValueError] *)
  float_of_str : string -> option spec_float;
  (** [str(f)] for a float *)
  str_of_float : spec_float -> string;
  (** [str(t)] for a timestamp *)
  str_of_time : Z -> string;
  (** [str(l)] for a list of (name, value) tuples *)
  str_of_items : list item -> string;
  (** [hashlib.md5(s.encode()).hexdigest()] *)
  md5_hexdigest : string -> string;
  (** [re.match(pattern, s)] is not [None] *)
  re_match : string -> string -> bool;
  (** the rows [df.sample(n)] draws *)
  df_sample : nat -> DataFrame -> DataFrame;
  (** the error, if any, the database driver raises for one [to_sql] of a
      batch into a table, given what the database holds *)
  to_sql_error : gmap string (list Series) -> string -> DataFrame -> option string;
  (** the error, if any, the driver raises for a lookup of the rows of a
      table that meet a list of conditions, given what the database holds:
      so on PostgreSQL for a condition on a column whose name has an
      upper-case letter, which the [WHERE] clause does not quote *)
  read_sql_error : gmap string (list Series) -> string ->
                   list (string * option string) -> option string
}.

(** ** The schema registry *)

Inductive pytype := TStr | TInt | TFloat.

(** A field rule: the dict [{'type': .., 'required': .., 'pattern': ..,
    'min': .., 'max': ..}], the last three keys optional. *)
Record field_rule := {
  rule_type : pytype;
  rule_required : bool;
  rule_pattern : option string;
  rule_min : option Z;
  rule_max : option Z
}.

Definition schema_t : Type := list (string * field_rule).

Definition rule (t : pytype) (pat : option string) (lo hi : option Z) : field_rule :=
  {| rule_type := t; rule_required := true; rule_pattern := pat;
     rule_min := lo; rule_max := hi |}.

Definition name_pattern : string := "^[A-Za-z0-9\-_]+$".
Definition chrom_pattern : string := "^(chr)?\d+$|^(chr)?[XY]$".
Definition bases_pattern : string := "^[ACGT]+$".

Definition schemas : list (string * schema_t) :=
  [ ("tmb",
      [ ("SampleName", rule TStr (Some name_pattern) None None);
        ("TMB", rule TFloat None (Some 0) None);
        ("BinomialLow", rule TFloat None (Some 0) (Some 1));
        ("BinomialHigh", rule TFloat None (Some 0) (Some 1)) ]);
    ("cns",
      [ ("CHROM", rule TStr (Some chrom_pattern) None None);
        ("START", rule TInt None (Some 0) None);
        ("STOP", rule TInt None (Some 0) None);
        ("GENE", rule TStr (Some name_pattern) None None);
        ("log2", rule TFloat None None None);
        ("SampleName", rule TStr (Some name_pattern) None None) ]);
    ("mean_gene_coverage",
      [ ("SampleName", rule TStr (Some name_pattern) None None);
        ("GENE", rule TStr (Some name_pattern) None None);
        ("MEAN_COVERAGE", rule TFloat None (Some 0) None) ]);
    ("mastervar",
      [ ("SampleName", rule TStr (Some name_pattern) None None);
        ("CHROM", rule TStr (Some chrom_pattern) None None);
        ("POS", rule TInt None (Some 0) None);
        ("REF", rule TStr (Some bases_pattern) None None);
        ("ALT", rule TStr (Some bases_pattern) None None);
        ("AF", rule TFloat None (Some 0) (Some 1)) ]) ].

(** [d.get(k)] on a dict written as a literal *)
Fixpoint assoc {A} (k : string) (d : list (string * A)) : option A :=
  match d with
  | [] => None
  | (k', a) :: d' => if String.eqb k k' then Some a else assoc k d'
  end.

(** [get_table_schema], lines 51-84: [schemas.get(table_type, {})]; the
    table type is [None] when the table name names no registered type. *)
Definition get_table_schema (table_type : option string) : schema_t :=
  match table_type with
  | Some t => default [] (assoc t schemas)
  | None => []
  end.

(** [next((t for t in [...] if t in table_name.lower()), None)] *)
Definition table_type_of (table_name : string) : option string :=
  head (filter (fun t => Is_true (PyStr.contains t (PyStr.lower table_name)))
          ["tmb"; "cns"; "mean_gene_coverage"; "mastervar"]).

(** ** The pipeline, over a runtime *)

Section Pipeline.

Context {rt : PyRuntime}.

(** [str(value)] *)
Definition py_str (v : pyvalue) : string :=
  match v with
  | VNull => "None"
  | VInt z => pretty z
  | VFloat f => str_of_float f
  | VStr s => s
  | VTime t => str_of_time t
  end.

(** [float(value)] *)
Definition py_float (v : pyvalue) : res spec_float :=
  match v with
  | VNull => Raise TypeError
  | VInt z => PyFloat.of_int z
  | VFloat f => Ok f
  | VStr s =>
      match float_of_str s with
      | Some f => Ok f
      | None => Raise ValueError
      end
  | VTime _ => Raise TypeError
  end.

(** *** The Normalizer *)

(** [standardize_value], lines 86-113. The [try] covers the whole body
    after the [pd.isna] test; the last line, [return value], is for a rule
    type other than the three the registry uses. *)
Definition standardize_value (value : pyvalue) (column_name : string)
    (schema : field_rule) : res pyvalue :=
  if isna value then Ok VNull
  else
    except_value_type
      (if PyStr.contains "CHROM" column_name then
         let value := PyStr.remove "CHR" (PyStr.upper (py_str value)) in
         if String.eqb value "X" then Ok (VStr "23")
         else if String.eqb value "Y" then Ok (VStr "24")
         else Ok (VStr value)
       else
         match rule_type schema with
         | TFloat => f ← py_float value; Ok (VFloat f)
         | TInt => f ← py_float value; z ← PyFloat.to_int f; Ok (VInt z)
         | TStr => Ok (VStr (PyStr.strip (py_str value)))
         end)
      (Ok VNull).

(** *** The record hash *)

(** [v1 == v2] and [v1 < v2] between cell values *)
Definition py_eq (v1 v2 : pyvalue) : bool :=
  match v1, v2 with
  | VNull, VNull => true
  | VInt a, VInt b => a =? b
  | VInt a, VFloat f | VFloat f, VInt a =>
      bool_decide (PyFloat.compare_int f a = Some Eq)
  | VFloat f, VFloat g => SFeqb f g
  | VStr a, VStr b => String.eqb a b
  | VTime a, VTime b => a =? b
  | _, _ => false
  end.

Definition py_lt (v1 v2 : pyvalue) : res bool :=
  match v1, v2 with
  | VInt a, VInt b => Ok (a <? b)
  | VInt a, VFloat f => Ok (PyFloat.gt_int f a)
  | VFloat f, VInt a => Ok (PyFloat.lt_int f a)
  | VFloat f, VFloat g => Ok (SFltb f g)
  | VStr a, VStr b => Ok (String.ltb a b)
  | VTime a, VTime b => Ok (a <? b)
  | _, _ => Raise TypeError
  end.

(** [x < y] between two (name, value) tuples: the names decide unless they
    are equal; then the values are compared, which raises between values
    that have no order. *)
Definition item_lt (x y : item) : res bool :=
  if String.eqb (fst x) (fst y) then
    if py_eq (snd x) (snd y) then Ok false else py_lt (snd x) (snd y)
  else Ok (String.ltb (fst x) (fst y)).

(** [sorted(l)]: a stable sort that only asks [<]. Every stable sort gives
    the same list; this one inserts each element before the first element
    of the sorted rest that is not below it. *)
Fixpoint sorted_insert (x : item) (l : list item) : res (list item) :=
  match l with
  | [] => Ok [x]
  | y :: l' =>
      b ← item_lt y x;
      if b : bool then l'' ← sorted_insert x l'; Ok (y :: l'')
      else Ok (x :: y :: l')
  end.

Fixpoint py_sorted (l : list item) : res (list item) :=
  match l with
  | [] => Ok []
  | x :: l' => s ← py_sorted l'; sorted_insert x s
  end.

(** [generate_record_hash], lines 115-121 *)
Definition generate_record_hash (row : Series) : res string :=
  items ← py_sorted row;
  Ok (md5_hexdigest (str_of_items items)).

(** *** The Validator *)

(** [isinstance(std_val, schema[col]['type'])] *)
Definition isinstance (v : pyvalue) (t : pytype) : bool :=
  match v, t with
  | VStr _, TStr | VInt _, TInt | VFloat _, TFloat => true
  | _, _ => false
  end.

(** [std_val < bound] and [std_val > bound] for a number and an [int] *)
Definition below (v : pyvalue) (bound : Z) : bool :=
  match v with
  | VInt a => a <? bound
  | VFloat f => PyFloat.lt_int f bound
  | _ => false
  end.

Definition above (v : pyvalue) (bound : Z) : bool :=
  match v with
  | VInt a => bound <? a
  | VFloat f => PyFloat.gt_int f bound
  | _ => false
  end.

(** What the checks of one schema column append to [invalid_columns]. *)
Definition check_value (col : string) (schema_col : field_rule)
    (std_val : pyvalue) : list string :=
  if rule_required schema_col && is_None std_val then
    [col +:+ ": Required field is null"]
  else if negb (is_None std_val) then
    if negb (isinstance std_val (rule_type schema_col)) then
      [col +:+ ": Invalid type"]
    else
      match rule_type schema_col, rule_pattern schema_col with
      | TStr, Some pat =>
          if negb (re_match pat (py_str std_val))
          then [col +:+ ": Does not match pattern " +:+ pat] else []
      | TStr, None => []
      | _, _ =>
          match rule_min schema_col with
          | Some lo =>
              if below std_val lo
              then [col +:+ ": Below minimum value " +:+ pretty lo] else []
          | None => []
          end ++
          match rule_max schema_col with
          | Some hi =>
              if above std_val hi
              then [col +:+ ": Above maximum value " +:+ pretty hi] else []
          | None => []
          end
      end
  else [].

(** [validate_and_clean_data], lines 204-297, in its parts. First the inner
    loop [for col, val in row.items()], from the state
    [(invalid_columns, standardized_row)] it has reached. *)
Fixpoint standardize_items (schema : schema_t) (items : list item)
    (invalid_columns : list string) (standardized_row : Series)
    : res (list string * Series) :=
  match items with
  | [] => Ok (invalid_columns, standardized_row)
  | (col, val) :: items' =>
      match assoc col schema with
      | Some schema_col =>
          std_val ← standardize_value val col schema_col;
          standardize_items schema items'
            (invalid_columns ++ check_value col schema_col std_val)
            (dict_set col std_val standardized_row)
      | None =>
          standardize_items schema items' invalid_columns
            (dict_set col val standardized_row)
      end
  end.

Definition dropped_record (idx : nat) (invalid_columns : list string)
    (row : Series) : Series :=
  dict_update
    [ ("index", VInt (Z.of_nat idx));
      ("reason", VStr ("Invalid values in columns: "
                       +:+ PyStr.join ", " invalid_columns)) ]
    (to_dict row).

(** The outer loop [for idx, row in df.iterrows()]: the rows appended to
    [cleaned_rows] and to [dropped_records], in order. *)
Fixpoint validate_rows (schema : schema_t) (idx : nat) (rows : DataFrame)
    : res (list Series * list Series) :=
  match rows with
  | [] => Ok ([], [])
  | row :: rows' =>
      '(invalid_columns, standardized_row) ← standardize_items schema row [] [];
      '(cleaned_rows, dropped_records) ← validate_rows schema (S idx) rows';
      match invalid_columns with
      | [] => Ok (standardized_row :: cleaned_rows, dropped_records)
      | _ :: _ =>
          Ok (cleaned_rows,
              dropped_record idx invalid_columns row :: dropped_records)
      end
  end.

(** *** The frame operations the Validator and the Deduplicator use *)

Definition NaN : pyvalue := VFloat S754_nan.

Fixpoint add_columns (cols ks : list string) : list string :=
  match ks with
  | [] => cols
  | k :: ks' =>
      add_columns (if bool_decide (k ∈ cols) then cols else cols ++ [k]) ks'
  end.

(** The columns of a frame built from records: the keys, in the order
    they first appear. *)
Definition columns_of (rows : list Series) : list string :=
  fold_left (fun cols r => add_columns cols (keys r)) rows [].

Definition reindex (cols : list string) (r : Series) : Series :=
  map (fun c => (c, default NaN (dict_get c r))) cols.

(** [pd.DataFrame(records)] *)
Definition from_records (records : list Series) : DataFrame :=
  map (reindex (columns_of records)) records.

(** [pd.concat([a, b])], cell by cell: the cells are kept as they are,
    where pandas gives each column one dtype (an [int] beside floats or
    missing values becomes the equal float). *)
Definition pd_concat (a b : DataFrame) : DataFrame := from_records (a ++ b).

(** [df.empty] *)
Definition df_empty (df : DataFrame) : bool :=
  bool_decide (df = []) || bool_decide (columns_of df = []).

(** [df.assign(reason=...)] *)
Definition assign (col : string) (v : pyvalue) (df : DataFrame) : DataFrame :=
  map (dict_set col v) df.

(** [df.duplicated(subset=[col], keep='first')]: the mask that marks every
    row whose key an earlier row already has. *)
Fixpoint duplicated_from (seen ks : list (option pyvalue)) : list bool :=
  match ks with
  | [] => []
  | k :: ks' => bool_decide (k ∈ seen) :: duplicated_from (k :: seen) ks'
  end.

Definition duplicated (col : string) (df : DataFrame) : list bool :=
  duplicated_from [] (map (dict_get col) df).

(** [df[mask]] *)
Fixpoint select (mask : list bool) (df : DataFrame) : DataFrame :=
  match mask, df with
  | b :: mask', r :: df' =>
      if b then r :: select mask' df' else select mask' df'
  | _, _ => []
  end.

(** [df.drop_duplicates(subset=[col], keep='first')] *)
Definition drop_duplicates (col : string) (df : DataFrame) : DataFrame :=
  select (map negb (duplicated col df)) df.

(** *** The Deduplicator: the block under "Check for duplicates" *)

Definition check_duplicates (cleaned_df dropped_df : option DataFrame)
    : option DataFrame * option DataFrame :=
  match cleaned_df with
  | Some cleaned =>
      if df_empty cleaned then (cleaned_df, dropped_df)
      else
        let duplicates := select (duplicated "record_hash" cleaned) cleaned in
        if df_empty duplicates then (cleaned_df, dropped_df)
        else
          let marked := assign "reason" (VStr "Duplicate record") duplicates in
          (Some (drop_duplicates "record_hash" cleaned),
           Some (match dropped_df with
                 | Some dropped => pd_concat dropped marked
                 | None => marked
                 end))
  | None => (cleaned_df, dropped_df)
  end.

Definition frame_or_None (records : list Series) : option DataFrame :=
  match records with
  | [] => None
  | _ :: _ => Some (from_records records)
  end.

(** The frame after "Add metadata columns". *)
Definition add_metadata (df : DataFrame) (now : Z) : res DataFrame :=
  let df := map (dict_set "upload_timestamp" (VTime now)) df in
  hashes ← mapM generate_record_hash df;
  Ok (zip_with (fun r h => dict_set "record_hash" (VStr h) r) df hashes).

(** The whole function; the log lines are left out. *)
Definition validate_and_clean_data (df : DataFrame) (table_name : string)
    (now : Z) : res (option DataFrame * option DataFrame) :=
  if df_empty df then Ok (None, None)
  else
    let schema := get_table_schema (table_type_of table_name) in
    df ← add_metadata df now;
    '(cleaned_rows, dropped_records) ← validate_rows schema 0 df;
    Ok (check_duplicates (frame_or_None cleaned_rows)
                         (frame_or_None dropped_records)).

End Pipeline.

(** ** The store *)

(** The queries [verify_upload] sends: [SELECT COUNT( * ) FROM t], and the
    same with a [WHERE] clause, a conjunction of [column IS NULL] (no
    literal) and [column = 'literal'] conditions. *)
Inductive query :=
  | CountAll (table_name : string)
  | CountWhere (table_name : string)
      (where_conditions : list (string * option string)).

(** The database behind the engine: the rows of every table, and the
    queries it has been sent so far, latest first. *)
Record database := {
  tables : gmap string (list Series);
  queries : list query
}.

Definition issue (q : query) (engine : database) : database :=
  {| tables := tables engine; queries := q :: queries engine |}.

Definition stored (table_name : string) (engine : database) : list Series :=
  default [] (tables engine !! table_name).

Section Upload.

Context {rt : PyRuntime}.

(** [df.to_sql(table_name, engine, if_exists='append', index=False)]: the
    rows are added after those the table holds; a table that does not
    exist is created. *)
Definition to_sql (df : DataFrame) (table_name : string)
    (engine : database) : res database :=
  match to_sql_error (tables engine) table_name df with
  | Some msg => Raise (DatabaseError msg)
  | None =>
      Ok {| tables := <[table_name := stored table_name engine ++ df]>
                        (tables engine);
            queries := queries engine |}
  end.

(** *** The Verifier *)

Definition where_conditions (record : Series) : list (string * option string) :=
  map (fun cv => (fst cv, if isna (snd cv) then None else Some (py_str (snd cv))))
      record.

(** Whether a stored row satisfies one condition; a cell the row does not
    have is NULL. A column is found under the name the frame gave it, and a
    condition [column = 'literal'] is met by a cell whose text is the
    literal. *)
Definition condition_holds (r : Series) (c : string * option string) : bool :=
  let cell := default VNull (dict_get (fst c) r) in
  match snd c with
  | None => isna cell
  | Some literal => negb (isna cell) && String.eqb (py_str cell) literal
  end.

Definition count_where (rows : list Series)
    (conds : list (string * option string)) : nat :=
  length (filter (fun r => Is_true (forallb (condition_holds r) conds)) rows).

(** The loop over the sampled records, on a table known to exist. A
    lookup that raises ends in the handler of [verify_upload], which
    returns [False]. *)
Fixpoint check_records (table_name : string) (records : list Series)
    (engine : database) : bool * database :=
  match records with
  | [] => (true, engine)
  | record :: records' =>
      let conds := where_conditions record in
      let engine := issue (CountWhere table_name conds) engine in
      match read_sql_error (tables engine) table_name conds with
      | Some _ => (false, engine)
      | None =>
          if Nat.eqb (count_where (stored table_name engine) conds) 0
          then (false, engine)
          else check_records table_name records' engine
      end
  end.

(** [verify_upload], lines 299-350. A count on a table that does not exist
    raises, and the handler returns [False]. *)
Definition verify_upload (df : DataFrame) (table_name : string)
    (engine : database) : bool * database :=
  let engine := issue (CountAll table_name) engine in
  match tables engine !! table_name with
  | None => (false, engine)
  | Some rows =>
      let db_count := length rows in
      let df_count := length df in
      if negb (Nat.eqb db_count df_count) then (false, engine)
      else
        let sample_size := Nat.min 5 (length df) in
        if Nat.ltb 0 sample_size
        then check_records table_name (df_sample sample_size df) engine
        else (true, engine)
  end.

(** *** The Upload Coordinator *)

(** [upload_to_database], lines 352-385. Every exception ends in
    [return False]; what was written before it stays written. *)
Definition upload_to_database (df : DataFrame) (table_name : string)
    (engine : database) (now : Z) : bool * database :=
  if df_empty df then (false, engine)
  else
    match validate_and_clean_data df table_name now with
    | Raise _ => (false, engine)
    | Ok (None, _) => (false, engine)
    | Ok (Some cleaned_df, dropped_df) =>
        if df_empty cleaned_df then (false, engine)
        else
          match to_sql cleaned_df table_name engine with
          | Raise _ => (false, engine)
          | Ok engine =>
              let saved :=
                match dropped_df with
                | Some dropped =>
                    if df_empty dropped then Ok engine
                    else to_sql dropped (table_name +:+ "_dropped_records") engine
                | None => Ok engine
                end in
              match saved with
              | Raise _ => (false, engine)
              | Ok engine => verify_upload cleaned_df table_name engine
              end
          end
    end.

(** [str(e)] for the exception a write raises *)
Definition str_of_exn (e : exn) : string :=
  match e with
  | DatabaseError msg => msg
  | ValueError => "ValueError"
  | TypeError => "TypeError"
  | OverflowError => "OverflowError"
  end.

(** [process_file_chunk], lines 387-394 *)
Definition process_file_chunk (chunk_data : DataFrame * string)
    (engine : database) : (bool * option string) * database :=
  let '(df, table_name) := chunk_data in
  match to_sql df table_name engine with
  | Ok engine' => ((true, None), engine')
  | Raise e => ((false, Some (str_of_exn e)), engine)
  end.

(** [range(0, n, step)] *)
Definition py_range (n : nat) (step : Z) : res (list nat) :=
  if step =? 0 then Raise ValueError
  else if step <? 0 then Ok []
  else
    let c := Z.to_nat step in
    Ok (map (fun k => Nat.mul k c) (seq 0 (Nat.div (n + c - 1) c))).

(** [df[i:j]] *)
Definition slice {A} (i j : nat) (l : list A) : list A :=
  take (j - i) (drop i l).

(** The loop over the futures: every chunk is written, and the outcome is
    a success when every write is. The chunks are taken in the order they
    were submitted; the pool runs them in any order. *)
Fixpoint collect (chunk_data : list (DataFrame * string))
    (engine : database) (success : bool) (errors : list (option string))
    : (bool * list (option string)) * database :=
  match chunk_data with
  | [] => ((success, errors), engine)
  | data :: chunk_data' =>
      let '((result, error), engine) := process_file_chunk data engine in
      if result then collect chunk_data' engine success errors
      else collect chunk_data' engine false (errors ++ [error])
  end.

(** [parallel_upload], lines 396-421 *)
Definition parallel_upload (df : DataFrame) (table_name : string)
    (engine : database) (chunk_size : Z) (now : Z) : res (bool * database) :=
  if Z.of_nat (length df) <? chunk_size then
    Ok (upload_to_database df table_name engine now)
  else
    starts ← py_range (length df) chunk_size;
    let chunks := map (fun i => slice i (i + Z.to_nat chunk_size) df) starts in
    let chunk_data := map (fun chunk => (chunk, table_name)) chunks in
    let '((success, _), engine) := collect chunk_data engine true [] in
    Ok (success, engine).

End Upload.

(** ** Notions the properties are stated with *)

(** The deduplication key of a row: its [record_hash] cell. *)
Definition record_hash_of (r : Series) : option pyvalue :=
  dict_get "record_hash" r.

(** A digest without collisions on the serialised items. *)
Definition collision_free `{PyRuntime} : Prop :=
  forall a b : list item,
    md5_hexdigest (str_of_items a) = md5_hexdigest (str_of_items b) -> a = b.

(** The order [sorted] puts the items of a row in: by field name. *)
Definition key_lt (x y : item) : Prop := String.ltb (fst x) (fst y) = true.

(** ** The Normalizer as the specification words it *)

(** The chromosome rule of the specification: a leading "chr", in any case,
    is stripped; what is left is mapped from X to "23" and from Y to "24",
    and is otherwise kept as it is. *)
Definition spec_strip_chr_prefix (s : string) : string :=
  match s with
  | String a (String b (String c rest)) =>
      if String.eqb (PyStr.upper (String a (String b (String c "")))) "CHR"
      then rest else s
  | _ => s
  end.

Definition chrom_alias (s : string) : string :=
  if String.eqb s "X" then "23" else if String.eqb s "Y" then "24" else s.

Definition spec_normalize_chromosome (s : string) : string :=
  chrom_alias (spec_strip_chr_prefix s).

(** The chunks [parallel_upload] cuts a frame into, for a chunk size
    [c > 0]: [df[i:i + c]] for [i] in [range(0, len(df), c)]. *)
Definition chunks_of {A} (c : nat) (l : list A) : list (list A) :=
  map (fun i => slice i (i + c) l)
      (map (fun k => Nat.mul k c) (seq 0 (Nat.div (length l + c - 1) c))).

(** The two columns "Add metadata columns" attaches. *)
Definition metadata_columns : list string := ["upload_timestamp"; "record_hash"].

Definition strip_metadata (r : Series) : Series :=
  filter (fun kv => kv.1 ∉ metadata_columns) r.

(** The two frames [validate_and_clean_data] returns, without the metadata
    columns. *)
Definition strip_frames (out : option DataFrame * option DataFrame)
    : option (list Series) * option (list Series) :=
  (map strip_metadata <$> out.1, map strip_metadata <$> out.2).

(** Two rows that agree but for the metadata cells. *)
Definition meta_eq (r1 r2 : Series) : Prop :=
  Forall2 (fun x y => x.1 = y.1 /\ (x.1 ∉ metadata_columns -> x.2 = y.2)) r1 r2.

(** Two runs that end alike: the same exception, or related results. *)
Definition res_rel {A} (P : A -> A -> Prop) (m1 m2 : res A) : Prop :=
  match m1, m2 with
  | Ok a, Ok b => P a b
  | Raise e1, Raise e2 => e1 = e2
  | _, _ => False
  end.

Section Notions.

Context {rt : PyRuntime}.

(** A driver that raises for no write. *)
Definition driver_accepts : Prop :=
  forall tabs table_name df, to_sql_error tabs table_name df = None.

(** The digest tells the rows of [df] apart, as they are serialised with
    the timestamp [now]: two rows with the same digest have the same sorted
    items. It speaks of the rows of one frame at one timestamp only. *)
Definition digest_separates (df : DataFrame) (now : Z) : Prop :=
  forall (r r' : Series) (items items' : list item),
    r ∈ df -> r' ∈ df ->
    py_sorted (dict_set "upload_timestamp" (VTime now) r) = Ok items ->
    py_sorted (dict_set "upload_timestamp" (VTime now) r') = Ok items' ->
    md5_hexdigest (str_of_items items) = md5_hexdigest (str_of_items items') ->
    items = items'.

(** The keys two runs, at [t1] and at [t2], give to one and the same row
    of [df]. *)
Definition hash_pair (df : DataFrame) (t1 t2 : Z) (k1 k2 : option pyvalue)
    : Prop :=
  exists (r : Series) h1 h2,
    r ∈ df /\ NoDup (keys r)
    /\ generate_record_hash (dict_set "upload_timestamp" (VTime t1) r) = Ok h1
    /\ generate_record_hash (dict_set "upload_timestamp" (VTime t2) r) = Ok h2
    /\ k1 = Some (VStr h1) /\ k2 = Some (VStr h2).

Definition accepted_rel (df : DataFrame) (t1 t2 : Z) (r1 r2 : Series) : Prop :=
  meta_eq r1 r2 /\ hash_pair df t1 t2 (record_hash_of r1) (record_hash_of r2).

End Notions.

(** ** A runtime to evaluate the pipeline with

    An executable stand-in for the Python runtime, for running the
    definitions on concrete frames. Its digest is collision-free: the
    serialisation of the items is injective and the digest keeps all of it.
    Its pattern matcher knows the three patterns of the registry, its
    [float] reads decimal integers, its sampler takes the first rows and
    its driver accepts every write and resolves every lookup, as one whose
    column names match in any case. No statement over all runtimes depends
    on it. *)

Module Model.

Global Instance spec_float_countable : Countable spec_float.
Proof.
  refine (inj_countable'
    (fun f => match f with
              | S754_zero s => inl (inl s)
              | S754_infinity s => inl (inr s)
              | S754_nan => inr (inl ())
              | S754_finite s m e => inr (inr (s, m, e))
              end)
    (fun x => match x with
              | inl (inl s) => S754_zero s
              | inl (inr s) => S754_infinity s
              | inr (inl _) => S754_nan
              | inr (inr (s, m, e)) => S754_finite s m e
              end) _).
  by intros [].
Defined.

Global Instance pyvalue_countable : Countable pyvalue.
Proof.
  refine (inj_countable'
    (fun v => match v with
              | VNull => inl (inl ())
              | VInt z => inl (inr z)
              | VFloat f => inr (inl f)
              | VStr s => inr (inr (inl s))
              | VTime t => inr (inr (inr t))
              end)
    (fun x => match x with
              | inl (inl _) => VNull
              | inl (inr z) => VInt z
              | inr (inl f) => VFloat f
              | inr (inr (inl s)) => VStr s
              | inr (inr (inr t)) => VTime t
              end) _).
  by intros [].
Defined.

Definition all_chars (p : ascii -> bool) (s : string) : bool :=
  forallb p (String.list_ascii_of_string s).

Definition is_digit (c : ascii) : bool :=
  let n := N_of_ascii c in (48 <=? n)%N && (n <=? 57)%N.

Definition is_name_char (c : ascii) : bool :=
  PyStr.is_lower c || PyStr.is_upper c || is_digit c
  || bool_decide (c = "-"%char) || bool_decide (c = "_"%char).

Definition is_base (c : ascii) : bool :=
  bool_decide (c ∈ ["A"; "C"; "G"; "T"]%char).

Definition nonempty_of (p : ascii -> bool) (s : string) : bool :=
  negb (String.eqb s "") && all_chars p s.

Definition strip_chr (s : string) : string :=
  if String.prefix "chr" s then String.substring 3 (String.length s - 3) s else s.

(** The three patterns of the registry; [$] also matches before a final
    newline. *)
Definition matches (pattern s : string) : bool :=
  let body :=
    match String.rev s with
    | String c r => if bool_decide (c = "010"%char) then String.rev r else s
    | EmptyString => s
    end in
  let either (p : string -> bool) := p s || p body in
  if String.eqb pattern name_pattern then either (nonempty_of is_name_char)
  else if String.eqb pattern bases_pattern then either (nonempty_of is_base)
  else if String.eqb pattern chrom_pattern then
    either (fun x => nonempty_of is_digit (strip_chr x)
                     || bool_decide (strip_chr x ∈ ["X"; "Y"]))
  else false.

(** Decimal integers and the two special names, of all that [float]
    reads. *)
Definition parse_float (s : string) : option spec_float :=
  let s := PyStr.lower (PyStr.strip s) in
  if String.eqb s "nan" then Some S754_nan
  else if String.eqb s "inf" then Some (S754_infinity false)
  else if String.eqb s "-inf" then Some (S754_infinity true)
  else if nonempty_of is_digit s then
    Some (binary_normalize 53 1024
            (fold_left (fun acc c => 10 * acc + Z.of_N (N_of_ascii c - 48))
                       (String.list_ascii_of_string s) 0) 0 false)
  else None.

(** The binary digits of a positive number, lowest first and without the
    leading one: an injective way to print it. *)
Fixpoint pos_bits (p : positive) : string :=
  match p with
  | xH => ""
  | xO p' => String "0" (pos_bits p')
  | xI p' => String "1" (pos_bits p')
  end.

Global Instance runtime : PyRuntime := {|
  float_of_str := parse_float;
  str_of_float := fun f => pos_bits (encode f);
  str_of_time := fun t => pretty t;
  str_of_items := fun l => pos_bits (encode l);
  md5_hexdigest := fun s => s;
  re_match := matches;
  df_sample := fun n df => take n df;
  to_sql_error := fun _ _ _ => None;
  read_sql_error := fun _ _ _ => None
|}.

End Model.

(** ** Frames and rules the examples use *)

Module Sample.

(** The floats 5.2, 0.1, 0.3 and -1.0 *)
Definition f5_2 : spec_float := S754_finite false 5854679515581645 (-50).
Definition f0_1 : spec_float := S754_finite false 7205759403792794 (-56).
Definition f0_3 : spec_float := S754_finite false 5404319552844595 (-54).
Definition minus_one : spec_float := S754_finite true 4503599627370496 (-52).

Definition empty_db : database := {| tables := ∅; queries := [] |}.

(** A row of a TMB file, as [read_file] hands it over. *)
Definition tmb_row (tmb : spec_float) : Series :=
  [ ("SampleName", VStr "S1"); ("TMB", VFloat tmb);
    ("BinomialLow", VFloat f0_1); ("BinomialHigh", VFloat f0_3) ].

(** A record below the minimum of its [TMB] rule, a record that meets its
    rules, and the latter twice. *)
Definition invalid_frame : DataFrame := [tmb_row minus_one].
Definition valid_frame : DataFrame := [tmb_row f5_2].
Definition twin_frame : DataFrame := [tmb_row f5_2; tmb_row f5_2].

(** A database whose [tmb_data] table holds two rows already. *)
Definition stocked_db : database :=
  {| tables := {["tmb_data" := twin_frame]}; queries := [] |}.

Definition chrom_rule : field_rule := rule TStr (Some chrom_pattern) None None.
Definition start_rule : field_rule := rule TInt None (Some 0) None.

End Sample.

(** * The rest of the file: names, files and the loop of [main]

    The functions of [src/genomic_data_upload.py] around the pipeline:
    [clean_column_name], [get_table_name], [get_default_file_patterns],
    [find_files], [read_file] and the part of [main] that groups the files
    and processes them. Further conventions:
    - the frame [pd.read_csv] returns is a [Frame], labels and rows, and
      what it returns for a path is the interface [FileSystem];
    - what [glob.glob] returns for a pattern is the interface [Directory];
    - [generate_qc_report], which computes statistics in floating point and
      writes a file, and the clock are the interface [Surroundings];
    - a name bound to objects of two types, as [processed_files] in [main],
      is a value of the sum [pyobj]. *)

(** ** Notions for the properties of the Validator and the uploads *)

Section Conformance.

Context {rt : PyRuntime}.

(** The rational number a float stands for; NaN and the infinities stand
    for none. *)
Definition float_value (f : spec_float) : option QArith_base.Q :=
  match f with
  | S754_zero _ => Some (QArith_base.inject_Z 0)
  | S754_finite s m e =>
      let n := if s then Z.neg m else Z.pos m in
      Some (if 0 <=? e then QArith_base.inject_Z (n * 2 ^ e)
            else QArith_base.Qmake n (Z.to_pos (2 ^ (- e))))
  | _ => None
  end.

(** A number within a bound, the bound included. An infinity is within
    the bounds on its side. NaN, which is a [float] and is neither below
    nor above any number, is within every bound. *)
Definition at_least (v : pyvalue) (lo : Z) : Prop :=
  match v with
  | VInt a => lo <= a
  | VFloat f =>
      match float_value f with
      | Some q => QArith_base.Qle (QArith_base.inject_Z lo) q
      | None => f = S754_nan \/ f = S754_infinity false
      end
  | _ => True
  end.

Definition at_most (v : pyvalue) (hi : Z) : Prop :=
  match v with
  | VInt a => a <= hi
  | VFloat f =>
      match float_value f with
      | Some q => QArith_base.Qle q (QArith_base.inject_Z hi)
      | None => f = S754_nan \/ f = S754_infinity true
      end
  | _ => True
  end.

(** What the rule of a schema column asks of a standardized value: a
    missing value only where the rule does not require one; otherwise the
    type of the rule, and then its pattern for a string, its bounds, both
    inclusive, for a number. *)
Definition conforms (schema_col : field_rule) (std_val : pyvalue) : Prop :=
  if is_None std_val then rule_required schema_col = false
  else
    isinstance std_val (rule_type schema_col) = true
    /\ match rule_type schema_col with
       | TStr =>
           forall pat, rule_pattern schema_col = Some pat ->
                       re_match pat (py_str std_val) = true
       | _ =>
           (forall lo, rule_min schema_col = Some lo -> at_least std_val lo)
           /\ (forall hi, rule_max schema_col = Some hi -> at_most std_val hi)
       end.

(** A frame whose text cells are ASCII: the frames on which the [str]
    methods of [PyStr] are those of Python. *)
Definition ascii_frame (df : DataFrame) : Prop :=
  forall (r : Series) c s, r ∈ df -> (c, VStr s) ∈ r -> PyStr.is_ascii s = true.

End Conformance.

Section Samplers.

Context {rt : PyRuntime}.

(** A sampler that draws rows of the frame it is given. *)
Definition sampler_draws_rows : Prop :=
  forall n (df : DataFrame) r, r ∈ df_sample n df -> r ∈ df.

(** The records [verify_upload] looks up. *)
Definition sampled_records (df : DataFrame) : DataFrame :=
  let sample_size := Nat.min 5 (length df) in
  if Nat.ltb 0 sample_size then df_sample sample_size df else [].

(** The chunks, of a list of chunks put to the driver one after the other
    for one table, whose write the driver accepts: each write is put with
    the tables as the accepted writes before it left them. *)
Fixpoint accepted_chunks (tabs : gmap string (list Series))
    (table_name : string) (chunks : list DataFrame) : list DataFrame :=
  match chunks with
  | [] => []
  | chunk :: chunks' =>
      match to_sql_error tabs table_name chunk with
      | None =>
          chunk :: accepted_chunks
                     (<[table_name := default [] (tabs !! table_name) ++ chunk]> tabs)
                     table_name chunks'
      | Some _ => accepted_chunks tabs table_name chunks'
      end
  end.

End Samplers.

(** A frame and a table with the names a database keeps as they are: in
    lower case, and under no schema. *)
Module SampleUpload.

Definition panel_frame : DataFrame :=
  [ [("samplename", VStr "S1"); ("depth", VInt 30)];
    [("samplename", VStr "S2"); ("depth", VInt 41)] ].

Definition panel_db : database :=
  {| tables := {["panel_data" := panel_frame]}; queries := [] |}.

End SampleUpload.

(** ** Names: columns, tables, files *)

(** More [str] methods, and the two functions of [os.path] the code calls,
    for POSIX paths. *)
Module PyText.

(** [s.replace(old, new)] for two one-character strings *)
Definition replace_char (old new : ascii) : string -> string :=
  PyStr.map_chars (fun c => if Ascii.eqb c old then new else c).

(** [s.split(sep)[0]] for a one-character [sep]: what stands before the
    first [sep], all of [s] when it has none. *)
Fixpoint before (sep : ascii) (s : string) : string :=
  match s with
  | EmptyString => EmptyString
  | String c s' => if Ascii.eqb c sep then EmptyString else String c (before sep s')
  end.

(** What stands after the last [sep], all of [s] when it has none. *)
Definition after_last (sep : ascii) (s : string) : string :=
  String.rev (before sep (String.rev s)).

(** [s.endswith(suffix)] *)
Definition endswith (suffix s : string) : bool :=
  String.prefix (String.rev suffix) (String.rev s).

(** [s[1:]] *)
Definition tail (s : string) : string :=
  match s with
  | EmptyString => EmptyString
  | String _ s' => s'
  end.

(** [os.path.basename(p)] *)
Definition basename (p : string) : string := after_last "/" p.

(** [os.path.splitext(p)[1]]: the extension starts at the last dot of the
    last component of the path, unless only dots stand before that dot in
    the component. *)
Definition splitext_ext (p : string) : string :=
  let name := basename p in
  let last := after_last "." name in
  let stem := String.substring 0 (String.length name - S (String.length last)) name in
  if Nat.ltb (String.length last) (String.length name)
     && negb (forallb (Ascii.eqb ".") (String.list_ascii_of_string stem))
  then String "." last
  else EmptyString.

End PyText.

(** [clean_column_name], lines 38-40 *)
Definition clean_column_name (column_name : string) : string :=
  PyStr.lower
    (PyText.replace_char "-" "_" (PyText.replace_char " " "_" column_name)).

(** What [clean_column_name] does to one character. *)
Definition clean_char (c : ascii) : ascii :=
  PyStr.lower_char
    ((fun c => if Ascii.eqb c "-" then "_"%char else c)
       ((fun c => if Ascii.eqb c " " then "_"%char else c) c)).

(** [get_table_name], lines 42-49. A file type that is [None] or the empty
    string is replaced by the extension of the file. *)
Definition get_table_name (file_path : string) (file_type : option string)
    : string :=
  match file_type with
  | Some (String _ _ as file_type) => file_type +:+ "_data"
  | _ =>
      let file_type := PyText.tail (PyText.splitext_ext file_path) in
      let base_name := PyText.before "-" (PyText.basename file_path) in
      base_name +:+ "_" +:+ file_type +:+ "_data"
  end.

(** The file type [main] gives a path, lines 752-765; [None] for a file it
    does not recognise. *)
Definition file_type_of (file_path : string) : option string :=
  let file_lower := PyStr.lower file_path in
  if PyStr.contains "tmb" file_lower then Some "tmb"
  else if PyText.endswith ".cns" file_lower then Some "cns"
  else if PyStr.contains "mean_gene_coverage" file_lower then Some "coverage"
  else if PyStr.contains "mastervarfinal" file_lower then Some "mastervar"
  else if PyStr.contains "segments.called.named" file_lower then Some "segments"
  else None.

(** [file_groups[file_type].append(file_path)] on the [defaultdict(list)]:
    a new type goes to the end. *)
Fixpoint group_append (file_type file_path : string)
    (file_groups : list (string * list string)) : list (string * list string) :=
  match file_groups with
  | [] => [(file_type, [file_path])]
  | (t, files) :: file_groups' =>
      if String.eqb file_type t then (t, files ++ [file_path]) :: file_groups'
      else (t, files) :: group_append file_type file_path file_groups'
  end.

(** The loop "Group files by type", lines 750-770 *)
Definition group_files (files_to_process : list string)
    : list (string * list string) :=
  fold_left
    (fun file_groups file_path =>
       match file_type_of file_path with
       | Some file_type => group_append file_type file_path file_groups
       | None => file_groups
       end)
    files_to_process [].

(** ** Finding the files *)

(** [get_default_file_patterns], lines 520-528 *)
Definition get_default_file_patterns : list (string * list string) :=
  [ ("tmb", ["TMB*.tsv"]);
    ("cns", ["*.cns"]);
    ("coverage", ["*mean_gene_coverage.tsv"]);
    ("mastervar", ["*Run_masterVarFinal.txt"]);
    ("segments", ["*segments.called.named.tsv"]) ].

(** [os.path.join(a, b)] *)
Definition path_join (a b : string) : string :=
  if String.prefix "/" b then b
  else if String.eqb a "" || PyText.endswith "/" a then a +:+ b
  else a +:+ "/" +:+ b.

(** The paths [glob.glob] returns for a pattern. *)
Class Directory := {
  glob : string -> list string
}.

Section Finder.

Context {dir : Directory}.

(** [find_files], lines 530-546 *)
Definition find_files (directory : string) (patterns : option (list string))
    : list string :=
  let patterns :=
    match patterns with
    | Some patterns => patterns
    | None => concat (map snd get_default_file_patterns)
    end in
  concat (map (fun pattern => glob (path_join directory pattern)) patterns).

(** What a path matched by a pattern with one star has: the text before
    the star at its start, the text after the star at its end. *)
Definition star_match (pattern path : string) : bool :=
  String.prefix (PyText.before "*" pattern) path
  && PyText.endswith (PyText.after_last "*" pattern) path.

(** A [glob] whose paths match the pattern they were found with. *)
Definition glob_matches : Prop :=
  forall pattern path, path ∈ glob pattern -> star_match pattern path = true.

End Finder.

(** A directory for the examples. *)
Module SampleDirectory.

Definition listing : list string :=
  ["/data/TMB2023.tsv"; "/data/S1.run7.cns"; "/data/notes.md";
   "/data/S1.segments.called.named.tsv"].

Global Instance directory : Directory := {|
  glob := fun pattern =>
    filter (fun path => Is_true (star_match pattern path)) listing
|}.

End SampleDirectory.

(** ** Reading a file *)

(** The frame [pd.read_csv] returns, with its column labels kept apart
    from its rows, so that a frame without rows still has its columns. The
    rows are as long as the list of labels. *)
Record Frame := {
  columns : list string;
  rows : list (list pyvalue)
}.

(** The rows of a frame as the pipeline takes them. *)
Definition records (df : Frame) : DataFrame :=
  map (fun r => zip (columns df) r) (rows df).

(** The position of a label among the columns *)
Fixpoint column_index (c : string) (cols : list string) : option nat :=
  match cols with
  | [] => None
  | c' :: cols' =>
      if String.eqb c c' then Some O else S <$> column_index c cols'
  end.

(** The positions of a list of labels; [None] when one is missing. *)
Fixpoint column_indexes (labels cols : list string) : option (list nat) :=
  match labels with
  | [] => Some []
  | c :: labels' =>
      i ← column_index c cols;
      indexes ← column_indexes labels' cols;
      Some (i :: indexes)
  end.

(** The cell of a row at a position *)
Definition cell (r : list pyvalue) (i : nat) : pyvalue := default NaN (r !! i).

(** [df[[c1, .., cn]].copy()]; [None] is the [KeyError] for a label the
    frame does not have. *)
Definition frame_select (labels : list string) (df : Frame) : option Frame :=
  indexes ← column_indexes labels (columns df);
  Some {| columns := labels;
          rows := map (fun r => map (cell r) indexes) (rows df) |}.

(** [df.columns = labels]; [None] is the [ValueError] for a list of another
    length. *)
Definition set_columns (labels : list string) (df : Frame) : option Frame :=
  if Nat.eqb (length labels) (length (columns df))
  then Some {| columns := labels; rows := rows df |}
  else None.

(** [df[c] = v] for a scalar [v]: the column is overwritten, or added as
    the last one. *)
Definition set_column (c : string) (v : pyvalue) (df : Frame) : Frame :=
  match column_index c (columns df) with
  | Some i => {| columns := columns df; rows := map (fun r => <[i := v]> r) (rows df) |}
  | None => {| columns := columns df ++ [c]; rows := map (fun r => r ++ [v]) (rows df) |}
  end.

(** What [pd.read_csv] gives for a path; [None] when it raises. *)
Class FileSystem := {
  (** [pd.read_csv(file_path, sep='\t')] *)
  read_csv : string -> option Frame;
  (** [pd.read_csv(file_path, sep='\t', usecols=usecols, names=names)] *)
  read_csv_names : string -> list nat -> list string -> option Frame
}.

Definition tmb_file_columns : list string := ["Samplename"; "FAF"; "FAD"; "FRD"].
Definition tmb_columns : list string :=
  ["SampleName"; "TMB"; "BinomialLow"; "BinomialHigh"].

Definition cns_file_columns : list string :=
  ["chromosome"; "start"; "end"; "gene"; "log2"; "ci_hi"; "ci_lo"; "cn";
   "depth"; "probes"; "weight"].
Definition cns_columns : list string :=
  ["CHROM"; "START"; "STOP"; "GENE"; "log2"; "ci_hi"; "ci_lo"; "cn"; "DEPTH";
   "probes"; "weight"].

Definition coverage_file_columns : list string := ["NAME"; "GENE"; "MEAN_COVERAGE"].
Definition coverage_columns : list string := ["SampleName"; "GENE"; "MEAN_COVERAGE"].

Definition mastervar_columns : list string :=
  ["SampleName"; "CHROM"; "POS"; "REF"; "ALT"; "TYPE"; "GENE"; "TRANSCRIPT";
   "EXON"; "EFFECT"; "C_CHANGE"; "P_CHANGE"; "GENE_REGION"; "DEPTH"; "RD";
   "AD"; "AF"; "STRAND"; "START"; "STOP"].
Definition mastervar_usecols : list nat :=
  [0; 1; 2; 66; 67; 3; 4; 11; 27; 15; 5; 16; 25; 26; 51; 52; 53; 54; 13; 58]%nat.

Definition segments_columns : list string :=
  ["SampleName"; "GENE"; "CHROM"; "START"; "STOP"; "log2"; "cn"; "DEPTH";
   "weight"; "ci_hi"; "ci_lo"; "probes"; "segment_weight"; "segment_probes"].

(** [{col.lower(): col for col in df.columns}.get(name)]: of the labels
    that are [name] in lower case, the last one. *)
Definition label_in_any_case (name : string) (cols : list string) : option string :=
  last (filter (fun col => PyStr.lower col = name) cols).

(** The frame the segments branch builds, a column at a time, in an empty
    [new_df]. A required column the file has brings its cells, and the
    first such column brings the rows; a column the file lacks is [None]
    in every row, and NaN when it was set before there were rows. Without
    any of the required columns the frame has no rows. *)
Definition segments_frame (df : Frame) : Frame :=
  let sources :=
    map (fun req_col =>
           label ← label_in_any_case (PyStr.lower req_col) (columns df);
           column_index label (columns df))
        segments_columns in
  let first := list_find is_Some sources in
  {| columns := segments_columns;
     rows :=
       match first with
       | None => []
       | Some (k, _) =>
           map (fun r =>
                  imap (fun j source =>
                          match source with
                          | Some i => cell r i
                          | None => if Nat.ltb j k then NaN else VNull
                          end)
                       sources)
               (rows df)
       end |}.

(** The test of line 196: a file "without special handling". *)
Definition no_special_handling (file_path : string) : bool :=
  let ext := PyStr.lower (PyText.splitext_ext file_path) in
  let base_name := PyStr.lower (PyText.basename file_path) in
  negb (String.eqb base_name "tmb2022.tsv")
  && negb (String.eqb ext ".cns")
  && negb (PyStr.contains "segments.called.named.tsv" base_name)
  && negb (PyStr.contains "mean_gene_coverage.tsv" base_name)
  && negb (PyStr.contains "run_mastervarfinal.txt" base_name).

Section Reader.

Context {fs : FileSystem}.

(** [read_file], lines 123-202. Every exception ends in [return None]. *)
Definition read_file (file_path : string) : option Frame :=
  let ext := PyStr.lower (PyText.splitext_ext file_path) in
  let base_name := PyStr.lower (PyText.basename file_path) in
  df ←
    (if String.eqb base_name "tmb2022.tsv" then
       df ← read_csv file_path;
       df ← frame_select tmb_file_columns df;
       set_columns tmb_columns df
     else if String.eqb ext ".cns" then
       df ← read_csv file_path;
       let sample_name := PyText.before "." (PyText.basename file_path) in
       df ← frame_select cns_file_columns df;
       df ← set_columns cns_columns df;
       Some (set_column "SampleName" (VStr sample_name) df)
     else if PyStr.contains "mean_gene_coverage.tsv" base_name then
       df ← read_csv file_path;
       df ← frame_select coverage_file_columns df;
       set_columns coverage_columns df
     else if PyStr.contains "run_mastervarfinal.txt" base_name then
       read_csv_names file_path mastervar_usecols mastervar_columns
     else if PyStr.contains "segments.called.named.tsv" base_name then
       df ← read_csv file_path;
       let sample_name := PyText.before "." (PyText.basename file_path) in
       Some (set_column "SampleName" (VStr sample_name) (segments_frame df))
     else if bool_decide (ext ∈ [".tsv"; ".txt"]) then read_csv file_path
     else if String.eqb ext ".cnr" then read_csv file_path
     else None);
  if no_special_handling file_path
  then set_columns (map clean_column_name (columns df)) df
  else Some df.

End Reader.

(** ** A file system for the examples

    One TMB file of another year than 2022, with a negative TMB, and the
    table of a cns file, found under a cns name and under a segments
    name. *)

Module SampleFiles.

Definition tmb2023 : Frame :=
  {| columns := ["Samplename"; "FAF"; "FAD"; "FRD"];
     rows := [[VStr "S1"; VFloat Sample.minus_one; VFloat Sample.f0_1;
               VFloat Sample.f0_3]] |}.

Definition s1_cns : Frame :=
  {| columns := ["chromosome"; "start"; "end"; "gene"; "log2"; "ci_hi";
                 "ci_lo"; "cn"; "depth"; "probes"; "weight"];
     rows := [[VStr "chr1"; VInt 100; VInt 200; VStr "TP53";
               VFloat Sample.f0_1; VFloat Sample.f0_3; VFloat Sample.f0_1;
               VInt 2; VFloat Sample.f5_2; VInt 10; VFloat Sample.f0_3]] |}.

Global Instance files : FileSystem := {|
  read_csv := fun file_path =>
    if String.eqb file_path "/data/TMB2023.tsv" then Some tmb2023
    else if String.eqb file_path "/data/S1.run7.cns" then Some s1_cns
    else if String.eqb file_path "/data/S1.segments.called.named.tsv"
    then Some s1_cns
    else None;
  read_csv_names := fun _ _ _ => None
|}.

End SampleFiles.

(** ** The loop of [main] over the files *)

(** The two kinds of object the name [processed_files] is bound to in
    [main]: a list of paths (line 703) and an [int] (line 788). *)
Inductive pyobj :=
  | PyInt (n : Z)
  | PyList (l : list string).

(** [obj.append(x)]; [None] is the [AttributeError] of an object that has
    no such method. *)
Definition py_append (obj : pyobj) (x : string) : option pyobj :=
  match obj with
  | PyList l => Some (PyList (l ++ [x]))
  | PyInt _ => None
  end.

(** [len(obj)]; [None] is the [TypeError] of an object without a length. *)
Definition py_len (obj : pyobj) : option nat :=
  match obj with
  | PyList l => Some (length l)
  | PyInt _ => None
  end.

(** The command-line arguments the loop reads. *)
Record arguments := {
  args_parallel : bool;
  args_chunk_size : Z;
  args_dry_run : bool
}.

(** What the loop has built so far; [files_seen] counts the files taken
    up, to tell the clock readings apart. *)
Record run := {
  processed_files : pyobj;
  failed_files : list string;
  qc_reports : list string;
  run_engine : database;
  files_seen : nat
}.

(** What the loop calls outside the pipeline. *)
Class Surroundings := {
  (** [generate_qc_report(df, table_name, args.qc_dir)]: the path of the
      report; [None] when writing it raises *)
  generate_qc_report : DataFrame -> string -> option string;
  (** the reading of [datetime.now()] while the [n]-th file is processed *)
  clock : nat -> Z
}.

Section Main.

Context {rt : PyRuntime} {fs : FileSystem} {env : Surroundings}.

(** [failed_files.append(file_path)], in the [else] branches and in the
    handler of the [try] *)
Definition record_failure (file_path : string) (st : run) : run :=
  {| processed_files := processed_files st;
     failed_files := failed_files st ++ [file_path];
     qc_reports := qc_reports st;
     run_engine := run_engine st;
     files_seen := files_seen st |}.

(** [processed_files.append(file_path)] inside the [try]: when it raises,
    the handler records the file as failed. *)
Definition record_success (file_path : string) (st : run) : run :=
  match py_append (processed_files st) file_path with
  | Some obj =>
      {| processed_files := obj;
         failed_files := failed_files st;
         qc_reports := qc_reports st;
         run_engine := run_engine st;
         files_seen := files_seen st |}
  | None => record_failure file_path st
  end.

(** The body of the loop, lines 794-831, for one file. [backup_table]
    reads the table and writes a file, and catches what it raises: it
    leaves the tables as they are, and its [SELECT] is not one of the
    queries of the Verifier, which are those the log of the store keeps. *)
Definition process_file (args : arguments) (file_type file_path : string)
    (st : run) : run :=
  let now := clock (files_seen st) in
  let st :=
    {| processed_files := processed_files st;
       failed_files := failed_files st;
       qc_reports := qc_reports st;
       run_engine := run_engine st;
       files_seen := S (files_seen st) |} in
  match read_file file_path with
  | Some frame =>
      let df := records frame in
      let table_name := get_table_name file_path (Some file_type) in
      match generate_qc_report df table_name with
      | None => record_failure file_path st
      | Some qc_report =>
          let st :=
            {| processed_files := processed_files st;
               failed_files := failed_files st;
               qc_reports := qc_reports st ++ [qc_report];
               run_engine := run_engine st;
               files_seen := files_seen st |} in
          if negb (args_dry_run args) then
            let outcome :=
              if args_parallel args
                 && (args_chunk_size args <? Z.of_nat (length df))
              then parallel_upload df table_name (run_engine st)
                     (args_chunk_size args) now
              else Ok (upload_to_database df table_name (run_engine st) now) in
            match outcome with
            | Raise _ => record_failure file_path st
            | Ok (success, engine) =>
                let st :=
                  {| processed_files := processed_files st;
                     failed_files := failed_files st;
                     qc_reports := qc_reports st;
                     run_engine := engine;
                     files_seen := files_seen st |} in
                if success then record_success file_path st
                else record_failure file_path st
            end
          else record_success file_path st
      end
  | None => record_failure file_path st
  end.

(** The two loops, lines 791-793 *)
Definition process_groups (args : arguments)
    (file_groups : list (string * list string)) (st : run) : run :=
  fold_left
    (fun st group =>
       fold_left (fun st file_path => process_file args group.1 file_path st)
                 group.2 st)
    file_groups st.

(** [main] from "Group files by type" to the end of the loops, on the files
    found and the engine created: [processed_files] is the [int] of line
    788 from the start. *)
Definition process_all (args : arguments) (files_to_process : list string)
    (engine : database) : run :=
  process_groups args (group_files files_to_process)
    {| processed_files := PyInt 0;
       failed_files := [];
       qc_reports := [];
       run_engine := engine;
       files_seen := O |}.

(** The first line of the summary, line 838:
    [len(processed_files) + len(failed_files)]. *)
Definition total_files_found (st : run) : option nat :=
  n ← py_len (processed_files st); Some (n + length (failed_files st))%nat.

End Main.

(** Surroundings for the examples: every report is written, and the clock
    ticks once for each file. *)
Module SampleRun.

Global Instance surroundings : Surroundings := {|
  generate_qc_report := fun _ table_name =>
    Some ("qc_reports/" +:+ table_name +:+ "_qc_report.json");
  clock := fun n => Z.of_nat n
|}.

Definition dry_run_arguments : arguments :=
  {| args_parallel := false; args_chunk_size := 10000; args_dry_run := true |}.

End SampleRun.

(** * Properties *)

Import Sample.

(** ** Strings and the chromosome rule *)

Module PyStrFacts.
Import PyStr.

Lemma upper_char_idem c : upper_char (upper_char c) = upper_char c.
Proof.
  unfold upper_char. destruct (is_lower c) eqn:E; [|by rewrite E].
  assert (is_lower (ascii_of_N (N_of_ascii c - 32)) = false) as ->; [|done].
  unfold is_lower in *. apply andb_true_iff in E as [E1 E2].
  apply N.leb_le in E1, E2.
  rewrite N_ascii_embedding by lia.
  apply andb_false_iff. left. apply N.leb_gt. lia.
Qed.

Lemma upper_idem s : upper (upper s) = upper s.
Proof.
  unfold upper. induction s as [|c s IH]; simpl; [done|].
  by rewrite upper_char_idem, IH.
Qed.

Lemma remove_from_upper old k s :
  upper s = s -> upper (remove_from old k s) = remove_from old k s.
Proof.
  unfold upper. revert k. induction s as [|c s IH]; intros k; simpl; [done|].
  intros [= Hc Hs]. destruct k as [|k]; [|by apply IH].
  case_match; [by apply IH|].
  simpl. by rewrite Hc, IH.
Qed.

Lemma contains_cons sub c s :
  contains sub (String c s) = false ->
  String.prefix sub (String c s) = false /\ contains sub s = false.
Proof. simpl. intros H. by apply orb_false_iff in H. Qed.

Lemma remove_absent old s : contains old s = false -> remove old s = s.
Proof.
  unfold remove. induction s as [|c s IH]; [done|].
  intros [Hp Hs]%contains_cons. simpl in *. rewrite Hp. by rewrite IH.
Qed.

Lemma remove_CHR_prefix s : remove "CHR" ("CHR" +:+ s) = remove "CHR" s.
Proof. by destruct s. Qed.

Lemma prefix_length p s :
  String.prefix p s = true -> (String.length p <= String.length s)%nat.
Proof.
  revert s. induction p as [|a p IH]; intros s; [simpl; lia|].
  destruct s as [|b s]; simpl; [done|].
  destruct (ascii_dec a b); [|done]. intros H%IH. lia.
Qed.

Lemma remove_from_length old k s :
  (String.length (remove_from old k s) + Nat.min k (String.length s)
   <= String.length s)%nat.
Proof.
  revert k. induction s as [|c s IH]; intros k; simpl; [lia|].
  destruct k as [|k].
  - case_match; simpl.
    + specialize (IH (Nat.pred (String.length old))). lia.
    + specialize (IH O). lia.
  - specialize (IH k). lia.
Qed.

(** Removing a text that occurs shortens the string by its length at
    least. *)
Lemma remove_length old s :
  contains old s = true ->
  (String.length (remove old s) + String.length old <= String.length s)%nat.
Proof.
  unfold remove. induction s as [|c s IH].
  { destruct old; simpl; [lia|done]. }
  cbn [contains remove_from]. destruct (String.prefix old (String c s)) eqn:Ep.
  - intros _. apply prefix_length in Ep. simpl in Ep.
    pose proof (remove_from_length old (Nat.pred (String.length old)) s).
    cbn [String.length]. lia.
  - simpl. intros H%IH. lia.
Qed.

End PyStrFacts.

Section Normalizer.
Context {rt : PyRuntime}.

Lemma standardize_chrom value col r :
  PyStr.contains "CHROM" col = true -> isna value = false ->
  standardize_value value col r
  = Ok (VStr (chrom_alias (PyStr.remove "CHR" (PyStr.upper (py_str value))))).
Proof.
  intros Hc Hn. unfold standardize_value, chrom_alias. rewrite Hn, Hc.
  by repeat case_match.
Qed.

Lemma chrom_alias_upper s : PyStr.upper s = s -> PyStr.upper (chrom_alias s) = chrom_alias s.
Proof. intros H. unfold chrom_alias. by repeat case_match. Qed.

Lemma remove_upper_spec s :
  let rest := spec_strip_chr_prefix s in
  PyStr.upper rest = rest -> PyStr.contains "CHR" rest = false ->
  PyStr.remove "CHR" (PyStr.upper s) = rest.
Proof.
  intros rest Hu Hc.
  assert (PyStr.upper s = "CHR" +:+ rest \/ s = rest) as [E|E].
  { subst rest. unfold spec_strip_chr_prefix in *.
    destruct s as [|a [|b [|c s]]]; auto.
    destruct (String.eqb_spec (PyStr.upper (String a (String b (String c "")))) "CHR") as [E|E]; auto.
    left. unfold PyStr.upper in *. simpl in *.
    injection E as -> -> ->. by rewrite Hu. }
  - rewrite E, PyStrFacts.remove_CHR_prefix. by apply PyStrFacts.remove_absent.
  - rewrite E, Hu. by apply PyStrFacts.remove_absent.
Qed.

(** What the code removes: the prefix the specification strips, and every
    "CHR" of what is left, in upper case. *)
Lemma remove_upper_rest s :
  PyStr.remove "CHR" (PyStr.upper s)
  = PyStr.remove "CHR" (PyStr.upper (spec_strip_chr_prefix s)).
Proof.
  unfold spec_strip_chr_prefix.
  destruct s as [|a [|b [|c s]]]; try done.
  destruct (String.eqb_spec (PyStr.upper (String a (String b (String c "")))) "CHR")
    as [E|E]; [|done].
  unfold PyStr.upper in *. cbn [PyStr.map_chars] in *. injection E as -> -> ->.
  apply (PyStrFacts.remove_CHR_prefix (PyStr.map_chars PyStr.upper_char s)).
Qed.

Lemma chrom_alias_length s :
  (String.length s <= String.length (chrom_alias s) <= String.length s + 1)%nat.
Proof.
  unfold chrom_alias.
  destruct (String.eqb_spec s "X") as [->|_]; [simpl; lia|].
  destruct (String.eqb_spec s "Y") as [->|_]; simpl; lia.
Qed.

Lemma chrom_alias_upper_inv s :
  PyStr.upper (chrom_alias s) = chrom_alias s -> PyStr.upper s = s.
Proof.
  unfold chrom_alias.
  destruct (String.eqb_spec s "X") as [->|_]; [done|].
  by destruct (String.eqb_spec s "Y") as [->|_].
Qed.

(** The code and the rule of the specification agree on a value exactly
    when what follows its prefix is in upper case and holds no "CHR". *)
Lemma remove_upper_spec_iff s :
  let rest := spec_strip_chr_prefix s in
  chrom_alias (PyStr.remove "CHR" (PyStr.upper s)) = spec_normalize_chromosome s
  <-> PyStr.upper rest = rest /\ PyStr.contains "CHR" rest = false.
Proof.
  intros rest. split; [|intros [Hu Hc]; unfold spec_normalize_chromosome;
                        by rewrite remove_upper_spec].
  unfold spec_normalize_chromosome. fold rest. rewrite remove_upper_rest. fold rest.
  intros E.
  assert (PyStr.upper rest = rest) as Hu.
  { apply chrom_alias_upper_inv. rewrite <-E. apply chrom_alias_upper.
    apply PyStrFacts.remove_from_upper, PyStrFacts.upper_idem. }
  split; [done|]. rewrite Hu in E.
  destruct (PyStr.contains "CHR" rest) eqn:Ec; [|done].
  apply PyStrFacts.remove_length in Ec. simpl in Ec.
  pose proof (chrom_alias_length (PyStr.remove "CHR" rest)) as H1.
  pose proof (chrom_alias_length rest) as H2.
  rewrite E in H1. lia.
Qed.

End Normalizer.

(** ** The order of field names, and [sorted] *)

Lemma ltb_leb a b : String.ltb a b = true <-> String.leb a b = true /\ a <> b.
Proof.
  unfold String.ltb, String.leb.
  destruct (String.compare a b) eqn:E.
  - apply String.compare_eq_iff in E. split; [done|]. by intros [_ []].
  - split; [|done]. intros _. split; [done|]. intros ->.
    pose proof (String.compare_antisym b b) as H. rewrite E in H. done.
  - split; [done|]. by intros [? _].
Qed.

Lemma ltb_trans a b c :
  String.ltb a b = true -> String.ltb b c = true -> String.ltb a c = true.
Proof.
  rewrite !ltb_leb. intros [H1 N1] [H2 N2]. split.
  - apply Is_true_true. apply Is_true_true in H1, H2.
    exact (transitivity (R:=String.le) H1 H2).
  - intros ->. apply N1. apply Is_true_true in H1, H2.
    exact (anti_symm String.le _ _ H1 H2).
Qed.

Lemma ltb_asym a b : String.ltb a b = true -> String.ltb b a = true -> False.
Proof.
  rewrite !ltb_leb. intros [H1 N1] [H2 N2]. apply N1.
  apply Is_true_true in H1, H2. exact (anti_symm String.le _ _ H1 H2).
Qed.

Lemma ltb_total a b : a <> b -> String.ltb a b = false -> String.ltb b a = true.
Proof.
  intros N H. apply ltb_leb. split; [|done].
  destruct (total String.le a b) as [H1|H1]; apply Is_true_true in H1; [|done].
  assert (String.ltb a b = true) by by apply ltb_leb. congruence.
Qed.

Section Sorting.
Context {rt : PyRuntime}.

Lemma item_lt_keys x y : fst x <> fst y -> item_lt x y = Ok (String.ltb (fst x) (fst y)).
Proof. intros N. unfold item_lt. by destruct (String.eqb_spec (fst x) (fst y)). Qed.

Lemma sorted_insert_keys x l :
  fst x ∉ keys l -> StronglySorted key_lt l ->
  exists l', sorted_insert x l = Ok l' /\ l' ≡ₚ x :: l /\ StronglySorted key_lt l'.
Proof.
  induction l as [|y l IH]; intros Hx Hs; simpl.
  { exists [x]. split; [done|]. split; [done|]. apply SSorted_cons; constructor. }
  apply not_elem_of_cons in Hx as [Hxy Hx].
  apply StronglySorted_inv in Hs as [Hs Hy].
  rewrite item_lt_keys by done. simpl.
  destruct (String.ltb (fst y) (fst x)) eqn:E.
  - destruct (IH Hx Hs) as (l' & -> & Hp & Hs'). simpl.
    exists (y :: l'). split; [done|]. split.
    + rewrite Hp. apply Permutation_swap.
    + constructor; [done|]. rewrite Hp. by constructor.
  - exists (x :: y :: l). split; [done|]. split; [done|].
    assert (key_lt x y) as Hlt by (apply ltb_total; [done|done]).
    apply SSorted_cons; [by apply SSorted_cons|].
    apply Forall_cons_2; [done|].
    eapply Forall_impl; [exact Hy|]. intros z Hz. unfold key_lt in *.
    by eapply ltb_trans.
Qed.

Lemma py_sorted_keys l :
  NoDup (keys l) ->
  exists l', py_sorted l = Ok l' /\ l' ≡ₚ l /\ StronglySorted key_lt l'.
Proof.
  induction l as [|x l IH]; intros Hn; simpl.
  { exists []. split; [done|]. split; [done|constructor]. }
  apply NoDup_cons in Hn as [Hx Hn].
  destruct (IH Hn) as (s & -> & Hp & Hs). simpl.
  destruct (sorted_insert_keys x s) as (l' & E & Hp' & Hs'); [|done|].
  { unfold keys. by rewrite Hp. }
  exists l'. split; [done|]. split; [|done]. by rewrite Hp', Hp.
Qed.

Lemma key_sorted_unique (l1 l2 : list item) :
  StronglySorted key_lt l1 -> StronglySorted key_lt l2 -> l1 ≡ₚ l2 -> l1 = l2.
Proof.
  apply StronglySorted_unique_strong.
  intros x1 x2 _ _ H1 H2. destruct (ltb_asym _ _ H1 H2).
Qed.

Lemma py_sorted_perm l1 l2 :
  NoDup (keys l1) -> l1 ≡ₚ l2 -> py_sorted l1 = py_sorted l2.
Proof.
  intros Hn Hp.
  destruct (py_sorted_keys l1 Hn) as (s1 & -> & Hp1 & Hs1).
  destruct (py_sorted_keys l2) as (s2 & -> & Hp2 & Hs2).
  { unfold keys. by rewrite <-Hp. }
  f_equal. apply key_sorted_unique; [done..|]. by rewrite Hp1, Hp2.
Qed.

End Sorting.

(** ** Dicts, and the metadata columns *)

Lemma keys_dict_set k v d :
  keys (dict_set k v d) = if bool_decide (k ∈ keys d) then keys d else keys d ++ [k].
Proof.
  induction d as [|[k' v'] d IH]; simpl; [done|].
  destruct (String.eqb_spec k k') as [->|N]; simpl.
  - by rewrite bool_decide_eq_true_2 by left.
  - rewrite IH. destruct (decide (k ∈ keys d)) as [Hin|Hin].
    + by rewrite !bool_decide_eq_true_2 by (by try right).
    + rewrite !bool_decide_eq_false_2; [done|by intros [?|?]%elem_of_cons|done].
Qed.

Lemma NoDup_keys_dict_set k v d : NoDup (keys d) -> NoDup (keys (dict_set k v d)).
Proof.
  intros Hn. rewrite keys_dict_set. case_bool_decide; [done|].
  apply NoDup_app. split; [done|]. split; [|apply NoDup_singleton].
  intros x Hx ->%list_elem_of_singleton. done.
Qed.

Lemma dict_get_set_eq k v d : dict_get k (dict_set k v d) = Some v.
Proof.
  induction d as [|[k' v'] d IH]; simpl.
  - by rewrite String.eqb_refl.
  - destruct (String.eqb_spec k k') as [->|N]; simpl.
    + by rewrite String.eqb_refl.
    + by destruct (String.eqb_spec k k').
Qed.

Lemma dict_get_set_ne k k' v d : k <> k' -> dict_get k' (dict_set k v d) = dict_get k' d.
Proof.
  intros N. induction d as [|[k0 v0] d IH]; simpl.
  - by destruct (String.eqb_spec k' k).
  - destruct (String.eqb_spec k k0) as [->|N0]; simpl.
    + by destruct (String.eqb_spec k' k0).
    + by rewrite IH.
Qed.

Lemma dict_get_elem_of k v d : dict_get k d = Some v -> (k, v) ∈ d.
Proof.
  induction d as [|[k' v'] d IH]; simpl; [done|].
  destruct (String.eqb_spec k k') as [->|N].
  - intros [= ->]. left.
  - intros H. right. auto.
Qed.


Lemma NoDup_keys_agree (l : list item) k v1 v2 :
  NoDup (keys l) -> (k, v1) ∈ l -> (k, v2) ∈ l -> v1 = v2.
Proof.
  induction l as [|[k' v'] l IH]; simpl; [by intros _ ?%elem_of_nil|].
  intros [Hk Hn]%NoDup_cons [E1|H1]%elem_of_cons [E2|H2]%elem_of_cons;
    simplify_eq; auto.
  - destruct Hk. apply (list_elem_of_fmap_2 fst) in H2. done.
  - destruct Hk. apply (list_elem_of_fmap_2 fst) in H1. done.
Qed.

Lemma mapM_Ok {A B} (f : A -> res B) l l' :
  mapM f l = Ok l' <-> Forall2 (fun x y => f x = Ok y) l l'.
Proof.
  revert l'. induction l as [|x l IH]; intros l'; simpl.
  - split; [intros [= <-]; constructor|by intros ->%Forall2_nil_inv_l].
  - destruct (f x) as [y|e] eqn:E; simpl.
    + destruct (mapM f l) as [ys|e] eqn:E'; simpl.
      * split.
        -- intros [= <-]. constructor; [done|]. by apply IH.
        -- intros (y' & ys' & Hy & Hys & ->)%Forall2_cons_inv_l.
           apply IH in Hys. congruence.
      * split; [done|].
        intros (y' & ys' & Hy & Hys & ->)%Forall2_cons_inv_l.
        apply IH in Hys. done.
    + split; [done|].
      intros (y' & ys' & Hy & Hys & ->)%Forall2_cons_inv_l. congruence.
Qed.

Section Metadata.
Context {rt : PyRuntime}.

(** On a row with distinct field names the hash is defined: [sorted]
    returns, with the items in the order of their names. *)
Lemma record_hash_total (r : Series) :
  NoDup (keys r) ->
  exists items, py_sorted r = Ok items /\ items ≡ₚ r /\ StronglySorted key_lt items
    /\ generate_record_hash r = Ok (md5_hexdigest (str_of_items items)).
Proof.
  intros Hn. destruct (py_sorted_keys r Hn) as (items & E & Hp & Hs).
  exists items. unfold generate_record_hash. rewrite E. done.
Qed.

Lemma add_metadata_total df now :
  (forall r, r ∈ df -> NoDup (keys r)) ->
  exists hashes,
    Forall2 (fun r h => generate_record_hash (dict_set "upload_timestamp" (VTime now) r) = Ok h) df hashes
    /\ add_metadata df now
       = Ok (zip_with (fun r h => dict_set "record_hash" (VStr h)
                                     (dict_set "upload_timestamp" (VTime now) r)) df hashes).
Proof.
  intros Hn. unfold add_metadata.
  assert (exists hashes,
    Forall2 (fun r h => generate_record_hash
                          (dict_set "upload_timestamp" (VTime now) r) = Ok h)
            df hashes) as [hashes Hf].
  { induction df as [|r df IH]; [by exists []|].
    destruct IH as [hs Hf]; [intros; apply Hn; by right|].
    destruct (record_hash_total (dict_set "upload_timestamp" (VTime now) r))
      as (items & _ & _ & _ & Eh).
    { apply NoDup_keys_dict_set, Hn. left. }
    eexists (_ :: hs). by constructor. }
  exists hashes. split; [done|].
  assert (mapM generate_record_hash
            (map (dict_set "upload_timestamp" (VTime now)) df) = Ok hashes) as ->.
  { apply mapM_Ok. by apply Forall2_fmap_l. }
  simpl. by rewrite zip_with_fmap_l.
Qed.

End Metadata.

(** ** The record hash *)

Lemma pos_bits_inj p q : Model.pos_bits p = Model.pos_bits q -> p = q.
Proof.
  revert q. induction p as [p IH|p IH|]; intros [q|q|]; simpl; try done;
    intros [= H]; f_equal; auto.
Qed.

Lemma model_collision_free : collision_free (H:=Model.runtime).
Proof.
  intros a b H. simpl in H. apply pos_bits_inj in H.
  by apply (inj encode) in H.
Qed.

Section RecordHash.
Context {rt : PyRuntime}.


(** C5. The record hash does not depend on the order of the fields. For a
    record with distinct field names, [sorted] returns the items in the
    order of their names, the hash is the digest of that list, and a record
    with the same (name, value) pairs in another order gets the same
    hash. *)
Theorem record_hash_field_order (r1 r2 : Series) :
  NoDup (keys r1) -> r1 ≡ₚ r2 ->
  exists items,
    py_sorted r1 = Ok items /\ items ≡ₚ r1 /\ StronglySorted key_lt items
    /\ generate_record_hash r1 = Ok (md5_hexdigest (str_of_items items))
    /\ generate_record_hash r2 = Ok (md5_hexdigest (str_of_items items)).
Proof.
  intros Hn Hp.
  destruct (record_hash_total r1 Hn) as (items & E & Hpi & Hs & Eh).
  exists items. repeat (split; [done|]).
  unfold generate_record_hash. by rewrite <-(py_sorted_perm r1 r2), E.
Qed.


End RecordHash.

Lemma record_hash_field_order_witness :
  exists items,
    py_sorted [("b", VInt 2); ("a", VInt 1)] = Ok items
    /\ generate_record_hash [("b", VInt 2); ("a", VInt 1)]
       = Ok (md5_hexdigest (str_of_items items))
    /\ generate_record_hash [("a", VInt 1); ("b", VInt 2)]
       = Ok (md5_hexdigest (str_of_items items)).
Proof.
  destruct (record_hash_field_order (rt:=Model.runtime)
              [("b", VInt 2); ("a", VInt 1)] [("a", VInt 1); ("b", VInt 2)])
    as (items & E & _ & _ & H1 & H2).
  - apply (bool_decide_unpack _). vm_compute. exact I.
  - apply Permutation_swap.
  - by exists items.
Defined.

(** ** Masks: [duplicated], [df[mask]] and [drop_duplicates] *)
Lemma length_duplicated_from seen ks : length (duplicated_from seen ks) = length ks.
Proof. revert seen. induction ks; intros; simpl; auto. Qed.

Lemma duplicated_from_lookup seen ks i k :
  ks !! i = Some k ->
  exists b, duplicated_from seen ks !! i = Some b
    /\ (b = true <-> k ∈ seen \/ exists j, (j < i)%nat /\ ks !! j = Some k).
Proof.
  revert seen i. induction ks as [|k0 ks IH]; intros seen i; [done|].
  destruct i as [|i]; simpl.
  - intros [= ->]. eexists. split; [done|]. rewrite bool_decide_eq_true.
    split; [by left|]. intros [?|(j & ? & _)]; [done|lia].
  - intros Hk. destruct (IH (k0 :: seen) _ Hk) as (b & -> & Hb).
    exists b. split; [done|]. rewrite Hb. split.
    + intros [[->|?]%elem_of_cons|(j & ? & ?)].
      * right. exists 0%nat. split; [lia|done].
      * by left.
      * right. exists (S j). split; [lia|done].
    + intros [?|(j & Hj & Hl)].
      * left. by right.
      * destruct j as [|j]; simpl in Hl.
        -- left. injection Hl as ->. left.
        -- right. exists j. split; [lia|done].
Qed.

Lemma select_length_le mask (df : DataFrame) : (length (select mask df) <= length df)%nat.
Proof.
  revert df. induction mask as [|b mask IH]; intros [|r df]; simpl; try lia.
  specialize (IH df). destruct b; simpl; lia.
Qed.

Lemma select_partition mask (df : DataFrame) :
  length mask = length df ->
  (length (select mask df) + length (select (map negb mask) df) = length df)%nat.
Proof.
  revert df. induction mask as [|b mask IH]; intros [|r df]; simpl; try done.
  intros [= H]. specialize (IH df H). destruct b; simpl; lia.
Qed.

Lemma select_sublist mask (df : DataFrame) : sublist (select mask df) df.
Proof.
  revert df. induction mask as [|b mask IH]; intros [|r df]; simpl;
    try apply sublist_nil_l.
  destruct b; [by apply sublist_skip|by apply sublist_cons].
Qed.

Lemma elem_of_select mask (df : DataFrame) i r :
  mask !! i = Some true -> df !! i = Some r -> r ∈ select mask df.
Proof.
  revert df i. induction mask as [|b mask IH]; intros [|r0 df] [|i]; simpl; try done.
  - intros [= ->] [= ->]. left.
  - intros Hm Hd. destruct b; [right|]; eauto.
Qed.

Lemma select_nil_mask mask (df : DataFrame) :
  length mask = length df -> select mask df = [] ->
  select (map negb mask) df = df.
Proof.
  revert df. induction mask as [|b mask IH]; intros [|r df]; simpl; try done.
  intros [= H]. destruct b; simpl; [done|]. intros E. f_equal. auto.
Qed.

Lemma drop_duplicates_NoDup_from seen (df : DataFrame) (key : Series -> option pyvalue) :
  let kept := select (map negb (duplicated_from seen (map key df))) df in
  NoDup (map key kept) /\ (forall k, k ∈ map key kept -> k ∉ seen).
Proof.
  revert seen. induction df as [|r df IH]; intros seen; simpl.
  { split; [constructor|]. by intros k ?%elem_of_nil. }
  destruct (IH (key r :: seen)) as [Hn Hs].
  case_bool_decide as Hin; simpl.
  - split; [done|]. intros k Hk Hk'. apply (Hs k Hk). by right.
  - split.
    + constructor; [|done]. intros Hk. apply (Hs _ Hk). left.
    + intros k [->|Hk]%elem_of_cons; [done|].
      intros Hk'. apply (Hs k Hk). by right.
Qed.

Lemma drop_duplicates_NoDup col (df : DataFrame) :
  NoDup (map (dict_get col) (drop_duplicates col df)).
Proof. apply (drop_duplicates_NoDup_from [] df (dict_get col)). Qed.

(** ** Columns of a frame built from records *)
Lemma add_columns_prefix cols ks : exists ext, add_columns cols ks = cols ++ ext.
Proof.
  revert cols. induction ks as [|k ks IH]; intros cols; simpl.
  { exists []. by rewrite app_nil_r. }
  case_bool_decide.
  - apply IH.
  - destruct (IH (cols ++ [k])) as [ext ->]. exists (k :: ext).
    by rewrite <-app_assoc.
Qed.

Lemma add_columns_elem cols ks c : c ∈ cols \/ c ∈ ks -> c ∈ add_columns cols ks.
Proof.
  revert cols. induction ks as [|k ks IH]; intros cols; simpl.
  { intros [?|?%elem_of_nil]; done. }
  intros [Hc|[->|Hc]%elem_of_cons]; apply IH.
  - left. case_bool_decide; [done|]. apply elem_of_app. by left.
  - left. case_bool_decide; [done|]. apply elem_of_app. right. left.
  - by right.
Qed.

Lemma columns_fold_prefix (rows : list Series) cols :
  exists ext, fold_left (fun cols r => add_columns cols (keys r)) rows cols = cols ++ ext.
Proof.
  revert cols. induction rows as [|r rows IH]; intros cols; simpl.
  { exists []. by rewrite app_nil_r. }
  destruct (add_columns_prefix cols (keys r)) as [e1 ->].
  destruct (IH (cols ++ e1)) as [e2 ->]. exists (e1 ++ e2). by rewrite app_assoc.
Qed.

Lemma columns_fold_elem (rows : list Series) cols c :
  c ∈ cols \/ (exists r, r ∈ rows /\ c ∈ keys r) ->
  c ∈ fold_left (fun cols r => add_columns cols (keys r)) rows cols.
Proof.
  revert cols. induction rows as [|r rows IH]; intros cols; simpl.
  { intros [?|(r & ?%elem_of_nil & _)]; done. }
  intros [Hc|(r' & [->|Hr]%elem_of_cons & Hc)]; apply IH.
  - left. apply add_columns_elem. by left.
  - left. apply add_columns_elem. by right.
  - right. eauto.
Qed.

Lemma columns_of_elem (rows : list Series) r c :
  r ∈ rows -> c ∈ keys r -> c ∈ columns_of rows.
Proof. intros. apply columns_fold_elem. right. eauto. Qed.

Lemma keys_reindex cols r : keys (reindex cols r) = cols.
Proof. unfold keys, reindex. rewrite map_map. simpl. apply map_id. Qed.

Lemma dict_get_reindex cols r c :
  c ∈ cols -> dict_get c (reindex cols r) = Some (default NaN (dict_get c r)).
Proof.
  unfold reindex. induction cols as [|c0 cols IH]; simpl; [by intros ?%elem_of_nil|].
  destruct (String.eqb_spec c c0) as [->|N]; [done|].
  intros [?|?]%elem_of_cons; [done|]. auto.
Qed.

Lemma dict_get_is_Some c (r : Series) : c ∈ keys r -> is_Some (dict_get c r).
Proof.
  induction r as [|[k v] r IH]; simpl; [by intros ?%elem_of_nil|].
  destruct (String.eqb_spec c k) as [->|N]; [by eexists|].
  intros [?|?]%elem_of_cons; [done|]. auto.
Qed.

Lemma df_empty_false_elem (df : DataFrame) r :
  r ∈ df -> keys r <> [] -> df_empty df = false.
Proof.
  intros Hr Hk. unfold df_empty. apply orb_false_iff. split.
  - apply bool_decide_eq_false_2. intros ->. by apply elem_of_nil in Hr.
  - apply bool_decide_eq_false_2. intros E.
    destruct (keys r) as [|c ks] eqn:Ek; [done|].
    assert (c ∈ columns_of df) as Hc.
    { eapply columns_of_elem; [done|]. rewrite Ek. left. }
    rewrite E in Hc. by apply elem_of_nil in Hc.
Qed.

Lemma columns_fold_no_keys (df : DataFrame) cols :
  (forall r, r ∈ df -> keys r = []) ->
  fold_left (fun cols r => add_columns cols (keys r)) df cols = cols.
Proof.
  revert cols. induction df as [|r df IH]; intros cols H; simpl; [done|].
  rewrite (H r) by left. simpl. apply IH. intros; apply H. by right.
Qed.

Lemma from_records_keys (records : list Series) r :
  r ∈ from_records records -> keys r = columns_of records.
Proof.
  unfold from_records. intros (r0 & -> & _)%list_elem_of_fmap. apply keys_reindex.
Qed.

(** ** The Validator, taken apart *)

Lemma elem_of_keys_dict_set k v d c : c ∈ keys d \/ c = k -> c ∈ keys (dict_set k v d).
Proof.
  rewrite keys_dict_set. case_bool_decide; intros [?| ->]; try done.
  - apply elem_of_app. by left.
  - apply elem_of_app. right. left.
Qed.

Section Validation.
Context {rt : PyRuntime}.

Lemma standardize_items_keys schema items inv acc inv' acc' c :
  standardize_items schema items inv acc = Ok (inv', acc') ->
  c ∈ keys acc \/ c ∈ keys items -> c ∈ keys acc'.
Proof.
  revert inv acc. induction items as [|[col val] items IH]; intros inv acc; simpl.
  { intros [= _ <-] [?|?%elem_of_nil]; done. }
  destruct (assoc col schema) as [schema_col|].
  - destruct (standardize_value val col schema_col) as [std_val|] eqn:E; simpl; [|done].
    intros H Hc. eapply IH; [exact H|].
    destruct Hc as [Hc|[->|Hc]%elem_of_cons]; [left|left|by right];
      apply elem_of_keys_dict_set; auto.
  - intros H Hc. eapply IH; [exact H|].
    destruct Hc as [Hc|[->|Hc]%elem_of_cons]; [left|left|by right];
      apply elem_of_keys_dict_set; auto.
Qed.

Lemma validate_rows_cleaned schema idx rows cleaned dropped r' :
  validate_rows schema idx rows = Ok (cleaned, dropped) ->
  r' ∈ cleaned ->
  exists r, r ∈ rows /\ standardize_items schema r [] [] = Ok ([], r').
Proof.
  revert idx cleaned dropped.
  induction rows as [|row rows IH]; intros idx cleaned dropped; simpl.
  { intros [= <- _] ?%elem_of_nil. done. }
  destruct (standardize_items schema row [] []) as [[inv std]|] eqn:E; simpl; [|done].
  destruct (validate_rows schema (S idx) rows) as [[cl dr]|] eqn:E'; simpl; [|done].
  destruct inv as [|i inv].
  - intros [= <- <-] [->|Hr]%elem_of_cons.
    + exists row. split; [left|done].
    + destruct (IH _ _ _ E' Hr) as (r & ? & ?). exists r. split; [by right|done].
  - intros [= <- <-] Hr.
    destruct (IH _ _ _ E' Hr) as (r & ? & ?). exists r. split; [by right|done].
Qed.

Lemma add_metadata_inv df now df' :
  add_metadata df now = Ok df' ->
  exists hashes,
    Forall2 (fun r h => generate_record_hash (dict_set "upload_timestamp" (VTime now) r) = Ok h) df hashes
    /\ df' = zip_with (fun r h => dict_set "record_hash" (VStr h)
                                    (dict_set "upload_timestamp" (VTime now) r)) df hashes.
Proof.
  unfold add_metadata.
  destruct (mapM _ _) as [hashes|] eqn:E; simpl; [|done].
  intros [= <-]. exists hashes. apply mapM_Ok, Forall2_fmap_l in E.
  split; [done|]. by rewrite zip_with_fmap_l.
Qed.

Lemma add_metadata_keys df now df' r :
  add_metadata df now = Ok df' -> r ∈ df' ->
  "record_hash" ∈ keys r /\ "upload_timestamp" ∈ keys r.
Proof.
  intros (hashes & _ & ->)%add_metadata_inv (r0 & h & -> & _)%elem_of_zip_with.
  split; apply elem_of_keys_dict_set; [by right|left].
  apply elem_of_keys_dict_set. by right.
Qed.

Lemma validate_and_clean_data_inv df table_name now c d :
  validate_and_clean_data df table_name now = Ok (c, d) ->
  (df_empty df = true /\ c = None /\ d = None)
  \/ exists df' cleaned_rows dropped_records,
       df_empty df = false
       /\ add_metadata df now = Ok df'
       /\ validate_rows (get_table_schema (table_type_of table_name)) 0 df'
          = Ok (cleaned_rows, dropped_records)
       /\ (c, d) = check_duplicates (frame_or_None cleaned_rows)
                                    (frame_or_None dropped_records).
Proof.
  unfold validate_and_clean_data. destruct (df_empty df); [intros [= <- <-]; by left|].
  destruct (add_metadata df now) as [df'|] eqn:E; simpl; [|done].
  destruct (validate_rows _ 0 df') as [[cl dr]|] eqn:E'; simpl; [|done].
  intros [= H]. right. exists df', cl, dr. by rewrite H.
Qed.

(** Every accepted record carries a record hash. *)
Lemma accepted_has_record_hash df now df' schema cleaned_rows dropped_records r :
  add_metadata df now = Ok df' ->
  validate_rows schema 0 df' = Ok (cleaned_rows, dropped_records) ->
  r ∈ from_records cleaned_rows -> "record_hash" ∈ keys r.
Proof.
  intros Hm Hv Hr. rewrite (from_records_keys _ _ Hr).
  assert (exists r0, r0 ∈ cleaned_rows) as [r0 Hr0].
  { unfold from_records in Hr. apply list_elem_of_fmap in Hr as (r0 & _ & ?). eauto. }
  apply (columns_of_elem _ r0); [done|].
  destruct (validate_rows_cleaned _ _ _ _ _ _ Hv Hr0) as (r1 & Hr1 & Hs).
  eapply standardize_items_keys; [exact Hs|]. right.
  by eapply add_metadata_keys.
Qed.

Lemma select_elem mask (df : DataFrame) r : r ∈ select mask df -> r ∈ df.
Proof. intros H. eapply elem_of_sublist; [done|apply select_sublist]. Qed.

(** The Deduplicator on a frame whose rows all carry a record hash. *)
Lemma check_duplicates_spec (accepted : DataFrame) dropped :
  accepted <> [] ->
  (forall r, r ∈ accepted -> "record_hash" ∈ keys r) ->
  let mask := duplicated "record_hash" accepted in
  let duplicates := select mask accepted in
  check_duplicates (Some accepted) dropped
  = (Some (select (map negb mask) accepted),
     if bool_decide (duplicates = []) then dropped
     else Some (match dropped with
                | Some d => pd_concat d (assign "reason" (VStr "Duplicate record") duplicates)
                | None => assign "reason" (VStr "Duplicate record") duplicates
                end)).
Proof.
  intros Hne Hk mask duplicates. unfold check_duplicates.
  assert (forall df : DataFrame, (forall r, r ∈ df -> r ∈ accepted) ->
            df_empty df = bool_decide (df = [])) as Hempty.
  { intros df Hsub. destruct df as [|r df]; [done|].
    rewrite (df_empty_false_elem _ r); [done|left|].
    intros E. specialize (Hk r (Hsub r ltac:(left))). rewrite E in Hk.
    by apply elem_of_nil in Hk. }
  rewrite (Hempty accepted) by done. rewrite bool_decide_eq_false_2 by done.
  fold mask. fold duplicates.
  rewrite (Hempty duplicates) by (intros r; apply select_elem).
  case_bool_decide as Hd; [|done].
  f_equal. f_equal. symmetry. apply select_nil_mask; [|done].
  unfold mask, duplicated. by rewrite length_duplicated_from, length_map.
Qed.

End Validation.

(** ** The Deduplicator *)

Lemma duplicated_lookup col (df : DataFrame) i r :
  df !! i = Some r ->
  exists b, duplicated col df !! i = Some b
    /\ (b = true <-> exists j r', (j < i)%nat /\ df !! j = Some r'
                                   /\ dict_get col r' = dict_get col r).
Proof.
  intros Hi. unfold duplicated.
  destruct (duplicated_from_lookup [] (map (dict_get col) df) i (dict_get col r))
    as (b & Hb & Hiff).
  { by rewrite list_lookup_fmap, Hi. }
  exists b. split; [done|]. rewrite Hiff. split.
  - intros [?%elem_of_nil|(j & Hj & Hl)]; [done|].
    rewrite list_lookup_fmap in Hl.
    destruct (df !! j) as [r'|] eqn:E; [|done]. injection Hl as Hl. eauto.
  - intros (j & r' & Hj & Hl & E). right. exists j. split; [done|].
    by rewrite list_lookup_fmap, Hl, <-E.
Qed.

Lemma marked_duplicate_in_dropped (dropped : option DataFrame) (duplicates : DataFrame) r :
  r ∈ duplicates ->
  exists r',
    r' ∈ match dropped with
         | Some d => pd_concat d (assign "reason" (VStr "Duplicate record") duplicates)
         | None => assign "reason" (VStr "Duplicate record") duplicates
         end
    /\ dict_get "reason" r' = Some (VStr "Duplicate record")
    /\ forall c, c ∈ keys r -> c <> "reason" -> dict_get c r' = dict_get c r.
Proof.
  intros Hr. set (m := dict_set "reason" (VStr "Duplicate record") r).
  assert (m ∈ assign "reason" (VStr "Duplicate record") duplicates) as Hm.
  { unfold assign. by apply list_elem_of_fmap_2. }
  destruct dropped as [d|].
  - exists (reindex (columns_of (d ++ assign "reason" (VStr "Duplicate record") duplicates)) m).
    assert (forall c, c ∈ keys m ->
              c ∈ columns_of (d ++ assign "reason" (VStr "Duplicate record") duplicates)) as Hc.
    { intros c Hc. eapply columns_of_elem; [|exact Hc]. apply elem_of_app. by right. }
    split; [|split].
    + unfold pd_concat, from_records. apply list_elem_of_fmap_2.
      apply elem_of_app. by right.
    + rewrite dict_get_reindex.
      * unfold m. by rewrite dict_get_set_eq.
      * apply Hc, elem_of_keys_dict_set. by right.
    + intros c Hck Hne. rewrite dict_get_reindex.
      * unfold m. rewrite dict_get_set_ne by done.
        by destruct (dict_get_is_Some c r Hck) as [v ->].
      * apply Hc, elem_of_keys_dict_set. by left.
  - exists m. split; [done|]. split.
    + apply dict_get_set_eq.
    + intros c _ Hne. by apply dict_get_set_ne.
Qed.

Section Deduplication.
Context {rt : PyRuntime}.

(** What an accepted frame is made of: the records that passed validation,
    without those the mask of [duplicated] marks. *)
Lemma accepted_frame df table_name now cleaned_df dropped_df :
  validate_and_clean_data df table_name now = Ok (Some cleaned_df, dropped_df) ->
  exists df' cleaned_rows dropped_records,
    add_metadata df now = Ok df'
    /\ validate_rows (get_table_schema (table_type_of table_name)) 0 df'
       = Ok (cleaned_rows, dropped_records)
    /\ let accepted := from_records cleaned_rows in
       let duplicates := select (duplicated "record_hash" accepted) accepted in
       accepted <> []
       /\ (forall r, r ∈ accepted -> "record_hash" ∈ keys r)
       /\ cleaned_df = drop_duplicates "record_hash" accepted
       /\ dropped_df
          = if bool_decide (duplicates = []) then frame_or_None dropped_records
            else Some (match frame_or_None dropped_records with
                       | Some d =>
                           pd_concat d (assign "reason" (VStr "Duplicate record")
                                               duplicates)
                       | None =>
                           assign "reason" (VStr "Duplicate record") duplicates
                       end).
Proof.
  intros [(_ & [=] & _)|(df' & cleaned_rows & dropped_records & _ & Hm & Hv & Hc)]
    %validate_and_clean_data_inv.
  destruct cleaned_rows as [|row0 rows0] eqn:Ecl; [done|]. rewrite <-Ecl in *.
  assert (frame_or_None cleaned_rows = Some (from_records cleaned_rows)) as Ef
    by by rewrite Ecl.
  rewrite Ef in Hc. clear Ef.
  assert (from_records cleaned_rows <> []) as Hne
    by (unfold from_records; by rewrite Ecl).
  assert (forall r, r ∈ from_records cleaned_rows -> "record_hash" ∈ keys r) as Hk.
  { intros r Hr. by eapply accepted_has_record_hash. }
  rewrite check_duplicates_spec in Hc by done. injection Hc as -> ->.
  exists df', cleaned_rows, dropped_records. by repeat split.
Qed.

(** C4. Deduplication keeps the first record seen for each hash. When
    [validate_and_clean_data] returns an accepted frame, the records that
    passed validation, in input order, are split by a mask: a record is
    marked exactly when an earlier one has the same [record_hash]; the
    accepted frame is the unmarked records, in order, and their hashes are
    present and pairwise distinct; every marked record is in the dropped
    frame, with its cells and the reason "Duplicate record". *)
Theorem deduplication_first_seen_wins (df : DataFrame) (table_name : string)
    (now : Z) (cleaned_df : DataFrame) (dropped_df : option DataFrame) :
  validate_and_clean_data df table_name now = Ok (Some cleaned_df, dropped_df) ->
  exists df' cleaned_rows dropped_records mask,
    add_metadata df now = Ok df'
    /\ validate_rows (get_table_schema (table_type_of table_name)) 0 df'
       = Ok (cleaned_rows, dropped_records)
    /\ let accepted := from_records cleaned_rows in
       length mask = length accepted
       /\ (forall i r, accepted !! i = Some r ->
             exists b, mask !! i = Some b
               /\ (b = true <->
                   exists j r', (j < i)%nat /\ accepted !! j = Some r'
                                /\ record_hash_of r' = record_hash_of r))
       /\ cleaned_df = select (map negb mask) accepted
       /\ NoDup (map record_hash_of cleaned_df)
       /\ (forall r, r ∈ cleaned_df -> is_Some (record_hash_of r))
       /\ (forall i r, accepted !! i = Some r -> mask !! i = Some true ->
             exists dropped r',
               dropped_df = Some dropped /\ r' ∈ dropped
               /\ dict_get "reason" r' = Some (VStr "Duplicate record")
               /\ forall c, c ∈ keys r -> c <> "reason" ->
                            dict_get c r' = dict_get c r).
Proof.
  intros (df' & cleaned_rows & dropped_records & Hm & Hv & H)%accepted_frame.
  cbv zeta in H. destruct H as (Hne & Hk & -> & ->).
  set (accepted := from_records cleaned_rows) in *.
  exists df', cleaned_rows, dropped_records, (duplicated "record_hash" accepted).
  split; [done|]. split; [done|]. fold accepted. cbv zeta.
  split; [unfold duplicated; by rewrite length_duplicated_from, length_map|].
  split; [intros i r Hi; by apply duplicated_lookup|].
  split; [done|].
  split; [apply drop_duplicates_NoDup|].
  split.
  { intros r Hr%select_elem. by apply dict_get_is_Some, Hk. }
  intros i r Hi Hb.
  assert (r ∈ select (duplicated "record_hash" accepted) accepted) as Hr
    by by eapply elem_of_select.
  rewrite bool_decide_eq_false_2
    by (intros E; rewrite E in Hr; by apply elem_of_nil in Hr).
  destruct (marked_duplicate_in_dropped (frame_or_None dropped_records) _ r Hr)
    as (r' & ? & ? & ?).
  eauto 10.
Qed.

End Deduplication.

(** ** The Verifier and the single-unit upload *)

Lemma append_length (s1 s2 : string) :
  String.length (s1 +:+ s2) = (String.length s1 + String.length s2)%nat.
Proof. induction s1; simpl; auto. Qed.

Lemma dropped_table_ne (table_name : string) :
  table_name +:+ "_dropped_records" <> table_name.
Proof.
  intros E. apply (f_equal String.length) in E. rewrite append_length in E.
  simpl in E. lia.
Qed.

Section Verification.
Context {rt : PyRuntime}.

Lemma verify_upload_mismatch (df : DataFrame) table_name engine rows :
  tables engine !! table_name = Some rows ->
  length rows <> length df ->
  verify_upload df table_name engine = (false, issue (CountAll table_name) engine).
Proof.
  intros Ht Hl. unfold verify_upload. simpl. rewrite Ht.
  by rewrite (proj2 (Nat.eqb_neq _ _) Hl).
Qed.

Lemma to_sql_Ok df table_name engine engine' :
  to_sql df table_name engine = Ok engine' ->
  tables engine' = <[table_name := stored table_name engine ++ df]> (tables engine)
  /\ queries engine' = queries engine.
Proof.
  unfold to_sql. destruct (to_sql_error _ _ _); [done|]. by intros [= <-].
Qed.

Lemma to_sql_stored df table_name engine engine' :
  to_sql df table_name engine = Ok engine' ->
  stored table_name engine' = stored table_name engine ++ df.
Proof.
  intros [Ht _]%to_sql_Ok. unfold stored at 1. by rewrite Ht, lookup_insert_eq.
Qed.

Lemma to_sql_other df table_name engine engine' t :
  to_sql df table_name engine = Ok engine' -> t <> table_name ->
  tables engine' !! t = tables engine !! t.
Proof. intros [Ht _]%to_sql_Ok N. by rewrite Ht, lookup_insert_ne. Qed.

Lemma check_records_tables table_name records engine :
  tables (check_records table_name records engine).2 = tables engine.
Proof.
  revert engine. induction records as [|record records IH]; intros engine;
    simpl; [done|].
  case_match; [done|]. case_match; [done|]. by rewrite IH.
Qed.

(** Verification reads the database and writes nothing. *)
Lemma verify_upload_tables df table_name engine :
  tables (verify_upload df table_name engine).2 = tables engine.
Proof.
  unfold verify_upload. cbn [tables issue].
  destruct (tables engine !! table_name); [|done].
  repeat case_match; try done. by rewrite check_records_tables.
Qed.

(** What the single-unit path commits. [upload_to_database] leaves the
    destination table as it was, or appends to it the frame the Validator
    and the Deduplicator accepted: records whose hashes are pairwise
    distinct, each the standardized form of an input record for which the
    Validator collected no reason. *)
Lemma single_upload_store_purity df table_name engine now :
  let engine' := (upload_to_database df table_name engine now).2 in
  tables engine' !! table_name = tables engine !! table_name
  \/ exists cleaned_df dropped_df df' cleaned_rows dropped_records,
       validate_and_clean_data df table_name now = Ok (Some cleaned_df, dropped_df)
       /\ tables engine' !! table_name
          = Some (stored table_name engine ++ cleaned_df)
       /\ NoDup (map record_hash_of cleaned_df)
       /\ add_metadata df now = Ok df'
       /\ validate_rows (get_table_schema (table_type_of table_name)) 0 df'
          = Ok (cleaned_rows, dropped_records)
       /\ sublist cleaned_df (from_records cleaned_rows)
       /\ forall std, std ∈ cleaned_rows ->
            exists row, row ∈ df'
              /\ standardize_items (get_table_schema (table_type_of table_name))
                                   row [] [] = Ok ([], std).
Proof.
  cbv zeta. unfold upload_to_database.
  destruct (df_empty df); [by left|].
  destruct (validate_and_clean_data df table_name now) as [[[c|] d]|] eqn:Ev;
    [|by left..].
  destruct (df_empty c); [by left|].
  destruct (to_sql c table_name engine) as [e1|] eqn:E1; [|by left].
  assert (forall e2 : database,
            tables e2 !! table_name = tables e1 !! table_name ->
            tables e2 !! table_name = Some (stored table_name engine ++ c)) as Hw.
  { intros e2 ->. apply to_sql_Ok in E1 as [-> _]. apply lookup_insert_eq. }
  right. destruct (accepted_frame _ _ _ _ _ Ev)
    as (df' & cleaned_rows & dropped_records & Hm & Hv & H).
  cbv zeta in H. destruct H as (_ & _ & Hc & _).
  exists c, d, df', cleaned_rows, dropped_records.
  split; [done|]. split.
  { destruct d as [d|]; [|by rewrite verify_upload_tables; apply Hw].
    destruct (df_empty d); [by rewrite verify_upload_tables; apply Hw|].
    destruct (to_sql d _ e1) as [e2|] eqn:E2; [|by apply Hw].
    rewrite verify_upload_tables. apply Hw.
    apply (to_sql_other _ _ _ _ _ E2).
    intros E. symmetry in E. by apply dropped_table_ne in E. }
  split; [rewrite Hc; apply drop_duplicates_NoDup|].
  split; [done|]. split; [done|]. split.
  - rewrite Hc. apply select_sublist.
  - intros std Hstd. by eapply validate_rows_cleaned.
Qed.

(** C8. When the table holds a number of rows other than the number of
    uploaded records, [verify_upload] fails, and the count query is the
    only query it has sent: the sampled records are not looked up. *)
Theorem verify_upload_count_first (df : DataFrame) (table_name : string)
    (engine : database) (rows : list Series) :
  tables engine !! table_name = Some rows ->
  length rows <> length df ->
  verify_upload df table_name engine
  = (false, issue (CountAll table_name) engine).
Proof. apply verify_upload_mismatch. Qed.

(** C10. Into a table that holds rows already, no upload verifies:
    [upload_to_database] returns [False]; and once the cleaned frame is
    appended, the table holds the old rows and then every uploaded record,
    and [verify_upload] on that state fails. *)
Theorem verification_fails_on_nonempty_table (df : DataFrame)
    (table_name : string) (engine : database) (now : Z) (old : list Series) :
  tables engine !! table_name = Some old -> old <> [] ->
  (upload_to_database df table_name engine now).1 = false
  /\ forall cleaned_df engine',
       to_sql cleaned_df table_name engine = Ok engine' ->
       tables engine' !! table_name = Some (old ++ cleaned_df)
       /\ (forall r, r ∈ cleaned_df -> r ∈ stored table_name engine')
       /\ (verify_upload cleaned_df table_name engine').1 = false.
Proof.
  intros Ht Hold.
  assert (forall cleaned_df engine',
            to_sql cleaned_df table_name engine = Ok engine' ->
            tables engine' !! table_name = Some (old ++ cleaned_df)) as Hw.
  { intros c e' [E _]%to_sql_Ok. rewrite E, lookup_insert_eq.
    unfold stored. by rewrite Ht. }
  assert (forall cleaned_df : DataFrame,
            length (old ++ cleaned_df) <> length cleaned_df) as Hlen.
  { intros c. rewrite length_app. destruct old; [done|simpl; lia]. }
  split.
  - unfold upload_to_database.
    destruct (df_empty df); [done|].
    destruct (validate_and_clean_data df table_name now) as [[[c|] d]|]; [|done..].
    destruct (df_empty c); [done|].
    destruct (to_sql c table_name engine) as [e1|] eqn:E1; [|done].
    assert (forall e2, tables e2 !! table_name = Some (old ++ c) ->
              (verify_upload c table_name e2).1 = false) as Hv.
    { intros e2 H2. by rewrite (verify_upload_mismatch _ _ _ _ H2 (Hlen c)). }
    destruct d as [d|]; [|by apply Hv, Hw].
    destruct (df_empty d); [by apply Hv, Hw|].
    destruct (to_sql d _ e1) as [e2|] eqn:E2; [|done].
    apply Hv. rewrite (to_sql_other _ _ _ _ _ E2); [by apply Hw|].
    intros E. symmetry in E. by apply dropped_table_ne in E.
  - intros c e' E. split; [by apply Hw|]. split.
    + intros r Hr. rewrite (to_sql_stored _ _ _ _ E). apply elem_of_app. by right.
    + by rewrite (verify_upload_mismatch _ _ _ _ (Hw _ _ E) (Hlen c)).
Qed.

End Verification.

(** ** Chunks and the chunked upload *)

Lemma slice_chunk {A} (l : list A) k c :
  slice (k * c) (k * c + c) l = take c (drop (k * c) l).
Proof. unfold slice. f_equal. lia. Qed.

Lemma concat_chunks_take {A} (l : list A) c m :
  concat (map (fun i => slice i (i + c) l) (map (fun k => Nat.mul k c) (seq 0 m)))
  = take (m * c) l.
Proof.
  induction m as [|m IH]; [done|].
  rewrite seq_S, !map_app, concat_app, IH. simpl. rewrite app_nil_r.
  rewrite slice_chunk, take_take_drop. f_equal. lia.
Qed.

Lemma chunk_count_covers n c : (0 < c)%nat -> (n <= (n + c - 1) / c * c)%nat.
Proof.
  intros Hc. pose proof (Nat.div_mod_eq (n + c - 1) c) as H.
  pose proof (Nat.mod_upper_bound (n + c - 1) c ltac:(lia)) as H'. nia.
Qed.

Lemma concat_chunks_of {A} (l : list A) c :
  (0 < c)%nat -> concat (chunks_of c l) = l.
Proof.
  intros Hc. unfold chunks_of. rewrite concat_chunks_take.
  apply take_ge. by apply chunk_count_covers.
Qed.

Lemma chunks_of_lookup {A} (l : list A) c k chunk :
  (0 < c)%nat -> chunks_of c l !! k = Some chunk ->
  chunk = take c (drop (k * c) l) /\ (k * c < length l)%nat
  /\ length chunk = Nat.min c (length l - k * c).
Proof.
  intros Hc. unfold chunks_of. rewrite !list_lookup_fmap.
  destruct (seq 0 _ !! k) as [k'|] eqn:E; [|done]. simpl.
  apply lookup_seq in E as [-> Hk]. simpl in *. intros [= <-].
  rewrite slice_chunk. split; [done|].
  assert (k * c < length l)%nat as Hlt.
  { pose proof (Nat.div_mod_eq (length l + c - 1) c) as H.
    pose proof (Nat.mod_upper_bound (length l + c - 1) c ltac:(lia)) as H'. nia. }
  split; [done|]. rewrite length_take, length_drop. lia.
Qed.

Section Chunking.
Context {rt : PyRuntime}.

Lemma collect_accepted (chunks : list DataFrame) table_name engine success errors :
  driver_accepts ->
  exists engine',
    collect (map (fun chunk => (chunk, table_name)) chunks) engine success errors
    = ((success, errors), engine')
    /\ (chunks = [] -> engine' = engine)
    /\ (chunks <> [] ->
        tables engine' !! table_name
        = Some (stored table_name engine ++ concat chunks))
    /\ (forall t, t <> table_name -> tables engine' !! t = tables engine !! t)
    /\ queries engine' = queries engine.
Proof.
  intros Hd. revert engine.
  induction chunks as [|chunk chunks IH]; intros engine; simpl.
  { exists engine. by repeat split. }
  unfold to_sql. rewrite Hd.
  set (e1 := {| tables := _; queries := _ |}).
  assert (tables e1 !! table_name = Some (stored table_name engine ++ chunk)) as H1
    by apply lookup_insert_eq.
  assert (forall t, t <> table_name -> tables e1 !! t = tables engine !! t) as H2
    by (intros t Ht; by apply lookup_insert_ne).
  assert (queries e1 = queries engine) as H3 by done.
  clearbody e1.
  destruct (IH e1) as (e2 & -> & Hnil & Hcons & Hother & Hq).
  exists e2. split; [done|]. split; [done|]. split; [|split].
  - intros _. destruct chunks as [|c2 chunks'].
    + rewrite (Hnil eq_refl), H1. cbn [concat]. by rewrite app_nil_r.
    + rewrite Hcons by done. unfold stored at 1. rewrite H1. cbn [default concat id].
      by rewrite <-app_assoc.
  - intros t Ht. by rewrite (Hother t Ht), H2.
  - by rewrite Hq.
Qed.

(** The chunked path writes the frame as it was given. *)
Lemma parallel_upload_chunked (df : DataFrame) table_name engine (chunk_size : Z) now :
  driver_accepts ->
  0 < chunk_size <= Z.of_nat (length df) ->
  exists engine',
    parallel_upload df table_name engine chunk_size now = Ok (true, engine')
    /\ tables engine' !! table_name = Some (stored table_name engine ++ df)
    /\ (forall t, t <> table_name -> tables engine' !! t = tables engine !! t)
    /\ queries engine' = queries engine.
Proof.
  intros Hd [Hc Hn]. unfold parallel_upload, py_range.
  rewrite (proj2 (Z.ltb_ge _ _)) by lia.
  rewrite (proj2 (Z.eqb_neq _ _)) by lia.
  rewrite (proj2 (Z.ltb_ge _ _)) by lia. simpl.
  fold (chunks_of (Z.to_nat chunk_size) df).
  destruct (collect_accepted (chunks_of (Z.to_nat chunk_size) df)
              table_name engine true [] Hd) as (e' & -> & _ & Hcons & Ho & Hq).
  exists e'. split; [done|]. split; [|done].
  rewrite Hcons, concat_chunks_of; [done|lia|].
  intros E. pose proof (concat_chunks_of df (Z.to_nat chunk_size) ltac:(lia)) as E'.
  rewrite E in E'. simpl in E'. subst df. simpl in Hn. lia.
Qed.

End Chunking.

(** ** Two runs at two timestamps *)

Lemma meta_eq_refl r : meta_eq r r.
Proof. apply Forall2_same_length_lookup_2; [done|]. intros; simplify_eq. done. Qed.

Lemma meta_eq_keys r1 r2 : meta_eq r1 r2 -> keys r1 = keys r2.
Proof. induction 1 as [|x y r1 r2 [H _] _ IH]; simpl; [done|]. by rewrite H, IH. Qed.

Lemma meta_eq_dict_set k v1 v2 a1 a2 :
  meta_eq a1 a2 -> (k ∉ metadata_columns -> v1 = v2) ->
  meta_eq (dict_set k v1 a1) (dict_set k v2 a2).
Proof.
  intros H Hv. induction H as [|[k1 w1] [k2 w2] a1 a2 [Hk Hw] H IH]; simpl in *.
  { by repeat constructor. }
  subst k2. destruct (String.eqb_spec k k1) as [->|N].
  - constructor; [done|done].
  - constructor; [done|done].
Qed.

Lemma meta_eq_dict_get c r1 r2 :
  meta_eq r1 r2 -> c ∉ metadata_columns -> dict_get c r1 = dict_get c r2.
Proof.
  intros H Hc. induction H as [|[k1 w1] [k2 w2] a1 a2 [Hk Hw] H IH]; simpl in *; [done|].
  subst k2. destruct (String.eqb_spec c k1) as [->|N]; [|done].
  by rewrite Hw.
Qed.

Lemma meta_eq_strip r1 r2 : meta_eq r1 r2 -> strip_metadata r1 = strip_metadata r2.
Proof.
  unfold strip_metadata.
  induction 1 as [|[k1 w1] [k2 w2] a1 a2 [Hk Hw] H IH]; simpl in *; [done|].
  subst k2. rewrite !filter_cons. simpl. case_decide; [|done].
  by rewrite Hw, IH.
Qed.

Lemma meta_eq_dict_update d1 d2 r1 r2 :
  meta_eq d1 d2 -> meta_eq r1 r2 -> meta_eq (dict_update d1 r1) (dict_update d2 r2).
Proof.
  intros Hd Hr. unfold dict_update. revert d1 d2 Hd.
  induction Hr as [|[k1 w1] [k2 w2] a1 a2 [Hk Hw] H IH]; intros d1 d2 Hd; simpl in *; [done|].
  subst k2. apply IH. by apply meta_eq_dict_set.
Qed.

Lemma meta_eq_reindex cols r1 r2 :
  meta_eq r1 r2 -> meta_eq (reindex cols r1) (reindex cols r2).
Proof.
  intros H. unfold reindex. induction cols as [|c cols IH]; simpl; [constructor|].
  constructor; [|done]. split; [done|]. simpl. intros Hc.
  by rewrite (meta_eq_dict_get c r1 r2).
Qed.

Lemma columns_of_keys (rows1 rows2 : list Series) :
  map keys rows1 = map keys rows2 -> columns_of rows1 = columns_of rows2.
Proof.
  unfold columns_of. generalize (@nil string).
  revert rows2. induction rows1 as [|r1 rows1 IH]; intros [|r2 rows2] cols; simpl; try done.
  intros [= -> H]. by apply IH.
Qed.

Lemma Forall2_meta_eq_keys (rows1 rows2 : list Series) :
  Forall2 meta_eq rows1 rows2 -> map keys rows1 = map keys rows2.
Proof. induction 1 as [|???? H]; simpl; [done|]. f_equal; [by apply meta_eq_keys|done]. Qed.

Lemma meta_eq_from_records rows1 rows2 :
  Forall2 meta_eq rows1 rows2 ->
  Forall2 meta_eq (from_records rows1) (from_records rows2).
Proof.
  intros H. unfold from_records.
  rewrite (columns_of_keys rows1 rows2) by by apply Forall2_meta_eq_keys.
  apply Forall2_fmap. eapply Forall2_impl; [exact H|]. intros. by apply meta_eq_reindex.
Qed.

Lemma meta_eq_df_empty (df1 df2 : DataFrame) :
  Forall2 meta_eq df1 df2 -> df_empty df1 = df_empty df2.
Proof.
  intros H. unfold df_empty.
  rewrite (columns_of_keys df1 df2) by by apply Forall2_meta_eq_keys.
  f_equal. destruct H; [done|]. by rewrite !bool_decide_eq_false_2.
Qed.

Lemma Forall2_select {P : Series -> Series -> Prop} mask (df1 df2 : DataFrame) :
  Forall2 P df1 df2 -> Forall2 P (select mask df1) (select mask df2).
Proof.
  intros H. revert mask. induction H as [|r1 r2 df1 df2 Hr H IH]; intros [|b mask]; simpl;
    try constructor.
  destruct b; [constructor|]; auto.
Qed.

Lemma Forall2_map_strip (df1 df2 : DataFrame) :
  Forall2 meta_eq df1 df2 -> map strip_metadata df1 = map strip_metadata df2.
Proof. induction 1; simpl; [done|]. f_equal; [by apply meta_eq_strip|done]. Qed.

(** Keys that stand for each other in two runs: one is equal to another of
    its run exactly when their counterparts are. *)
Lemma duplicated_from_related (R : option pyvalue -> option pyvalue -> Prop) seen1 seen2 ks1 ks2 :
  (forall a b a' b', R a b -> R a' b' -> (a = a' <-> b = b')) ->
  Forall2 R seen1 seen2 -> Forall2 R ks1 ks2 ->
  duplicated_from seen1 ks1 = duplicated_from seen2 ks2.
Proof.
  intros HR Hs Hk. revert seen1 seen2 Hs.
  induction Hk as [|k1 k2 ks1 ks2 Hk Hks IH]; intros seen1 seen2 Hs; simpl; [done|].
  f_equal; [|apply IH; by constructor].
  apply bool_decide_ext. split.
  - intros (i & Hi)%list_elem_of_lookup_1.
    destruct (Forall2_lookup_l _ _ _ _ _ Hs Hi) as (b & Hb & Hab).
    assert (b = k2) as <- by by apply (HR _ _ _ _ Hab Hk).
    by eapply list_elem_of_lookup_2.
  - intros (i & Hi)%list_elem_of_lookup_1.
    destruct (Forall2_lookup_r _ _ _ _ _ Hs Hi) as (a & Ha & Hab).
    assert (a = k1) as <- by by apply (HR _ _ _ _ Hab Hk).
    by eapply list_elem_of_lookup_2.
Qed.

Lemma not_metadata_reason : "reason" ∉ metadata_columns.
Proof.
  unfold metadata_columns.
  intros [?|[?|?%elem_of_nil]%elem_of_cons]%elem_of_cons; done.
Qed.

Lemma assoc_elem_of {A} k (d : list (string * A)) a :
  assoc k d = Some a -> (k, a) ∈ d.
Proof.
  induction d as [|[k' a'] d IH]; simpl; [done|].
  destruct (String.eqb_spec k k') as [->|N]; [intros [= ->]; left|right; auto].
Qed.

Lemma schema_no_metadata table_type c :
  c ∈ metadata_columns -> assoc c (get_table_schema table_type) = None.
Proof.
  intros Hc.
  assert (Forall (fun ts => assoc c ts.2 = None) schemas) as Hall.
  { unfold metadata_columns in Hc.
    apply elem_of_cons in Hc as [->|Hc]; [by repeat constructor|].
    apply elem_of_cons in Hc as [->|Hc]; [by repeat constructor|].
    by apply elem_of_nil in Hc. }
  destruct table_type as [t|]; [|done]. unfold get_table_schema.
  destruct (assoc t schemas) as [s|] eqn:Es; [|done].
  apply assoc_elem_of in Es. rewrite Forall_forall in Hall.
  exact (Hall _ Es).
Qed.

Lemma dict_get_not_key c (r : Series) : c ∉ keys r -> dict_get c r = None.
Proof.
  induction r as [|[k v] r IH]; simpl; [done|].
  intros [N Hc]%not_elem_of_cons. destruct (String.eqb_spec c k); [done|auto].
Qed.

Lemma dict_set_perm k v (r : Series) :
  NoDup (keys r) -> dict_set k v r ≡ₚ (k, v) :: filter (fun x => x.1 <> k) r.
Proof.
  induction r as [|[k' v'] r IH]; simpl; [done|].
  intros [Hk Hn]%NoDup_cons. rewrite filter_cons. simpl.
  destruct (String.eqb_spec k k') as [->|N].
  - rewrite decide_False by (intros H; by apply H).
    apply Permutation_skip. clear IH Hn. 
    induction r as [|[k v0] r IH]; [done|]. rewrite filter_cons. simpl in *.
    apply not_elem_of_cons in Hk as [N Hk].
    rewrite decide_True by done. f_equal. by rewrite <-IH.
  - rewrite decide_True by done. rewrite (IH Hn). apply Permutation_swap.
Qed.

Section ValidationRelated.
Context {rt : PyRuntime}.

Lemma standardize_items_related schema items1 items2 inv acc1 acc2 :
  (forall c, c ∈ metadata_columns -> assoc c schema = None) ->
  meta_eq items1 items2 -> meta_eq acc1 acc2 ->
  res_rel (fun o1 o2 => o1.1 = o2.1 /\ meta_eq o1.2 o2.2)
          (standardize_items schema items1 inv acc1)
          (standardize_items schema items2 inv acc2).
Proof.
  intros HS Hi. revert inv acc1 acc2.
  induction Hi as [|[k1 v1] [k2 v2] i1 i2 [Hk Hv] Hi IH]; intros inv acc1 acc2 Ha;
    simpl in *; [done|].
  subst k2. destruct (assoc k1 schema) as [sc|] eqn:E.
  - assert (k1 ∉ metadata_columns) as Hn.
    { intros Hm. rewrite (HS _ Hm) in E. done. }
    rewrite <-(Hv Hn).
    destruct (standardize_value v1 k1 sc) as [std|e]; simpl; [|done].
    apply IH. by apply meta_eq_dict_set.
  - apply IH. by apply meta_eq_dict_set.
Qed.

Lemma standardize_items_get schema items inv acc inv' acc' c :
  assoc c schema = None -> NoDup (keys items) ->
  standardize_items schema items inv acc = Ok (inv', acc') ->
  dict_get c acc' = match dict_get c items with
                    | Some v => Some v
                    | None => dict_get c acc
                    end.
Proof.
  intros Hc. revert inv acc.
  induction items as [|[col val] items IH]; intros inv acc Hn; simpl.
  { by intros [= _ <-]. }
  apply NoDup_cons in Hn as [Hcol Hn]. simpl in Hcol.
  destruct (String.eqb_spec c col) as [->|N].
  - rewrite Hc. intros H. rewrite (IH _ _ Hn H).
    by rewrite (dict_get_not_key _ _ Hcol), dict_get_set_eq.
  - destruct (assoc col schema) as [sc|].
    + destruct (standardize_value val col sc) as [std|]; simpl; [|done].
      intros H. rewrite (IH _ _ Hn H). by rewrite dict_get_set_ne.
    + intros H. rewrite (IH _ _ Hn H). by rewrite dict_get_set_ne.
Qed.

Lemma validate_rows_related (R : option pyvalue -> option pyvalue -> Prop)
    schema idx rows1 rows2 :
  (forall c, c ∈ metadata_columns -> assoc c schema = None) ->
  Forall2 (fun r1 r2 => meta_eq r1 r2 /\ NoDup (keys r1)
                        /\ R (record_hash_of r1) (record_hash_of r2)) rows1 rows2 ->
  res_rel (fun o1 o2 =>
             Forall2 (fun r1 r2 => meta_eq r1 r2
                                   /\ R (record_hash_of r1) (record_hash_of r2)) o1.1 o2.1
             /\ Forall2 meta_eq o1.2 o2.2)
          (validate_rows schema idx rows1) (validate_rows schema idx rows2).
Proof.
  intros HS H. revert idx.
  induction H as [|r1 r2 rows1 rows2 (Hm & Hn & HR) H IH]; intros idx; simpl.
  { split; constructor. }
  pose proof (standardize_items_related schema r1 r2 [] [] [] HS Hm (meta_eq_refl [])) as Hs.
  destruct (standardize_items schema r1 [] []) as [[inv1 std1]|e1] eqn:E1;
    destruct (standardize_items schema r2 [] []) as [[inv2 std2]|e2] eqn:E2;
    simpl in *; try done.
  destruct Hs as [<- Hstd].
  specialize (IH (S idx)).
  destruct (validate_rows schema (S idx) rows1) as [[c1 d1]|e1];
    destruct (validate_rows schema (S idx) rows2) as [[c2 d2]|e2];
    simpl in *; try done.
  destruct IH as [Hc Hd].
  destruct inv1 as [|i inv1]; simpl.
  - split; [|done]. constructor; [|done]. split; [done|].
    unfold record_hash_of in *.
    rewrite (standardize_items_get _ _ _ _ _ _ "record_hash" (HS _ ltac:(by right; left)) Hn E1).
    assert (NoDup (keys r2)) as Hn2 by by rewrite <-(meta_eq_keys r1 r2).
    rewrite (standardize_items_get _ _ _ _ _ _ "record_hash" (HS _ ltac:(by right; left)) Hn2 E2).
    simpl. 
    assert (forall o : option pyvalue, match o with Some v => Some v | None => None end = o) as Hid
      by by intros [].
    by rewrite !Hid.
  - split; [done|]. constructor; [|done].
    unfold dropped_record. apply meta_eq_dict_update; [apply meta_eq_refl|].
    unfold to_dict. apply meta_eq_dict_update; [apply meta_eq_refl|done].
Qed.

End ValidationRelated.

Lemma dict_get_Some_key c (r : Series) v : dict_get c r = Some v -> c ∈ keys r.
Proof. intros H%dict_get_elem_of. by apply (list_elem_of_fmap_2 fst) in H. Qed.

Lemma strip_related (o1 o2 : option DataFrame) :
  option_Forall2 (Forall2 meta_eq) o1 o2 ->
  map strip_metadata <$> o1 = map strip_metadata <$> o2.
Proof. destruct 1; simpl; [|done]. f_equal. by apply Forall2_map_strip. Qed.

Section Determinism.
Context {rt : PyRuntime}.

Lemma collision_free_separates df now :
  collision_free -> digest_separates df now.
Proof. intros Hcf r r' items items' _ _ _ _. apply Hcf. Qed.

Lemma record_hash_eq_iff df t (r r' : Series) h h' :
  digest_separates df t -> r ∈ df -> r' ∈ df ->
  NoDup (keys r) -> NoDup (keys r') ->
  generate_record_hash (dict_set "upload_timestamp" (VTime t) r) = Ok h ->
  generate_record_hash (dict_set "upload_timestamp" (VTime t) r') = Ok h' ->
  h = h' <-> filter (fun x => x.1 <> "upload_timestamp") r
             ≡ₚ filter (fun x => x.1 <> "upload_timestamp") r'.
Proof.
  intros Hsep Hr Hr' Hn Hn' Hh Hh'.
  destruct (record_hash_total (dict_set "upload_timestamp" (VTime t) r))
    as (items & Es & Hp & _ & Eh); [by apply NoDup_keys_dict_set|].
  destruct (record_hash_total (dict_set "upload_timestamp" (VTime t) r'))
    as (items' & Es' & Hp' & _ & Eh'); [by apply NoDup_keys_dict_set|].
  rewrite Eh in Hh. rewrite Eh' in Hh'. injection Hh as <-. injection Hh' as <-.
  rewrite (dict_set_perm _ _ r Hn) in Hp. rewrite (dict_set_perm _ _ r' Hn') in Hp'.
  split.
  - intros E. apply (Hsep r r' items items' Hr Hr' Es Es') in E.
    subst items'. rewrite Hp in Hp'.
    by apply Permutation_cons_inv in Hp'.
  - intros E.
    assert (py_sorted (dict_set "upload_timestamp" (VTime t) r)
            = py_sorted (dict_set "upload_timestamp" (VTime t) r')) as Eq.
    { apply py_sorted_perm; [by apply NoDup_keys_dict_set|].
      rewrite (dict_set_perm _ _ r Hn), (dict_set_perm _ _ r' Hn'). by rewrite E. }
    rewrite Es, Es' in Eq. by injection Eq as ->.
Qed.

Lemma hash_pair_inj df t1 t2 a b a' b' :
  digest_separates df t1 -> digest_separates df t2 ->
  hash_pair df t1 t2 a b -> hash_pair df t1 t2 a' b' ->
  a = a' <-> b = b'.
Proof.
  intros Hs1 Hs2 (r & h1 & h2 & Hr & Hn & H1 & H2 & -> & ->)
                 (r' & h1' & h2' & Hr' & Hn' & H1' & H2' & -> & ->).
  pose proof (record_hash_eq_iff df t1 r r' h1 h1' Hs1 Hr Hr' Hn Hn' H1 H1') as I1.
  pose proof (record_hash_eq_iff df t2 r r' h2 h2' Hs2 Hr Hr' Hn Hn' H2 H2') as I2.
  split; intros [= E]; do 2 f_equal; [apply I2, I1, E|apply I1, I2, E].
Qed.

Lemma metadata_rows_related df t1 t2 (rows : DataFrame) hs1 hs2 :
  (forall r, r ∈ rows -> r ∈ df /\ NoDup (keys r)) ->
  Forall2 (fun r h => generate_record_hash
                        (dict_set "upload_timestamp" (VTime t1) r) = Ok h) rows hs1 ->
  Forall2 (fun r h => generate_record_hash
                        (dict_set "upload_timestamp" (VTime t2) r) = Ok h) rows hs2 ->
  Forall2 (fun r1 r2 => meta_eq r1 r2 /\ NoDup (keys r1)
                /\ hash_pair df t1 t2 (record_hash_of r1) (record_hash_of r2))
    (zip_with (fun r h => dict_set "record_hash" (VStr h)
                            (dict_set "upload_timestamp" (VTime t1) r)) rows hs1)
    (zip_with (fun r h => dict_set "record_hash" (VStr h)
                            (dict_set "upload_timestamp" (VTime t2) r)) rows hs2).
Proof.
  intros Hn Hf1. revert hs2.
  induction Hf1 as [|r h1 rows hs1 Hh1 Hf1 IH]; intros hs2 Hf2.
  { apply Forall2_nil_inv_l in Hf2 as ->. constructor. }
  apply Forall2_cons_inv_l in Hf2 as (h2 & hs2' & Hh2 & Hf2 & ->). simpl.
  destruct (Hn r) as [Hin Hr]; [left|].
  constructor; [|apply IH; [intros; apply Hn; by right|done]].
  split; [|split].
  - apply meta_eq_dict_set; [|intros []; by right; left].
    apply meta_eq_dict_set; [apply meta_eq_refl|intros []; left].
  - by do 2 apply NoDup_keys_dict_set.
  - exists r, h1, h2. unfold record_hash_of. by rewrite !dict_get_set_eq.
Qed.

Lemma add_metadata_related df t1 t2 :
  (forall r, r ∈ df -> NoDup (keys r)) ->
  exists df1 df2,
    add_metadata df t1 = Ok df1 /\ add_metadata df t2 = Ok df2
    /\ Forall2 (fun r1 r2 => meta_eq r1 r2 /\ NoDup (keys r1)
                  /\ hash_pair df t1 t2 (record_hash_of r1) (record_hash_of r2)) df1 df2.
Proof.
  intros Hn.
  destruct (add_metadata_total df t1 Hn) as (hs1 & Hf1 & ->).
  destruct (add_metadata_total df t2 Hn) as (hs2 & Hf2 & ->).
  eexists _, _. split; [done|]. split; [done|].
  apply metadata_rows_related; [|done|done].
  intros r Hr. split; [done|by apply Hn].
Qed.

Lemma accepted_rel_from_records df t1 t2 rows1 rows2 :
  Forall2 (accepted_rel df t1 t2) rows1 rows2 ->
  Forall2 (accepted_rel df t1 t2) (from_records rows1) (from_records rows2).
Proof.
  intros H.
  assert (Forall2 meta_eq rows1 rows2) as Hm
    by (eapply Forall2_impl; [exact H|]; by intros ?? []).
  pose proof (meta_eq_from_records _ _ Hm) as Hf.
  unfold from_records in *.
  rewrite <-(columns_of_keys rows1 rows2) in * by by apply Forall2_meta_eq_keys.
  apply Forall2_fmap. apply Forall2_fmap in Hf.
  apply Forall2_same_length_lookup_2; [by eapply Forall2_length|].
  intros i r1 r2 H1 H2.
  destruct (Forall2_lookup_lr _ _ _ _ _ _ H H1 H2) as
    [Hme (r & h1 & h2 & Hr & Hn & Hh1 & Hh2 & E1 & E2)].
  split; [by apply meta_eq_reindex|].
  exists r, h1, h2. unfold record_hash_of in *.
  assert ("record_hash" ∈ columns_of rows1) as Hc.
  { eapply columns_of_elem; [by eapply list_elem_of_lookup_2|].
    by eapply dict_get_Some_key. }
  rewrite !dict_get_reindex by done. rewrite E1, E2. done.
Qed.

Lemma check_duplicates_related df t1 t2 c1 c2 d1 d2 :
  digest_separates df t1 -> digest_separates df t2 ->
  option_Forall2 (Forall2 (accepted_rel df t1 t2)) c1 c2 ->
  option_Forall2 (Forall2 meta_eq) d1 d2 ->
  option_Forall2 (Forall2 meta_eq) (check_duplicates c1 d1).1 (check_duplicates c2 d2).1
  /\ option_Forall2 (Forall2 meta_eq) (check_duplicates c1 d1).2 (check_duplicates c2 d2).2.
Proof.
  intros Hs1 Hs2 Hc Hd. destruct Hc as [a1 a2 Ha|]; simpl; [|by split; [constructor|]].
  assert (Forall2 meta_eq a1 a2) as Hm
    by (eapply Forall2_impl; [exact Ha|]; by intros ?? []).
  rewrite <-(meta_eq_df_empty a1 a2 Hm).
  destruct (df_empty a1); simpl; [by split; [constructor|]|].
  assert (duplicated "record_hash" a1 = duplicated "record_hash" a2) as Emask.
  { unfold duplicated.
    apply (duplicated_from_related (hash_pair df t1 t2)); [|constructor|].
    - intros. by eapply (hash_pair_inj df t1 t2).
    - apply Forall2_fmap. eapply Forall2_impl; [exact Ha|]. by intros ?? []. }
  unfold drop_duplicates. rewrite <-Emask.
  set (mask := duplicated "record_hash" a1).
  assert (Forall2 meta_eq (select mask a1) (select mask a2)) as Hdup
    by by apply Forall2_select.
  rewrite <-(meta_eq_df_empty _ _ Hdup).
  destruct (df_empty (select mask a1)); simpl; [by split; [constructor|]|].
  split; [constructor; by apply Forall2_select|].
  assert (Forall2 meta_eq (assign "reason" (VStr "Duplicate record") (select mask a1))
                          (assign "reason" (VStr "Duplicate record") (select mask a2))) as Hmark.
  { unfold assign. apply Forall2_fmap. eapply Forall2_impl; [exact Hdup|].
    intros. by apply meta_eq_dict_set. }
  constructor. destruct Hd as [x1 x2 Hx|]; [|done].
  unfold pd_concat. apply meta_eq_from_records. by apply Forall2_app.
Qed.

Lemma frame_or_None_related (P : Series -> Series -> Prop) rows1 rows2 :
  Forall2 P rows1 rows2 ->
  (Forall2 P rows1 rows2 -> Forall2 P (from_records rows1) (from_records rows2)) ->
  option_Forall2 (Forall2 P) (frame_or_None rows1) (frame_or_None rows2).
Proof.
  intros H Hf. destruct H; simpl; [constructor|].
  constructor. apply Hf. by constructor.
Qed.

(** C3, as the code has it. For a frame whose rows have distinct field
    names, two runs of [validate_and_clean_data], at the timestamps [now1]
    and [now2], go the same way whatever the digest is: both attach their
    metadata, the row-by-row validation accepts and rejects the same rows,
    with the same cells and reasons but for the [upload_timestamp] and
    [record_hash] cells, or raises the same exception, and the two runs
    raise the same exception or both return. When, at each of the two
    timestamps, the digest tells the rows of the frame apart, the
    duplicates found are the same too, and the accepted and dropped frames
    the two runs return are equal once the two metadata columns are left
    out: the rows, their order, their cells and their reasons are the
    same. *)
Theorem validation_deterministic_up_to_metadata (df : DataFrame)
    (table_name : string) (now1 now2 : Z) :
  (forall r, r ∈ df -> NoDup (keys r)) ->
  (exists df1 df2,
      add_metadata df now1 = Ok df1 /\ add_metadata df now2 = Ok df2
      /\ Forall2 meta_eq df1 df2
      /\ res_rel (fun o1 o2 => Forall2 meta_eq o1.1 o2.1
                               /\ Forall2 meta_eq o1.2 o2.2)
           (validate_rows (get_table_schema (table_type_of table_name)) 0 df1)
           (validate_rows (get_table_schema (table_type_of table_name)) 0 df2))
  /\ res_rel (fun _ _ => True)
       (validate_and_clean_data df table_name now1)
       (validate_and_clean_data df table_name now2)
  /\ (digest_separates df now1 -> digest_separates df now2 ->
      strip_frames <$> validate_and_clean_data df table_name now1
      = strip_frames <$> validate_and_clean_data df table_name now2).
Proof.
  intros Hn.
  destruct (add_metadata_related df now1 now2 Hn) as (df1 & df2 & E1 & E2 & Hrel).
  pose proof (validate_rows_related (hash_pair df now1 now2)
                (get_table_schema (table_type_of table_name)) 0 df1 df2
                (schema_no_metadata _) Hrel) as Hv.
  split; [|split].
  - exists df1, df2. split; [done|]. split; [done|]. split.
    { eapply Forall2_impl; [exact Hrel|]. by intros ?? []. }
    destruct (validate_rows _ 0 df1) as [[c1 d1]|e1];
      destruct (validate_rows _ 0 df2) as [[c2 d2]|e2]; simpl in *; try done.
    destruct Hv as [Hc Hd]. split; [|done].
    eapply Forall2_impl; [exact Hc|]. by intros ?? [].
  - unfold validate_and_clean_data. destruct (df_empty df); [done|].
    rewrite E1, E2. simpl.
    destruct (validate_rows _ 0 df1) as [[c1 d1]|e1];
      destruct (validate_rows _ 0 df2) as [[c2 d2]|e2]; simpl in *; done.
  - intros Hs1 Hs2. unfold validate_and_clean_data.
    destruct (df_empty df); [done|].
    rewrite E1, E2. simpl.
    destruct (validate_rows _ 0 df1) as [[c1 d1]|e1];
      destruct (validate_rows _ 0 df2) as [[c2 d2]|e2]; simpl in *; try done;
      [|by subst].
    destruct Hv as [Hc Hd].
    destruct (check_duplicates_related df now1 now2
                (frame_or_None c1) (frame_or_None c2)
                (frame_or_None d1) (frame_or_None d2) Hs1 Hs2) as [H1 H2].
    + apply frame_or_None_related; [done|]. apply accepted_rel_from_records.
    + apply frame_or_None_related; [done|]. apply meta_eq_from_records.
    + unfold strip_frames. f_equal. f_equal; by apply strip_related.
Qed.

End Determinism.

(** ** The claims on the Normalizer *)

Section NormalizerClaims.
Context {rt : PyRuntime}.

Lemma py_float_raises v e :
  py_float v = Raise e -> e = ValueError \/ e = TypeError \/ e = OverflowError.
Proof.
  destruct v as [|z|f|s|t]; simpl; try (intros [= <-]; auto).
  - unfold PyFloat.of_int. case_match; intros [= <-]; auto.
  - case_match; intros [= <-]; auto.
Qed.

Lemma to_int_raises f e :
  PyFloat.to_int f = Raise e -> e = ValueError \/ e = OverflowError.
Proof. destruct f; simpl; intros [= <-]; auto. Qed.

(** A missing value is normalized to [None], whatever the column and the
    rule. *)
Lemma standardize_value_null value column_name schema :
  isna value = true -> standardize_value value column_name schema = Ok VNull.
Proof. intros H. unfold standardize_value. by rewrite H. Qed.

(** A string [float] cannot read is normalized to [None] in a numeric
    column. *)
Lemma standardize_value_unreadable s column_name schema :
  PyStr.contains "CHROM" column_name = false -> rule_type schema <> TStr ->
  float_of_str s = None ->
  standardize_value (VStr s) column_name schema = Ok VNull.
Proof.
  intros Hc Ht Hs. unfold standardize_value. simpl. rewrite Hc, Hs.
  by destruct (rule_type schema).
Qed.

(** The one exception that leaves the Normalizer is [OverflowError], from a
    numeric column: the handler names [ValueError] and [TypeError] only. *)
Lemma standardize_value_raises value column_name schema e :
  standardize_value value column_name schema = Raise e ->
  e = OverflowError /\ PyStr.contains "CHROM" column_name = false
  /\ rule_type schema <> TStr.
Proof.
  unfold standardize_value.
  destruct (isna value); [done|].
  destruct (PyStr.contains "CHROM" column_name).
  { repeat case_match; done. }
  destruct (rule_type schema); simpl.
  - done.
  - destruct (py_float value) as [f|e1] eqn:Ef; simpl.
    + destruct (PyFloat.to_int f) as [z|e2] eqn:Ez; simpl; [done|].
      apply to_int_raises in Ez as [->| ->]; simpl; [done|].
      by intros [= <-].
    + apply py_float_raises in Ef as [->|[->| ->]]; simpl; [done..|].
      by intros [= <-].
  - destruct (py_float value) as [f|e1] eqn:Ef; simpl; [done|].
    apply py_float_raises in Ef as [->|[->| ->]]; simpl; [done..|].
    by intros [= <-].
Qed.

(** C6, as the code has it. For a value that is not missing and whose
    string form is ASCII, in a field whose name contains "CHROM", the
    Normalizer takes the string form of the value in upper case, removes
    every occurrence of "CHR" from it, and maps the outcome X to "23" and Y
    to "24"; the result has no lower-case letter. It is the result of
    stripping a leading "chr" and passing every value but X and Y through
    unchanged exactly for the values that, after such a prefix, are in
    upper case and hold no further "CHR": for those values and for no
    others. *)
Theorem chromosome_normalization (value : pyvalue) (column_name : string)
    (schema : field_rule) :
  PyStr.contains "CHROM" column_name = true -> isna value = false ->
  PyStr.is_ascii (py_str value) = true ->
  let result := chrom_alias (PyStr.remove "CHR" (PyStr.upper (py_str value))) in
  standardize_value value column_name schema = Ok (VStr result)
  /\ PyStr.upper result = result
  /\ (let rest := spec_strip_chr_prefix (py_str value) in
      result = spec_normalize_chromosome (py_str value)
      <-> PyStr.upper rest = rest /\ PyStr.contains "CHR" rest = false).
Proof.
  intros Hc Hn _ result. split; [by apply standardize_chrom|]. split.
  - apply chrom_alias_upper.
    apply PyStrFacts.remove_from_upper, PyStrFacts.upper_idem.
  - apply remove_upper_spec_iff.
Qed.

(** C7, the input on which the code departs from it. An infinite float in
    an integer column, as pandas reads "inf" in a START column of a cns
    file: [int(float(value))] raises [OverflowError], which the handler
    for [(ValueError, TypeError)] lets through. *)
Theorem standardize_value_infinity_raises :
  standardize_value (VFloat (S754_infinity false)) "START" start_rule
  = Raise OverflowError.
Proof. reflexivity. Qed.

End NormalizerClaims.

(** C6, as the specification states it, fails: a value in lower case is
    returned in upper case, and a "chr" that is not a prefix is removed
    too. *)
Lemma chromosome_prefix_claim_fails :
  standardize_value (rt:=Model.runtime) (VStr "mt") "CHROM" chrom_rule
  <> Ok (VStr (spec_normalize_chromosome "mt"))
  /\ standardize_value (rt:=Model.runtime) (VStr "1chr") "CHROM" chrom_rule
     <> Ok (VStr (spec_normalize_chromosome "1chr")).
Proof. split; by vm_compute. Qed.

Lemma chromosome_normalization_witness :
  standardize_value (rt:=Model.runtime) (VStr "chrX") "CHROM" chrom_rule
  = Ok (VStr (spec_normalize_chromosome "chrX")).
Proof.
  destruct (chromosome_normalization (rt:=Model.runtime)
              (VStr "chrX") "CHROM" chrom_rule) as (E & _ & Hspec);
    [reflexivity|reflexivity|reflexivity|].
  etrans; [exact E|].
  apply (f_equal (fun s => Ok (VStr s))).
  exact (proj2 Hspec (conj eq_refl eq_refl)).
Defined.

(** ** The claims on the upload paths *)

Lemma model_driver_accepts : driver_accepts (rt:=Model.runtime).
Proof. by intros ???. Qed.

(** C1, the input on which the code departs from it. A record below the
    minimum of its rule is rejected by the Validator, and of two equal
    records the Deduplicator keeps one; the chunked path of
    [parallel_upload], taken when the frame has at least [chunk_size]
    rows, writes both frames as they are. *)
Theorem chunked_upload_skips_validation :
  (exists dropped,
     validate_and_clean_data (rt:=Model.runtime) invalid_frame "tmb_data" 0
     = Ok (None, Some dropped))
  /\ (exists engine',
        parallel_upload (rt:=Model.runtime) invalid_frame "tmb_data" empty_db 1 0
        = Ok (true, engine')
        /\ stored "tmb_data" engine' = invalid_frame)
  /\ (exists kept dropped,
        validate_and_clean_data (rt:=Model.runtime) twin_frame "tmb_data" 0
        = Ok (Some kept, Some dropped)
        /\ length kept = 1%nat /\ length dropped = 1%nat)
  /\ (exists engine',
        parallel_upload (rt:=Model.runtime) twin_frame "tmb_data" empty_db 2 0
        = Ok (true, engine')
        /\ stored "tmb_data" engine' = twin_frame).
Proof.
  split; [|split; [|split]].
  - eexists. vm_compute. reflexivity.
  - destruct (parallel_upload_chunked (rt:=Model.runtime) invalid_frame
                "tmb_data" empty_db 1 0 model_driver_accepts)
      as (e & E & Ht & _); [simpl; lia|].
    exists e. split; [done|]. unfold stored. by rewrite Ht.
  - eexists _, _. split; [vm_compute; reflexivity|]. done.
  - destruct (parallel_upload_chunked (rt:=Model.runtime) twin_frame
                "tmb_data" empty_db 2 0 model_driver_accepts)
      as (e & E & Ht & _); [simpl; lia|].
    exists e. split; [done|]. unfold stored. by rewrite Ht.
Qed.

(** C2, the input on which the code departs from it. One record and the
    chunk sizes 2 and 1: below the chunk size the frame goes through
    [upload_to_database], at the chunk size it is written as one chunk. An
    invalid record is persisted with chunk size 1 and not with chunk size
    2; a valid one is persisted with its two metadata columns, six cells,
    with chunk size 2 and without them with chunk size 1. *)
Theorem chunk_size_changes_persisted_set :
  (exists e2 e1,
     parallel_upload (rt:=Model.runtime) invalid_frame "tmb_data" empty_db 2 0
     = Ok (false, e2)
     /\ parallel_upload (rt:=Model.runtime) invalid_frame "tmb_data" empty_db 1 0
        = Ok (true, e1)
     /\ stored "tmb_data" e2 = [] /\ stored "tmb_data" e1 = invalid_frame)
  /\ (exists e2 e1,
        parallel_upload (rt:=Model.runtime) valid_frame "tmb_data" empty_db 2 0
        = Ok (true, e2)
        /\ parallel_upload (rt:=Model.runtime) valid_frame "tmb_data" empty_db 1 0
           = Ok (true, e1)
        /\ stored "tmb_data" e1 = valid_frame
        /\ stored "tmb_data" e2 <> stored "tmb_data" e1).
Proof.
  split.
  - destruct (parallel_upload_chunked (rt:=Model.runtime) invalid_frame
                "tmb_data" empty_db 1 0 model_driver_accepts)
      as (e & E & Ht & _); [simpl; lia|].
    exists empty_db, e. split; [by vm_compute|]. split; [done|].
    split; [done|]. unfold stored. by rewrite Ht.
  - destruct (parallel_upload_chunked (rt:=Model.runtime) valid_frame
                "tmb_data" empty_db 1 0 model_driver_accepts)
      as (e & E & Ht & _); [simpl; lia|].
    destruct (parallel_upload (rt:=Model.runtime) valid_frame "tmb_data"
                empty_db 2 0) as [[b e2]|] eqn:E2; [|by vm_compute in E2].
    exists e2, e.
    assert (b = true
            /\ length <$> (head (stored "tmb_data" e2)) = Some 6%nat) as [-> Hl].
    { vm_compute in E2. injection E2 as <- <-. by vm_compute. }
    split; [done|]. split; [done|].
    assert (stored "tmb_data" e = valid_frame) as Hs
      by (unfold stored; by rewrite Ht).
    split; [done|]. rewrite Hs. intros Eq. rewrite Eq in Hl.
    by vm_compute in Hl.
Qed.

(** ** The claims on the Validator and the Deduplicator, on a frame *)

Lemma twin_frame_keys r : r ∈ twin_frame -> NoDup (keys r).
Proof.
  intros Hr. apply (bool_decide_unpack _). unfold twin_frame in Hr.
  repeat (apply elem_of_cons in Hr as [->|Hr]; [by vm_compute|]).
  by apply elem_of_nil in Hr.
Qed.

(** C3, as the specification states it, fails: the two runs attach
    different timestamps, and with them different hashes, to the same
    record. *)
Lemma determinism_claim_fails :
  validate_and_clean_data (rt:=Model.runtime) valid_frame "tmb_data" 0
  <> validate_and_clean_data (rt:=Model.runtime) valid_frame "tmb_data" 1.
Proof. by vm_compute. Qed.

Lemma validation_deterministic_witness :
  strip_frames <$> validate_and_clean_data (rt:=Model.runtime) twin_frame "tmb_data" 0
  = strip_frames <$> validate_and_clean_data (rt:=Model.runtime) twin_frame "tmb_data" 1.
Proof.
  destruct (validation_deterministic_up_to_metadata (rt:=Model.runtime)
              twin_frame "tmb_data" 0 1 twin_frame_keys) as (_ & _ & H).
  apply H; apply collision_free_separates, model_collision_free.
Defined.

Lemma deduplication_first_seen_wins_witness :
  exists kept dropped,
    validate_and_clean_data (rt:=Model.runtime) twin_frame "tmb_data" 0
    = Ok (Some kept, dropped)
    /\ NoDup (map record_hash_of kept).
Proof.
  destruct (validate_and_clean_data (rt:=Model.runtime) twin_frame "tmb_data" 0)
    as [[[kept|] dropped]|e] eqn:E.
  - exists kept, dropped. split; [reflexivity|].
    destruct (deduplication_first_seen_wins (rt:=Model.runtime) _ _ _ _ _ E)
      as (df' & cleaned_rows & dropped_records & mask & _ & _ & H).
    exact (proj1 (proj2 (proj2 (proj2 H)))).
  - vm_compute in E. discriminate E.
  - vm_compute in E. discriminate E.
Defined.


(** ** The claims on the Verifier, on a table that holds rows *)

Lemma verify_upload_count_first_witness :
  verify_upload (rt:=Model.runtime) valid_frame "tmb_data" stocked_db
  = (false, issue (CountAll "tmb_data") stocked_db).
Proof.
  apply (verify_upload_count_first (rt:=Model.runtime) _ _ _ twin_frame).
  - apply lookup_singleton_eq.
  - simpl. lia.
Defined.

Lemma verification_fails_on_nonempty_table_witness :
  (upload_to_database (rt:=Model.runtime) valid_frame "tmb_data" stocked_db 0).1
  = false.
Proof.
  destruct (verification_fails_on_nonempty_table (rt:=Model.runtime)
              valid_frame "tmb_data" stocked_db 0 twin_frame) as [H _].
  - apply lookup_singleton_eq.
  - discriminate.
  - exact H.
Defined.

(** * Properties of the rest of the file *)

(** ** The Validator, record by record *)

Section ValidatorFacts.
Context {rt : PyRuntime}.

Lemma compare_not_Lt x y :
  match x ?= y with Lt => true | _ => false end = false <-> y <= x.
Proof. destruct (Z.compare_spec x y); split; try done; lia. Qed.

Lemma compare_not_Gt x y :
  match x ?= y with Gt => true | _ => false end = false <-> x <= y.
Proof. destruct (Z.compare_spec x y); split; try done; lia. Qed.

Lemma below_false_iff v lo : below v lo = false <-> at_least v lo.
Proof.
  destruct v as [|a|f|s|t]; cbn [below at_least]; try done.
  - by rewrite Z.ltb_ge.
  - unfold PyFloat.lt_int.
    destruct f as [sg|sg| |sg m e]; cbn [PyFloat.compare_int float_value].
    + rewrite compare_not_Lt. unfold QArith_base.Qle. simpl. lia.
    + destruct sg; split; try done; [intros [|]; done|by right].
    + split; [by left|done].
    + destruct (0 <=? e) eqn:Ee; rewrite compare_not_Lt; unfold QArith_base.Qle;
        cbn [QArith_base.Qnum QArith_base.Qden QArith_base.inject_Z].
      * lia.
      * apply Z.leb_gt in Ee.
        rewrite Z2Pos.id by (apply Z.pow_pos_nonneg; lia). lia.
Qed.

Lemma above_false_iff v hi : above v hi = false <-> at_most v hi.
Proof.
  destruct v as [|a|f|s|t]; cbn [above at_most]; try done.
  - by rewrite Z.ltb_ge.
  - unfold PyFloat.gt_int.
    destruct f as [sg|sg| |sg m e]; cbn [PyFloat.compare_int float_value].
    + rewrite compare_not_Gt. unfold QArith_base.Qle. simpl. lia.
    + destruct sg; split; try done; [by right|intros [|]; done].
    + split; [by left|done].
    + destruct (0 <=? e) eqn:Ee; rewrite compare_not_Gt; unfold QArith_base.Qle;
        cbn [QArith_base.Qnum QArith_base.Qden QArith_base.inject_Z].
      * lia.
      * apply Z.leb_gt in Ee.
        rewrite Z2Pos.id by (apply Z.pow_pos_nonneg; lia). lia.
Qed.

(** No message of the checks: the value is missing where it may be, or has
    the type of the rule and fails none of its comparisons. *)
Lemma check_value_nil col schema_col std_val :
  check_value col schema_col std_val = []
  <-> if is_None std_val then rule_required schema_col = false
      else
        isinstance std_val (rule_type schema_col) = true
        /\ match rule_type schema_col with
           | TStr =>
               forall pat, rule_pattern schema_col = Some pat ->
                           re_match pat (py_str std_val) = true
           | _ =>
               (forall lo, rule_min schema_col = Some lo ->
                           below std_val lo = false)
               /\ (forall hi, rule_max schema_col = Some hi ->
                              above std_val hi = false)
           end.
Proof.
  unfold check_value.
  destruct (is_None std_val) eqn:En.
  - rewrite andb_true_r. simpl. destruct (rule_required schema_col); split; done.
  - rewrite andb_false_r. simpl.
    destruct (isinstance std_val (rule_type schema_col)); simpl;
      [|split; [done|by intros [? _]]].
    destruct (rule_type schema_col).
    + destruct (rule_pattern schema_col) as [pat|].
      * destruct (re_match pat (py_str std_val)) eqn:Em; simpl.
        -- split; [|done]. intros _. split; [done|]. by intros ? [= <-].
        -- split; [done|]. intros [_ H]. specialize (H pat eq_refl). congruence.
      * split; [|done]. intros _. split; done.
    + destruct (rule_min schema_col) as [lo|], (rule_max schema_col) as [hi|];
        repeat case_match; simpl; split; try done;
        try (intros _; split; [done|]; split; intros ? [= <-]; done);
        try (intros [_ [H1 H2]]; try specialize (H1 _ eq_refl);
             try specialize (H2 _ eq_refl); congruence).
    + destruct (rule_min schema_col) as [lo|], (rule_max schema_col) as [hi|];
        repeat case_match; simpl; split; try done;
        try (intros _; split; [done|]; split; intros ? [= <-]; done);
        try (intros [_ [H1 H2]]; try specialize (H1 _ eq_refl);
             try specialize (H2 _ eq_refl); congruence).
Qed.

Lemma check_value_conforms col schema_col std_val :
  check_value col schema_col std_val = [] <-> conforms schema_col std_val.
Proof.
  rewrite check_value_nil. unfold conforms.
  destruct (is_None std_val); [done|].
  destruct (rule_type schema_col); [done|..];
    (split; intros [Hi [H1 H2]]; (split; [done|]); split; intros b Hb;
     [apply below_false_iff, H1, Hb|apply above_false_iff, H2, Hb
     |apply below_false_iff, H1, Hb|apply above_false_iff, H2, Hb]).
Qed.

Lemma dict_get_elem_NoDup c v (r : Series) :
  NoDup (keys r) -> (c, v) ∈ r -> dict_get c r = Some v.
Proof.
  intros Hnd Hin.
  destruct (dict_get_is_Some c r) as [v' Hv'].
  { apply list_elem_of_fmap. by exists (c, v). }
  rewrite Hv'. f_equal. apply dict_get_elem_of in Hv'.
  by eapply NoDup_keys_agree.
Qed.

Lemma standardize_items_other schema items inv acc inv' acc' c :
  c ∉ keys items ->
  standardize_items schema items inv acc = Ok (inv', acc') ->
  dict_get c acc' = dict_get c acc.
Proof.
  revert inv acc. induction items as [|[col val] items IH]; intros inv acc Hc; simpl.
  { by intros [= _ <-]. }
  simpl in Hc. apply not_elem_of_cons in Hc as [Hne Hc].
  destruct (assoc col schema) as [schema_col|].
  - destruct (standardize_value val col schema_col) as [std_val|]; simpl; [|done].
    intros H. rewrite (IH _ _ Hc H). by apply dict_get_set_ne.
  - intros H. rewrite (IH _ _ Hc H). by apply dict_get_set_ne.
Qed.

Lemma standardize_items_reasons schema items inv acc inv' acc' :
  standardize_items schema items inv acc = Ok (inv', acc') ->
  exists ext, inv' = inv ++ ext.
Proof.
  revert inv acc. induction items as [|[col val] items IH]; intros inv acc; simpl.
  { intros [= <- _]. exists []. by rewrite app_nil_r. }
  destruct (assoc col schema) as [schema_col|].
  - destruct (standardize_value val col schema_col) as [std_val|]; simpl; [|done].
    intros (ext & ->)%IH. eexists. by rewrite <-app_assoc.
  - apply IH.
Qed.

(** A cell under a rule: its standardized value is in the standardized
    row, and what its checks report is among the reasons. *)
Lemma standardize_items_bound schema items inv acc inv' acc' c v schema_col :
  standardize_items schema items inv acc = Ok (inv', acc') ->
  (c, v) ∈ items -> assoc c schema = Some schema_col ->
  exists std_val,
    standardize_value v c schema_col = Ok std_val
    /\ (forall msg, msg ∈ check_value c schema_col std_val -> msg ∈ inv')
    /\ (NoDup (keys items) -> dict_get c acc' = Some std_val).
Proof.
  revert inv acc. induction items as [|[col val] items IH]; intros inv acc; simpl.
  { by intros _ ?%elem_of_nil. }
  intros H [[= <- <-]|Hin]%elem_of_cons Ha.
  - rewrite Ha in H.
    destruct (standardize_value v c schema_col) as [std_val|]; simpl in H; [|done].
    exists std_val. split; [done|]. split.
    + intros msg Hmsg. apply standardize_items_reasons in H as (ext & ->).
      rewrite !elem_of_app. auto.
    + intros [Hc _]%NoDup_cons.
      rewrite (standardize_items_other _ _ _ _ _ _ _ Hc H).
      apply dict_get_set_eq.
  - destruct (assoc col schema) as [sc|].
    + destruct (standardize_value val col sc) as [sv|]; simpl in H; [|done].
      destruct (IH _ _ H Hin Ha) as (std_val & ? & ? & Hg).
      exists std_val. split; [done|]. split; [done|].
      intros [_ ?]%NoDup_cons. auto.
    + destruct (IH _ _ H Hin Ha) as (std_val & ? & ? & Hg).
      exists std_val. split; [done|]. split; [done|].
      intros [_ ?]%NoDup_cons. auto.
Qed.

Lemma elem_of_keys_dict_set_inv k v (d : Series) c :
  c ∈ keys (dict_set k v d) -> c ∈ keys d \/ c = k.
Proof.
  rewrite keys_dict_set. case_bool_decide; [by left|].
  intros [?|?%list_elem_of_singleton]%elem_of_app; auto.
Qed.

Lemma dict_set_fresh k v (d : Series) :
  k ∉ keys d -> dict_set k v d = d ++ [(k, v)].
Proof.
  induction d as [|[k' v'] d IH]; simpl; [done|].
  intros [Hne Hd]%not_elem_of_cons.
  rewrite (proj2 (String.eqb_neq _ _)) by done. by rewrite IH.
Qed.

Lemma dict_update_fresh (d r : Series) :
  NoDup (keys (d ++ r)) -> dict_update d r = d ++ r.
Proof.
  unfold dict_update. revert d. induction r as [|[k v] r IH]; intros d Hnd; simpl.
  { by rewrite app_nil_r. }
  unfold keys in Hnd. rewrite fmap_app in Hnd. simpl in Hnd.
  rewrite dict_set_fresh.
  - rewrite IH; [by rewrite <-app_assoc|].
    unfold keys. rewrite !fmap_app. simpl. rewrite <-app_assoc. simpl.
    apply NoDup_app in Hnd as (H1 & H2 & H3).
    apply NoDup_cons in H3 as [H3 H4].
    apply NoDup_app. split; [done|]. split.
    + intros x Hx [->|Hx']%elem_of_cons; [|by apply (H2 x Hx); right].
      apply (H2 k Hx). by left.
    + by apply NoDup_cons.
  - apply NoDup_app in Hnd as (_ & H2 & _). intros Hk. apply (H2 k Hk). by left.
Qed.

(** [row.to_dict()] of a row whose names are distinct is the row. *)
Lemma to_dict_NoDup (r : Series) : NoDup (keys r) -> to_dict r = r.
Proof. intros H. unfold to_dict. by rewrite dict_update_fresh. Qed.

Lemma dict_get_update c (d r : Series) :
  NoDup (keys r) ->
  dict_get c (dict_update d r)
  = match dict_get c r with Some v => Some v | None => dict_get c d end.
Proof.
  unfold dict_update. revert d. induction r as [|[k v] r IH]; intros d Hnd; [done|].
  apply NoDup_cons in Hnd as [Hk Hnd]. cbn [fst] in Hk.
  cbn [fold_left fst snd dict_get].
  rewrite (IH _ Hnd). destruct (String.eqb c k) eqn:E.
  - apply String.eqb_eq in E as ->.
    by rewrite (dict_get_not_key _ _ Hk), dict_get_set_eq.
  - apply String.eqb_neq in E. by rewrite dict_get_set_ne by done.
Qed.

(** The cells of a dropped record: those of the row, and the position and
    the reason under names the row does not use. *)
Lemma dropped_record_cells idx invalid_columns (row : Series) :
  NoDup (keys row) ->
  let d := dropped_record idx invalid_columns row in
  (forall c v, (c, v) ∈ row -> dict_get c d = Some v)
  /\ ("index" ∉ keys row -> dict_get "index" d = Some (VInt (Z.of_nat idx)))
  /\ ("reason" ∉ keys row ->
      dict_get "reason" d
      = Some (VStr ("Invalid values in columns: "
                    +:+ PyStr.join ", " invalid_columns))).
Proof.
  intros Hnd. cbv zeta. unfold dropped_record. rewrite (to_dict_NoDup _ Hnd).
  split; [|split].
  - intros c v Hcv. rewrite dict_get_update by done.
    by rewrite (dict_get_elem_NoDup _ _ _ Hnd Hcv).
  - intros Hk. rewrite dict_get_update by done.
    by rewrite (dict_get_not_key _ _ Hk).
  - intros Hk. rewrite dict_get_update by done.
    by rewrite (dict_get_not_key _ _ Hk).
Qed.

Lemma standardize_items_unbound schema items inv acc :
  (forall c, c ∈ keys items -> assoc c schema = None) ->
  standardize_items schema items inv acc = Ok (inv, dict_update acc items).
Proof.
  revert acc. induction items as [|[col val] items IH]; intros acc Hs; simpl; [done|].
  rewrite (Hs col) by (simpl; left). rewrite IH; [done|].
  intros c Hc. apply Hs. simpl. by right.
Qed.

Lemma validate_rows_unbound schema idx (rows : DataFrame) :
  (forall r, r ∈ rows -> NoDup (keys r)) ->
  (forall r c, r ∈ rows -> c ∈ keys r -> assoc c schema = None) ->
  validate_rows schema idx rows = Ok (rows, []).
Proof.
  revert idx. induction rows as [|row rows IH]; intros idx Hnd Hs; simpl; [done|].
  rewrite standardize_items_unbound by (intros c Hc; apply (Hs row c); [left|done]).
  simpl. rewrite IH.
  - simpl. fold (to_dict row). rewrite to_dict_NoDup; [done|]. apply Hnd. left.
  - intros r Hr. apply Hnd. by right.
  - intros r c Hr. apply Hs. by right.
Qed.

Lemma validate_rows_length schema idx rows cleaned dropped :
  validate_rows schema idx rows = Ok (cleaned, dropped) ->
  (length cleaned + length dropped = length rows)%nat.
Proof.
  revert idx cleaned dropped.
  induction rows as [|row rows IH]; intros idx cleaned dropped; simpl.
  { by intros [= <- <-]. }
  destruct (standardize_items schema row [] []) as [[inv std]|]; simpl; [|done].
  destruct (validate_rows schema (S idx) rows) as [[cl dr]|] eqn:E; simpl; [|done].
  apply IH in E. destruct inv; intros [= <- <-]; simpl; lia.
Qed.

Lemma validate_rows_dropped schema idx rows cleaned dropped i r :
  validate_rows schema idx rows = Ok (cleaned, dropped) ->
  rows !! i = Some r ->
  exists inv std,
    standardize_items schema r [] [] = Ok (inv, std)
    /\ (inv <> [] -> dropped_record (idx + i) inv r ∈ dropped)
    /\ (inv = [] -> std ∈ cleaned).
Proof.
  revert idx cleaned dropped i.
  induction rows as [|row rows IH]; intros idx cleaned dropped i; simpl; [done|].
  destruct (standardize_items schema row [] []) as [[inv std]|] eqn:Es; simpl; [|done].
  destruct (validate_rows schema (S idx) rows) as [[cl dr]|] eqn:E; simpl; [|done].
  intros H Hi. destruct i as [|i]; simpl in Hi.
  - injection Hi as ->. exists inv, std. split; [done|].
    rewrite Nat.add_0_r. destruct inv; injection H as <- <-.
    + split; [done|]. intros _. left.
    + split; [|done]. intros _. left.
  - destruct (IH _ _ _ _ E Hi) as (inv' & std' & ? & Hd & Hc).
    exists inv', std'. split; [done|].
    replace (idx + S i)%nat with (S idx + i)%nat by lia.
    destruct inv; injection H as <- <-.
    + split; [done|]. intros ?. right. auto.
    + split; [|done]. intros ?. right. auto.
Qed.

Lemma add_columns_NoDup cols ks : NoDup cols -> NoDup (add_columns cols ks).
Proof.
  revert cols. induction ks as [|k ks IH]; intros cols H; simpl; [done|].
  apply IH. case_bool_decide; [done|].
  apply NoDup_app. split; [done|]. split; [|apply NoDup_singleton].
  intros x Hx ->%list_elem_of_singleton. done.
Qed.

Lemma columns_of_NoDup (rows : list Series) : NoDup (columns_of rows).
Proof.
  unfold columns_of. generalize (NoDup_nil_2 (A:=string)).
  generalize (@nil string) as cols.
  induction rows as [|r rows IH]; intros cols H; simpl; [done|].
  apply IH. by apply add_columns_NoDup.
Qed.

Lemma length_from_records rows : length (from_records rows) = length rows.
Proof. unfold from_records. by rewrite length_map. Qed.

Lemma add_metadata_length df now df' :
  add_metadata df now = Ok df' -> length df' = length df.
Proof.
  intros (hashes & Hf & ->)%add_metadata_inv.
  apply Forall2_length in Hf. rewrite length_zip_with. lia.
Qed.

Lemma add_metadata_elem df now df' r1 :
  add_metadata df now = Ok df' -> r1 ∈ df' ->
  exists r h, r ∈ df
    /\ r1 = dict_set "record_hash" (VStr h)
              (dict_set "upload_timestamp" (VTime now) r).
Proof.
  intros (hashes & _ & ->)%add_metadata_inv (r & h & -> & Hr & _)%elem_of_zip_with.
  eauto.
Qed.

Lemma frame_or_None_length rows :
  length (default [] (frame_or_None rows)) = length rows.
Proof. destruct rows; [done|]. cbn [frame_or_None default id]. by rewrite length_from_records. Qed.

Lemma check_duplicates_length c d :
  (length (default [] (check_duplicates c d).1)
   + length (default [] (check_duplicates c d).2)
   = length (default [] c) + length (default [] d))%nat.
Proof.
  unfold check_duplicates. destruct c as [cleaned|]; [|done].
  destruct (df_empty cleaned); [done|].
  destruct (df_empty _); [done|]. cbn [fst snd default id].
  pose proof (select_partition (duplicated "record_hash" cleaned) cleaned) as Hp.
  unfold duplicated in Hp at 1. rewrite length_duplicated_from, length_map in Hp.
  specialize (Hp eq_refl). unfold drop_duplicates.
  destruct d as [dropped|]; cbn [default id].
  - unfold pd_concat, assign. rewrite length_from_records, length_app, length_map. lia.
  - unfold assign. rewrite length_map. simpl. lia.
Qed.

Lemma validate_and_clean_data_unbound (df : DataFrame) table_name now :
  df_empty df = false ->
  (forall r, r ∈ df -> NoDup (keys r)) ->
  (forall r c, r ∈ df -> c ∈ keys r ->
     assoc c (get_table_schema (table_type_of table_name)) = None) ->
  exists df',
    add_metadata df now = Ok df'
    /\ validate_and_clean_data df table_name now
       = Ok (check_duplicates (Some (from_records df')) None).
Proof.
  intros He Hnd Hs.
  destruct (add_metadata_total df now Hnd) as (hashes & Hf & Hm).
  eexists. split; [exact Hm|].
  unfold validate_and_clean_data. rewrite He, Hm. cbn [mbind res_bind].
  rewrite validate_rows_unbound.
  - cbn [mbind res_bind].
    destruct (zip_with _ df hashes) as [|r0 rows] eqn:Ez; [|done].
    apply (f_equal length) in Ez. rewrite length_zip_with in Ez.
    apply Forall2_length in Hf. rewrite <-Hf, Nat.min_id in Ez.
    destruct df; [done|]. discriminate Ez.
  - intros r1 (r & h & -> & Hr & _)%elem_of_zip_with.
    do 2 apply NoDup_keys_dict_set. auto.
  - intros r1 c (r & h & -> & Hr & _)%elem_of_zip_with Hc.
    apply elem_of_keys_dict_set_inv in Hc as [Hc|Hc];
      [|subst c; apply schema_no_metadata; unfold metadata_columns;
        rewrite !elem_of_cons; auto].
    apply elem_of_keys_dict_set_inv in Hc as [Hc|Hc];
      [|subst c; apply schema_no_metadata; unfold metadata_columns;
        rewrite !elem_of_cons; auto].
    by apply (Hs r c Hr).
Qed.

End ValidatorFacts.

Section ValidatorProperties.
Context {rt : PyRuntime}.

(** X1. What the Validator accepts meets the schema. For a frame whose
    text cells are ASCII, every record of the accepted frame comes from a
    record of the input whose cells under a rule all standardize to a value
    that conforms to the rule: not missing when the rule requires it, of
    the type of the rule, matching its pattern, and, for a number, at least
    the minimum and at most the maximum of the rule, or NaN, which the
    Validator lets through under every bound. The accepted record holds
    these standardized values, and its cells under no rule as they were
    given. *)
Theorem accepted_records_conform (df : DataFrame) (table_name : string)
    (now : Z) (cleaned_df : DataFrame) (dropped_df : option DataFrame)
    (r' : Series) :
  (forall r, r ∈ df -> NoDup (keys r)) ->
  ascii_frame df ->
  validate_and_clean_data df table_name now = Ok (Some cleaned_df, dropped_df) ->
  r' ∈ cleaned_df ->
  exists r, r ∈ df /\
    forall c v, (c, v) ∈ r ->
      match assoc c (get_table_schema (table_type_of table_name)) with
      | Some schema_col =>
          exists std_val,
            standardize_value v c schema_col = Ok std_val
            /\ conforms schema_col std_val
            /\ dict_get c r' = Some std_val
      | None => c ∉ metadata_columns -> dict_get c r' = Some v
      end.
Proof.
  intros Hnd _ (df' & cleaned_rows & dropped_records & Hm & Hv & H)%accepted_frame Hr'.
  cbv zeta in H. destruct H as (_ & _ & -> & _).
  apply select_elem in Hr'. unfold from_records in Hr'.
  apply list_elem_of_fmap in Hr' as (std & -> & Hstd).
  destruct (validate_rows_cleaned _ _ _ _ _ _ Hv Hstd) as (r1 & Hr1 & Hs).
  destruct (add_metadata_elem _ _ _ _ Hm Hr1) as (r & h & Hr & ->).
  set (r1 := dict_set "record_hash" _ _) in *.
  assert (NoDup (keys r1)) as Hnd1 by (do 2 apply NoDup_keys_dict_set; auto).
  exists r. split; [done|]. intros c v Hcv.
  assert (c ∉ metadata_columns -> (c, v) ∈ r1) as Hin.
  { intros Hc. apply dict_get_elem_of. unfold r1.
    rewrite !dict_get_set_ne.
    - apply dict_get_elem_NoDup; auto.
    - intros <-. apply Hc. unfold metadata_columns. rewrite !elem_of_cons. auto.
    - intros <-. apply Hc. unfold metadata_columns. rewrite !elem_of_cons. auto. }
  assert (forall x, dict_get c std = Some x ->
            dict_get c (reindex (columns_of cleaned_rows) std) = Some x) as Hre.
  { intros x Hx. rewrite dict_get_reindex; [by rewrite Hx|].
    eapply columns_of_elem; [exact Hstd|]. by eapply dict_get_Some_key. }
  destruct (assoc c _) as [schema_col|] eqn:Ea.
  - assert (c ∉ metadata_columns) as Hc.
    { intros Hc. by rewrite (schema_no_metadata _ _ Hc) in Ea. }
    destruct (standardize_items_bound _ _ _ _ _ _ _ _ _ Hs (Hin Hc) Ea)
      as (std_val & E & Hmsg & Hg).
    exists std_val. split; [done|]. split.
    + apply (proj1 (check_value_conforms c schema_col std_val)).
      destruct (check_value c schema_col std_val) as [|msg ?] eqn:Ec; [done|].
      specialize (Hmsg msg ltac:(left)). by apply elem_of_nil in Hmsg.
    + apply Hre. auto.
  - intros Hc. apply Hre.
    rewrite (standardize_items_get _ _ _ _ _ _ _ Ea Hnd1 Hs).
    by rewrite (dict_get_elem_NoDup _ _ _ Hnd1 (Hin Hc)).
Qed.

(** X2. A record with a cell that breaks its rule is dropped, under its
    position and with the reason: if the loop of the Validator ends, then
    for the record at position [i] and each message the checks of one of
    its cells give, the list of dropped records holds the record, filed
    under the index [idx + i], with reasons that include the message. The
    dropped record has the cells of the record; it has the position and
    the reasons under [index] and [reason] unless the record has columns
    of these names, whose cells then stand there instead. *)
Theorem violating_record_is_dropped (schema : schema_t) (idx : nat)
    (rows cleaned dropped : list Series) (i : nat) (r : Series) (c : string)
    (v : pyvalue) (schema_col : field_rule) (std_val : pyvalue) (msg : string) :
  validate_rows schema idx rows = Ok (cleaned, dropped) ->
  rows !! i = Some r -> (c, v) ∈ r ->
  assoc c schema = Some schema_col ->
  standardize_value v c schema_col = Ok std_val ->
  msg ∈ check_value c schema_col std_val ->
  exists invalid_columns,
    msg ∈ invalid_columns
    /\ dropped_record (idx + i) invalid_columns r ∈ dropped
    /\ (NoDup (keys r) ->
        let d := dropped_record (idx + i) invalid_columns r in
        (forall c' v', (c', v') ∈ r -> dict_get c' d = Some v')
        /\ ("index" ∉ keys r ->
            dict_get "index" d = Some (VInt (Z.of_nat (idx + i))))
        /\ ("reason" ∉ keys r ->
            dict_get "reason" d
            = Some (VStr ("Invalid values in columns: "
                          +:+ PyStr.join ", " invalid_columns)))).
Proof.
  intros Hv Hi Hcv Ha Es Hmsg.
  destruct (validate_rows_dropped _ _ _ _ _ _ _ Hv Hi) as (inv & std & Hs & Hd & _).
  destruct (standardize_items_bound _ _ _ _ _ _ _ _ _ Hs Hcv Ha)
    as (std_val' & E & Hin & _).
  assert (std_val' = std_val) as -> by congruence.
  exists inv. split; [auto|]. split; [|apply dropped_record_cells].
  apply Hd. intros ->.
  specialize (Hin _ Hmsg). by apply elem_of_nil in Hin.
Qed.

(** X3. No record is lost and none is counted twice: for a frame that is
    not empty, the accepted frame and the dropped frame together hold as
    many records as the input. *)
Theorem every_record_accounted_for (df : DataFrame) (table_name : string)
    (now : Z) (cleaned_df dropped_df : option DataFrame) :
  df_empty df = false ->
  validate_and_clean_data df table_name now = Ok (cleaned_df, dropped_df) ->
  (length (default [] cleaned_df) + length (default [] dropped_df)
   = length df)%nat.
Proof.
  intros He [(He' & _)|(df' & cleaned_rows & dropped_records & _ & Hm & Hv & Hc)]
    %validate_and_clean_data_inv; [congruence|].
  pose proof (check_duplicates_length (frame_or_None cleaned_rows)
                (frame_or_None dropped_records)) as Hl.
  rewrite <-Hc in Hl. cbn [fst snd] in Hl. rewrite Hl, !frame_or_None_length.
  rewrite (validate_rows_length _ _ _ _ _ Hv). by eapply add_metadata_length.
Qed.

(** X4. Columns under no rule are not checked. When no column of the
    frame is named in the schema of the table (so for every table whose
    name names no registered type), no record is rejected for its values:
    the outcome is the frame with its two metadata columns, split by the
    Deduplicator alone. *)
Theorem unbound_columns_are_not_checked (df : DataFrame) (table_name : string)
    (now : Z) :
  df_empty df = false ->
  (forall r, r ∈ df -> NoDup (keys r)) ->
  (forall r c, r ∈ df -> c ∈ keys r ->
     assoc c (get_table_schema (table_type_of table_name)) = None) ->
  exists df',
    add_metadata df now = Ok df'
    /\ validate_and_clean_data df table_name now
       = Ok (check_duplicates (Some (from_records df')) None).
Proof. apply validate_and_clean_data_unbound. Qed.

End ValidatorProperties.

Lemma valid_frame_keys r : r ∈ valid_frame -> NoDup (keys r).
Proof.
  intros Hr. apply twin_frame_keys. unfold twin_frame, valid_frame in *.
  rewrite elem_of_cons. by left; apply list_elem_of_singleton.
Qed.

Lemma valid_frame_ascii : ascii_frame valid_frame.
Proof.
  intros r c s ->%list_elem_of_singleton Hin. unfold tmb_row in Hin.
  rewrite !elem_of_cons in Hin.
  destruct Hin as [[= _ ->]|[[=]|[[=]|[[=]|[]%elem_of_nil]]]]. reflexivity.
Qed.

Lemma accepted_records_conform_witness :
  exists kept dropped,
    validate_and_clean_data (rt:=Model.runtime) valid_frame "tmb_data" 0
    = Ok (Some kept, dropped)
    /\ forall r', r' ∈ kept ->
         exists r, r ∈ valid_frame
           /\ forall c v, (c, v) ∈ r ->
                match assoc c (get_table_schema (table_type_of "tmb_data")) with
                | Some schema_col =>
                    exists std_val,
                      standardize_value (rt:=Model.runtime) v c schema_col
                      = Ok std_val
                      /\ conforms (rt:=Model.runtime) schema_col std_val
                      /\ dict_get c r' = Some std_val
                | None => c ∉ metadata_columns -> dict_get c r' = Some v
                end.
Proof.
  destruct (validate_and_clean_data (rt:=Model.runtime) valid_frame "tmb_data" 0)
    as [[[kept|] dropped]|e] eqn:E.
  - exists kept, dropped. split; [reflexivity|]. intros r' Hr'.
    exact (accepted_records_conform (rt:=Model.runtime) _ _ _ _ _ r'
             valid_frame_keys valid_frame_ascii E Hr').
  - vm_compute in E. discriminate E.
  - vm_compute in E. discriminate E.
Defined.

Lemma violating_record_is_dropped_witness :
  exists cleaned dropped invalid_columns,
    validate_rows (rt:=Model.runtime) (get_table_schema (Some "tmb")) 0
      invalid_frame = Ok (cleaned, dropped)
    /\ "TMB: Below minimum value 0" ∈ invalid_columns
    /\ dropped_record 0 invalid_columns (tmb_row minus_one) ∈ dropped.
Proof.
  destruct (validate_rows (rt:=Model.runtime) (get_table_schema (Some "tmb")) 0
              invalid_frame) as [[cleaned dropped]|e] eqn:E.
  - destruct (violating_record_is_dropped (rt:=Model.runtime) _ _ _ _ _
                0%nat (tmb_row minus_one) "TMB" (VFloat minus_one)
                (rule TFloat None (Some 0) None) (VFloat minus_one)
                "TMB: Below minimum value 0" E)
      as (inv & Hmsg & Hd & _).
    + reflexivity.
    + unfold tmb_row. rewrite !elem_of_cons. right. by left.
    + reflexivity.
    + reflexivity.
    + vm_compute. apply list_elem_of_singleton. reflexivity.
    + exists cleaned, dropped, inv. split; [reflexivity|]. split; [exact Hmsg|exact Hd].
  - vm_compute in E. discriminate E.
Defined.

Lemma every_record_accounted_for_witness :
  exists cleaned_df dropped_df,
    validate_and_clean_data (rt:=Model.runtime) twin_frame "tmb_data" 0
    = Ok (cleaned_df, dropped_df)
    /\ (length (default [] cleaned_df) + length (default [] dropped_df) = 2)%nat.
Proof.
  destruct (validate_and_clean_data (rt:=Model.runtime) twin_frame "tmb_data" 0)
    as [[c d]|e] eqn:E.
  - exists c, d. split; [reflexivity|].
    apply (every_record_accounted_for (rt:=Model.runtime) twin_frame "tmb_data" 0);
      [reflexivity|exact E].
  - vm_compute in E. discriminate E.
Defined.

Lemma unbound_columns_are_not_checked_witness :
  exists df',
    add_metadata (rt:=Model.runtime) invalid_frame 0 = Ok df'
    /\ validate_and_clean_data (rt:=Model.runtime) invalid_frame "coverage_data" 0
       = Ok (check_duplicates (Some (from_records df')) None).
Proof.
  apply (unbound_columns_are_not_checked (rt:=Model.runtime)).
  - reflexivity.
  - intros r Hr. apply (bool_decide_unpack _). unfold invalid_frame in Hr.
    apply elem_of_cons in Hr as [->|Hr]; [by vm_compute|].
    by apply elem_of_nil in Hr.
  - intros r c _ _. reflexivity.
Defined.

Section ValidatorRaises.
Context {rt : PyRuntime}.

Lemma elem_of_dict_set_ne c v k x (d : Series) :
  (c, v) ∈ dict_set k x d -> c <> k -> (c, v) ∈ d.
Proof.
  induction d as [|[k' v'] d IH]; simpl.
  { intros [= -> _]%list_elem_of_singleton. done. }
  destruct (String.eqb_spec k k') as [->|Hne].
  - intros [[= -> _]|H]%elem_of_cons Hc; [done|]. by right.
  - intros [[= -> ->]|H]%elem_of_cons Hc; [left|right; auto].
Qed.

Lemma standardize_items_raises schema items inv acc e :
  standardize_items schema items inv acc = Raise e ->
  exists c v schema_col,
    (c, v) ∈ items /\ assoc c schema = Some schema_col
    /\ standardize_value v c schema_col = Raise e.
Proof.
  revert inv acc. induction items as [|[col val] items IH]; intros inv acc; simpl;
    [done|].
  destruct (assoc col schema) as [schema_col|] eqn:Ea.
  - destruct (standardize_value val col schema_col) as [std_val|e'] eqn:Es; simpl.
    + intros (c & v & sc & ? & ? & ?)%IH. exists c, v, sc. split; [by right|done].
    + intros [= <-]. exists col, val, schema_col. split; [left|done].
  - intros (c & v & sc & ? & ? & ?)%IH. exists c, v, sc. split; [by right|done].
Qed.

Lemma validate_rows_raises schema idx rows e :
  validate_rows schema idx rows = Raise e ->
  exists r c v schema_col,
    r ∈ rows /\ (c, v) ∈ r /\ assoc c schema = Some schema_col
    /\ standardize_value v c schema_col = Raise e.
Proof.
  revert idx. induction rows as [|row rows IH]; intros idx; simpl; [done|].
  destruct (standardize_items schema row [] []) as [[inv std]|e'] eqn:Es; simpl.
  - destruct (validate_rows schema (S idx) rows) as [[cl dr]|e'] eqn:Ev; simpl.
    + by destruct inv.
    + intros [= <-]. destruct (IH _ Ev) as (r & c & v & sc & ? & ?).
      exists r, c, v, sc. split; [by right|done].
  - intros [= <-]. apply standardize_items_raises in Es as (c & v & sc & ? & ?).
    exists row, c, v, sc. split; [left|done].
Qed.

(** X22. The one way the Validator raises. On a frame whose records have
    distinct column names, [validate_and_clean_data] returns, or raises
    [OverflowError]; and it raises only when a record has a cell under a
    numeric rule for which [standardize_value] raises it: an infinite
    number, or an integer too large for a float. *)
Theorem validation_raises_only_overflow (df : DataFrame) (table_name : string)
    (now : Z) (e : exn) :
  (forall r, r ∈ df -> NoDup (keys r)) ->
  validate_and_clean_data df table_name now = Raise e ->
  e = OverflowError
  /\ exists r c v schema_col,
       r ∈ df /\ (c, v) ∈ r
       /\ assoc c (get_table_schema (table_type_of table_name)) = Some schema_col
       /\ rule_type schema_col <> TStr
       /\ standardize_value v c schema_col = Raise OverflowError.
Proof.
  intros Hnd. unfold validate_and_clean_data.
  destruct (df_empty df); [done|].
  destruct (add_metadata_total df now Hnd) as (hashes & Hf & Hm).
  rewrite Hm. cbn [mbind res_bind].
  destruct (validate_rows _ 0 _) as [[cl dr]|e'] eqn:Ev; [done|].
  cbn [mbind res_bind]. intros [= <-].
  apply validate_rows_raises in Ev as (r1 & c & v & sc & Hr1 & Hcv & Ha & Hs).
  destruct (standardize_value_raises _ _ _ _ Hs) as (-> & _ & Ht).
  split; [done|].
  apply elem_of_zip_with in Hr1 as (r & h & -> & Hr & _).
  exists r, c, v, sc. split; [done|]. split; [|done].
  assert (c ∉ metadata_columns) as Hc.
  { intros Hc. by rewrite (schema_no_metadata _ _ Hc) in Ha. }
  unfold metadata_columns in Hc. rewrite !elem_of_cons in Hc.
  apply elem_of_dict_set_ne in Hcv; [|intros ->; apply Hc; auto].
  apply elem_of_dict_set_ne in Hcv; [done|intros ->; apply Hc; auto].
Qed.

End ValidatorRaises.

Lemma validation_raises_only_overflow_witness :
  validate_and_clean_data (rt:=Model.runtime)
    [[("START", VFloat (S754_infinity false))]] "cns_data" 0
  = Raise OverflowError.
Proof.
  destruct (validate_and_clean_data (rt:=Model.runtime)
              [[("START", VFloat (S754_infinity false))]] "cns_data" 0)
    as [out|e] eqn:E.
  - vm_compute in E. discriminate E.
  - assert (forall r : Series,
              r ∈ [[("START", VFloat (S754_infinity false))]] -> NoDup (keys r))
      as Hnd.
    { intros r ->%list_elem_of_singleton. apply NoDup_singleton. }
    destruct (validation_raises_only_overflow (rt:=Model.runtime) _ _ _ _ Hnd E)
      as [-> _].
    reflexivity.
Defined.

(** ** The Verifier and the uploads, write by write *)

Section UploadFacts.
Context {rt : PyRuntime}.

Lemma drop_duplicates_nonempty col (df : DataFrame) :
  df <> [] -> drop_duplicates col df <> [].
Proof. by destruct df. Qed.

Lemma stored_issue q table_name engine :
  stored table_name (issue q engine) = stored table_name engine.
Proof. done. Qed.

Lemma condition_holds_self (r : Series) :
  NoDup (keys r) ->
  forallb (condition_holds r) (where_conditions r) = true.
Proof.
  intros Hnd. apply forallb_forall. intros cond Hin. apply list_elem_of_In in Hin.
  unfold where_conditions in Hin. apply list_elem_of_fmap in Hin as ([c v] & -> & Hcv).
  unfold condition_holds. cbn [fst snd].
  rewrite (dict_get_elem_NoDup _ _ _ Hnd Hcv). cbn [default id].
  destruct (isna v); [done|]. simpl. by apply String.eqb_eq.
Qed.

Lemma count_where_pos rows conds :
  count_where rows conds <> 0%nat
  <-> exists row, row ∈ rows /\ forallb (condition_holds row) conds = true.
Proof.
  unfold count_where. split.
  - intros H. destruct (filter _ rows) as [|row l] eqn:E; [done|].
    assert (row ∈ filter (fun r => Is_true (forallb (condition_holds r) conds)) rows)
      as [Hc Hr]%list_elem_of_filter by (rewrite E; left).
    exists row. split; [done|]. by apply Is_true_true.
  - intros (row & Hr & Hc) E. apply length_zero_iff_nil in E.
    assert (row ∈ filter (fun r => Is_true (forallb (condition_holds r) conds)) rows)
      as Hin by (apply list_elem_of_filter; split; [by apply Is_true_true|done]).
    rewrite E in Hin. by apply elem_of_nil in Hin.
Qed.

Lemma check_records_spec table_name records engine :
  let out := check_records table_name records engine in
  tables out.2 = tables engine
  /\ (out.1 = true <->
      forall r, r ∈ records ->
        read_sql_error (tables engine) table_name (where_conditions r) = None
        /\ count_where (stored table_name engine) (where_conditions r) <> 0%nat)
  /\ (out.1 = true ->
      queries out.2
      = rev (map (fun r => CountWhere table_name (where_conditions r)) records)
        ++ queries engine).
Proof.
  cbv zeta. revert engine.
  induction records as [|record records IH]; intros engine; cbn [check_records].
  { split; [done|]. split; [|done]. split; [|done]. by intros _ r ?%elem_of_nil. }
  rewrite stored_issue. cbn [tables issue].
  destruct (read_sql_error (tables engine) table_name (where_conditions record))
    as [msg|] eqn:Er.
  { cbn [fst snd]. split; [done|]. split; [|done].
    split; [done|]. intros H. destruct (H record) as [H1 _]; [left|congruence]. }
  destruct (Nat.eqb _ 0) eqn:E.
  - apply Nat.eqb_eq in E. cbn [fst snd]. split; [done|]. split; [|done].
    split; [done|]. intros H. exfalso. destruct (H record) as [_ H2]; [left|done].
  - apply Nat.eqb_neq in E.
    destruct (IH (issue (CountWhere table_name (where_conditions record)) engine))
      as (Ht & Hb & Hq).
    split; [by rewrite Ht|]. split.
    + rewrite Hb, stored_issue. cbn [tables issue]. split.
      * intros H r [->|Hr]%elem_of_cons; auto.
      * intros H r Hr. apply H. by right.
    + intros H. rewrite (Hq H). cbn [map rev queries issue].
      by rewrite <-app_assoc.
Qed.

Lemma verify_upload_true_inv (df : DataFrame) table_name engine engine' :
  verify_upload df table_name engine = (true, engine') ->
  exists rows,
    tables engine !! table_name = Some rows
    /\ length rows = length df
    /\ (forall r, r ∈ sampled_records df ->
          count_where rows (where_conditions r) <> 0%nat)
    /\ tables engine' = tables engine
    /\ queries engine'
       = rev (map (fun r => CountWhere table_name (where_conditions r))
                  (sampled_records df))
         ++ CountAll table_name :: queries engine.
Proof.
  unfold verify_upload, sampled_records. cbn [tables issue].
  destruct (tables engine !! table_name) as [rows|] eqn:Et; [|done].
  destruct (Nat.eqb (length rows) (length df)) eqn:El; [|done].
  apply Nat.eqb_eq in El. cbn [negb].
  destruct (Nat.ltb 0 _).
  - intros H.
    destruct (check_records_spec table_name
                (df_sample (Nat.min 5 (length df)) df)
                (issue (CountAll table_name) engine)) as (Ht & Hb & Hq).
    rewrite H in Ht, Hb, Hq. cbn [fst snd] in *.
    exists rows. split; [done|]. split; [done|]. split.
    + intros r Hr. pose proof (proj2 (proj1 Hb eq_refl r Hr)) as Hc.
      rewrite stored_issue in Hc. unfold stored in Hc. by rewrite Et in Hc.
    + split; [done|]. by rewrite (Hq eq_refl).
  - intros [= <-]. exists rows. split; [done|]. split; [done|].
    split; [by intros r ?%elem_of_nil|]. done.
Qed.

Lemma verify_upload_stored (df : DataFrame) table_name engine :
  sampler_draws_rows ->
  (forall r, r ∈ df -> NoDup (keys r)) ->
  (forall r, r ∈ df ->
     read_sql_error (tables engine) table_name (where_conditions r) = None) ->
  tables engine !! table_name = Some df ->
  (verify_upload df table_name engine).1 = true.
Proof.
  intros Hsample Hnd Hlook Ht. unfold verify_upload. cbn [tables issue]. rewrite Ht.
  rewrite Nat.eqb_refl. cbn [negb]. destruct (Nat.ltb 0 _); [|done].
  apply (check_records_spec table_name). intros r Hr%Hsample.
  split; [by apply Hlook|].
  rewrite stored_issue. unfold stored. rewrite Ht. cbn [default id].
  apply count_where_pos. exists r. split; [done|].
  by apply condition_holds_self, Hnd.
Qed.

Lemma accepted_keys df table_name now cleaned_df dropped_df r :
  validate_and_clean_data df table_name now = Ok (Some cleaned_df, dropped_df) ->
  r ∈ cleaned_df -> NoDup (keys r) /\ "record_hash" ∈ keys r.
Proof.
  intros (df' & cleaned_rows & dropped_records & _ & _ & H)%accepted_frame Hr.
  cbv zeta in H. destruct H as (_ & Hk & -> & _).
  apply select_elem in Hr. split; [|by apply Hk].
  rewrite (from_records_keys _ _ Hr). apply columns_of_NoDup.
Qed.

Lemma accepted_not_empty df table_name now cleaned_df dropped_df :
  validate_and_clean_data df table_name now = Ok (Some cleaned_df, dropped_df) ->
  df_empty df = false /\ df_empty cleaned_df = false.
Proof.
  intros Hv. split.
  - apply validate_and_clean_data_inv in Hv as [(_ & [=] & _)|(? & ? & ? & ? & _)].
    done.
  - pose proof (fun r => accepted_keys _ _ _ _ _ r Hv) as Hk.
    apply accepted_frame in Hv as (df' & cleaned_rows & dropped_records & _ & _ & H).
    cbv zeta in H. destruct H as (Hne & _ & Hc & _).
    pose proof (drop_duplicates_nonempty "record_hash" _ Hne) as Hne'.
    rewrite <-Hc in Hne'. destruct cleaned_df as [|r0 rest]; [done|].
    apply (df_empty_false_elem _ r0); [left|].
    destruct (Hk r0 ltac:(left)) as [_ Hin]. intros E. rewrite E in Hin.
    by apply elem_of_nil in Hin.
Qed.

(** What [upload_to_database] does once the Validator has returned an
    accepted frame: the two writes, then the verification. *)
Lemma upload_to_database_accepted df table_name engine now cleaned_df dropped_df :
  validate_and_clean_data df table_name now = Ok (Some cleaned_df, dropped_df) ->
  upload_to_database df table_name engine now
  = match to_sql cleaned_df table_name engine with
    | Raise _ => (false, engine)
    | Ok engine =>
        match
          match dropped_df with
          | Some dropped =>
              if df_empty dropped then Ok engine
              else to_sql dropped (table_name +:+ "_dropped_records") engine
          | None => Ok engine
          end
        with
        | Raise _ => (false, engine)
        | Ok engine => verify_upload cleaned_df table_name engine
        end
    end.
Proof.
  intros Hv. unfold upload_to_database.
  destruct (accepted_not_empty _ _ _ _ _ Hv) as [-> He]. by rewrite Hv, He.
Qed.

Lemma upload_to_database_true_inv df table_name engine now engine' :
  upload_to_database df table_name engine now = (true, engine') ->
  exists cleaned_df dropped_df e1 e2,
    validate_and_clean_data df table_name now = Ok (Some cleaned_df, dropped_df)
    /\ to_sql cleaned_df table_name engine = Ok e1
    /\ match dropped_df with
       | Some dropped =>
           if df_empty dropped then Ok e1
           else to_sql dropped (table_name +:+ "_dropped_records") e1
       | None => Ok e1
       end = Ok e2
    /\ verify_upload cleaned_df table_name e2 = (true, engine').
Proof.
  unfold upload_to_database.
  destruct (df_empty df); [done|].
  destruct (validate_and_clean_data df table_name now) as [[[c|] d]|]; [|done..].
  destruct (df_empty c); [done|].
  destruct (to_sql c table_name engine) as [e1|] eqn:E1; [|done].
  destruct (match d with Some _ => _ | None => _ end) as [e2|] eqn:E2; [|done].
  intros H. by exists c, d, e1, e2.
Qed.

Lemma saved_dropped_tables (dropped_df : option DataFrame) table_name e1 e2 :
  match dropped_df with
  | Some dropped =>
      if df_empty dropped then Ok e1
      else to_sql dropped (table_name +:+ "_dropped_records") e1
  | None => Ok e1
  end = Ok e2 ->
  (forall t, t <> table_name +:+ "_dropped_records" ->
             tables e2 !! t = tables e1 !! t)
  /\ stored (table_name +:+ "_dropped_records") e2
     = stored (table_name +:+ "_dropped_records") e1
       ++ match dropped_df with
          | Some dropped => if df_empty dropped then [] else dropped
          | None => []
          end
  /\ queries e2 = queries e1.
Proof.
  destruct dropped_df as [d|]; [destruct (df_empty d)|].
  - intros [= <-]. by rewrite app_nil_r.
  - intros H. split; [|split].
    + intros t Ht. by eapply to_sql_other.
    + by apply to_sql_stored.
    + by apply to_sql_Ok in H as [_ ?].
  - intros [= <-]. by rewrite app_nil_r.
Qed.

Lemma accepted_chunks_sublist tabs table_name (chunks : list DataFrame) :
  accepted_chunks tabs table_name chunks `sublist_of` chunks.
Proof.
  revert tabs. induction chunks as [|chunk chunks IH]; intros tabs;
    cbn [accepted_chunks]; [done|].
  destruct (to_sql_error tabs table_name chunk);
    [by apply sublist_cons|by apply sublist_skip].
Qed.

Lemma accepted_chunks_all tabs table_name (chunks : list DataFrame) :
  (forall tabs' chunk, chunk ∈ chunks ->
     to_sql_error tabs' table_name chunk = None) ->
  accepted_chunks tabs table_name chunks = chunks.
Proof.
  revert tabs. induction chunks as [|chunk chunks IH]; intros tabs H;
    cbn [accepted_chunks]; [done|].
  rewrite (H tabs chunk) by left. f_equal. apply IH.
  intros tabs' c Hc. apply H. by right.
Qed.

Lemma accepted_chunks_none tabs table_name (chunks : list DataFrame) :
  (forall chunk, chunk ∈ chunks ->
     to_sql_error tabs table_name chunk <> None) ->
  accepted_chunks tabs table_name chunks = [].
Proof.
  induction chunks as [|chunk chunks IH]; intros H; cbn [accepted_chunks]; [done|].
  destruct (to_sql_error tabs table_name chunk) eqn:E.
  - apply IH. intros c Hc. apply H. by right.
  - by destruct (H chunk ltac:(left)).
Qed.

Lemma collect_spec (chunks : list DataFrame) table_name engine success errors :
  let out := collect (map (fun chunk => (chunk, table_name)) chunks)
                     engine success errors in
  let written := accepted_chunks (tables engine) table_name chunks in
  stored table_name out.2 = stored table_name engine ++ concat written
  /\ (forall t, t <> table_name -> tables out.2 !! t = tables engine !! t)
  /\ queries out.2 = queries engine
  /\ (out.1.1 = true <-> success = true /\ written = chunks).
Proof.
  cbv zeta. revert engine success errors.
  induction chunks as [|chunk chunks IH]; intros engine success errors;
    cbn [map collect process_file_chunk accepted_chunks].
  { cbn [fst snd concat]. rewrite app_nil_r.
    split; [done|]. split; [done|]. split; [done|]. split; [done|].
    by intros [? _]. }
  destruct (to_sql_error (tables engine) table_name chunk) as [msg|] eqn:Ew.
  - assert (to_sql chunk table_name engine = Raise (DatabaseError msg)) as ->
      by (unfold to_sql; by rewrite Ew).
    destruct (IH engine false (errors ++ [Some (str_of_exn (DatabaseError msg))]))
      as (Hst & Ho & Hq & Hb).
    split; [done|]. split; [done|]. split; [done|]. rewrite Hb.
    split; [by intros [? _]|]. intros [_ E].
    pose proof (accepted_chunks_sublist (tables engine) table_name chunks) as Hs.
    rewrite E in Hs. apply sublist_length in Hs. simpl in Hs. lia.
  - destruct (to_sql chunk table_name engine) as [e1|e] eqn:E1;
      [|unfold to_sql in E1; by rewrite Ew in E1].
    pose proof (to_sql_Ok _ _ _ _ E1) as [Ht1 Hq1]. unfold stored in Ht1.
    rewrite <-Ht1. clear Ht1.
    destruct (IH e1 success errors) as (Hst & Ho & Hq & Hb).
    split.
    { rewrite Hst, (to_sql_stored _ _ _ _ E1). cbn [concat]. by rewrite app_assoc. }
    split.
    { intros t Ht. rewrite (Ho t Ht). by eapply to_sql_other. }
    split; [by rewrite Hq|].
    rewrite Hb. split; [intros [? ->]; done|]. intros [? [= ->]]. done.
Qed.

End UploadFacts.

Section UploadProperties.
Context {rt : PyRuntime}.

(** X5. A pass of the Verifier means this much and no more: the table
    exists and holds as many rows as the frame, every sampled record has a
    stored row that meets all its conditions, nothing was written, and the
    queries sent are the count and one lookup for each sampled record. *)
Theorem verify_upload_pass (df : DataFrame) (table_name : string)
    (engine engine' : database) :
  verify_upload df table_name engine = (true, engine') ->
  exists rows,
    tables engine !! table_name = Some rows
    /\ length rows = length df
    /\ (forall r, r ∈ sampled_records df ->
          exists row, row ∈ rows
            /\ forallb (condition_holds row) (where_conditions r) = true)
    /\ tables engine' = tables engine
    /\ queries engine'
       = rev (map (fun r => CountWhere table_name (where_conditions r))
                  (sampled_records df))
         ++ CountAll table_name :: queries engine.
Proof.
  intros (rows & Ht & Hl & Hs & Ht' & Hq)%verify_upload_true_inv.
  exists rows. split; [done|]. split; [done|]. split; [|done].
  intros r Hr. by apply count_where_pos, Hs.
Qed.

(** X6. A table that holds exactly the rows of a frame verifies against
    it, when the rows have distinct column names, the sampler draws rows of
    the frame and the driver resolves the lookup of each row, which it
    does not when a column name has a letter the database does not keep:
    each sampled record is then found by its own conditions, a condition
    [column = 'literal'] being met in the store by a cell whose text is
    the literal. *)
Theorem verify_upload_of_stored_frame (df : DataFrame) (table_name : string)
    (engine : database) :
  sampler_draws_rows ->
  (forall r, r ∈ df -> NoDup (keys r)) ->
  (forall r, r ∈ df ->
     read_sql_error (tables engine) table_name (where_conditions r) = None) ->
  tables engine !! table_name = Some df ->
  (verify_upload df table_name engine).1 = true.
Proof. apply verify_upload_stored. Qed.

(** X7. The first upload into a table succeeds when the driver takes what
    this upload puts to it. When the table is absent or holds no row, the
    sampler draws rows of the frame, and the driver accepts the write of
    the accepted frame, then that of the dropped frame, and resolves the
    lookups of the accepted rows on the table that holds them,
    [upload_to_database] returns [True] for every frame the Validator
    accepts something of; the table then holds exactly the accepted frame,
    the table of dropped records has the dropped frame appended, and no
    other table is touched. *)
Theorem upload_to_fresh_table (df : DataFrame) (table_name : string)
    (engine : database) (now : Z) (cleaned_df : DataFrame)
    (dropped_df : option DataFrame) :
  sampler_draws_rows ->
  stored table_name engine = [] ->
  validate_and_clean_data df table_name now = Ok (Some cleaned_df, dropped_df) ->
  to_sql_error (tables engine) table_name cleaned_df = None ->
  (forall dropped,
     dropped_df = Some dropped -> df_empty dropped = false ->
     to_sql_error (<[table_name := cleaned_df]> (tables engine))
       (table_name +:+ "_dropped_records") dropped = None) ->
  (forall tabs r,
     tabs !! table_name = Some cleaned_df -> r ∈ cleaned_df ->
     read_sql_error tabs table_name (where_conditions r) = None) ->
  exists engine',
    upload_to_database df table_name engine now = (true, engine')
    /\ tables engine' !! table_name = Some cleaned_df
    /\ stored (table_name +:+ "_dropped_records") engine'
       = stored (table_name +:+ "_dropped_records") engine
         ++ match dropped_df with
            | Some dropped => if df_empty dropped then [] else dropped
            | None => []
            end
    /\ forall t, t <> table_name -> t <> table_name +:+ "_dropped_records" ->
                 tables engine' !! t = tables engine !! t.
Proof.
  intros Hsample Hst Hv Hw1 Hw2 Hlook.
  rewrite (upload_to_database_accepted _ _ _ _ _ _ Hv).
  destruct (to_sql cleaned_df table_name engine) as [e1|] eqn:E1;
    [|unfold to_sql in E1; by rewrite Hw1 in E1].
  pose proof (to_sql_Ok _ _ _ _ E1) as [Ht1 _]. rewrite Hst in Ht1.
  cbn [app] in Ht1.
  destruct (match dropped_df with Some _ => _ | None => _ end) as [e2|] eqn:E2.
  2:{ destruct dropped_df as [d|]; [|done]. destruct (df_empty d) eqn:Ed; [done|].
      unfold to_sql in E2. by rewrite Ht1, (Hw2 d eq_refl Ed) in E2. }
  destruct (saved_dropped_tables _ _ _ _ E2) as (Ho & Hdr & _).
  assert (table_name <> table_name +:+ "_dropped_records") as Hne
    by (intros E; symmetry in E; by apply dropped_table_ne in E).
  assert (tables e2 !! table_name = Some cleaned_df) as Ht.
  { by rewrite (Ho _ Hne), Ht1, lookup_insert_eq. }
  destruct (verify_upload cleaned_df table_name e2) as [b e3] eqn:E3.
  pose proof (verify_upload_tables cleaned_df table_name e2) as Ht3.
  pose proof (verify_upload_stored cleaned_df table_name e2 Hsample) as Hb.
  rewrite E3 in Ht3, Hb. cbn [fst snd] in Ht3, Hb.
  rewrite Hb; [|intros r Hr; by eapply accepted_keys
               |intros r Hr; by apply Hlook|done].
  exists e3. split; [done|]. rewrite Ht3. split; [done|]. split.
  - unfold stored at 1. rewrite Ht3. fold (stored (table_name +:+ "_dropped_records") e2).
    rewrite Hdr. f_equal. unfold stored.
    by rewrite (to_sql_other _ _ _ _ _ E1) by (intros E; by apply dropped_table_ne in E).
  - intros t H1 H2. rewrite (Ho t H2). by eapply to_sql_other.
Qed.

(** X8. [upload_to_database] reports success only for an upload that is
    the whole content of the table: when it returns [True], the Validator
    accepted a frame, the table held no row before the call and holds
    exactly the accepted frame after it. *)
Theorem upload_success_means_exact_table (df : DataFrame) (table_name : string)
    (engine engine' : database) (now : Z) :
  upload_to_database df table_name engine now = (true, engine') ->
  exists cleaned_df dropped_df,
    validate_and_clean_data df table_name now = Ok (Some cleaned_df, dropped_df)
    /\ stored table_name engine = []
    /\ tables engine' !! table_name = Some cleaned_df.
Proof.
  intros (c & d & e1 & e2 & Hv & E1 & E2 & E3)%upload_to_database_true_inv.
  exists c, d. split; [done|].
  destruct (saved_dropped_tables _ _ _ _ E2) as (Ho & _ & _).
  assert (table_name <> table_name +:+ "_dropped_records") as Hne
    by (intros E; symmetry in E; by apply dropped_table_ne in E).
  apply verify_upload_true_inv in E3 as (rows & Ht & Hl & _ & Ht' & _).
  rewrite (Ho _ Hne) in Ht. apply to_sql_Ok in E1 as [E1 _].
  rewrite E1, lookup_insert_eq in Ht. injection Ht as <-.
  rewrite length_app in Hl.
  assert (stored table_name engine = []) as Hst
    by (apply length_zero_iff_nil; lia).
  split; [done|]. rewrite Ht', (Ho _ Hne), E1, lookup_insert_eq. by rewrite Hst.
Qed.

(** X9. [upload_to_database] writes to two tables at most, whatever its
    outcome: every table other than the destination and its table of
    dropped records holds afterwards what it held before, the destination
    is left as it was or has the accepted frame appended; and when the
    Validator returns no accepted frame, because it rejects every record
    or because it raises, the outcome is [False] and nothing at all is
    written, the rejected records and their reasons included. *)
Theorem upload_writes_two_tables_at_most (df : DataFrame) (table_name : string)
    (engine : database) (now : Z) :
  let engine' := (upload_to_database df table_name engine now).2 in
  (forall t, t <> table_name -> t <> table_name +:+ "_dropped_records" ->
             tables engine' !! t = tables engine !! t)
  /\ (tables engine' !! table_name = tables engine !! table_name
      \/ exists cleaned_df dropped_df,
           validate_and_clean_data df table_name now
           = Ok (Some cleaned_df, dropped_df)
           /\ tables engine' !! table_name
              = Some (stored table_name engine ++ cleaned_df))
  /\ ((forall cleaned_df dropped_df,
         validate_and_clean_data df table_name now
         <> Ok (Some cleaned_df, dropped_df)) ->
      upload_to_database df table_name engine now = (false, engine)).
Proof.
  cbv zeta. unfold upload_to_database.
  destruct (df_empty df); [by repeat split; auto|].
  destruct (validate_and_clean_data df table_name now) as [[[c|] d]|] eqn:Ev;
    [|by repeat split; auto..].
  assert (forall X : Prop,
            (forall cleaned_df dropped_df,
               Ok (Some c, d) <> Ok (Some cleaned_df, dropped_df)) -> X) as Hno
    by (intros X H; by destruct (H c d)).
  destruct (df_empty c); [split; [done|]; split; [by left|apply Hno]|].
  destruct (to_sql c table_name engine) as [e1|] eqn:E1;
    [|split; [done|]; split; [by left|apply Hno]].
  assert (table_name <> table_name +:+ "_dropped_records") as Hne
    by (intros E; symmetry in E; by apply dropped_table_ne in E).
  destruct (match d with Some _ => _ | None => _ end) as [e2|] eqn:E2.
  - destruct (saved_dropped_tables _ _ _ _ E2) as (Ho & _ & _).
    rewrite verify_upload_tables. split; [|split; [|apply Hno]].
    + intros t H1 H2. rewrite (Ho t H2). by eapply to_sql_other.
    + right. exists c, d. split; [done|]. rewrite (Ho _ Hne).
      apply to_sql_Ok in E1 as [-> _]. apply lookup_insert_eq.
  - cbn [snd]. split; [|split; [|apply Hno]].
    + intros t H1 H2. by eapply to_sql_other.
    + right. exists c, d. split; [done|].
      apply to_sql_Ok in E1 as [-> _]. apply lookup_insert_eq.
Qed.

(** X10. The chunked path, write by write. For a chunk size from 1 to the
    length of the frame, [parallel_upload] returns, having sent no query
    and touched no other table; the destination has gained the rows of
    exactly the chunks whose write the driver accepts (in the order of
    submission, the order the writes are taken in here, each write being
    put to the driver after the accepted ones before it): a chunk is
    written whole or not at all, and what an earlier chunk wrote stays when
    a later write fails. The outcome is [True] exactly when the driver
    accepts every chunk, and the destination has then gained the whole
    frame; so it is when the driver refuses none of these chunks, and when
    it refuses them all the outcome is [False] and the destination is as it
    was. *)
Theorem parallel_upload_writes_accepted_chunks (df : DataFrame)
    (table_name : string) (engine : database) (chunk_size now : Z) :
  0 < chunk_size <= Z.of_nat (length df) ->
  let chunks := chunks_of (Z.to_nat chunk_size) df in
  let written := accepted_chunks (tables engine) table_name chunks in
  exists success engine',
    parallel_upload df table_name engine chunk_size now = Ok (success, engine')
    /\ written `sublist_of` chunks
    /\ stored table_name engine' = stored table_name engine ++ concat written
    /\ (success = true <-> written = chunks)
    /\ (success = true ->
        stored table_name engine' = stored table_name engine ++ df)
    /\ ((forall tabs chunk, chunk ∈ chunks ->
           to_sql_error tabs table_name chunk = None) ->
        success = true)
    /\ ((forall chunk, chunk ∈ chunks ->
           to_sql_error (tables engine) table_name chunk <> None) ->
        success = false
        /\ stored table_name engine' = stored table_name engine)
    /\ (forall t, t <> table_name -> tables engine' !! t = tables engine !! t)
    /\ queries engine' = queries engine.
Proof.
  intros [Hc Hn] chunks written. unfold parallel_upload, py_range.
  rewrite (proj2 (Z.ltb_ge _ _)) by lia.
  rewrite (proj2 (Z.eqb_neq _ _)) by lia.
  rewrite (proj2 (Z.ltb_ge _ _)) by lia. cbn [mbind res_bind].
  fold (chunks_of (Z.to_nat chunk_size) df). fold chunks.
  destruct (collect_spec chunks table_name engine true []) as (Hst & Ho & Hq & Hb).
  fold written in Hst, Hb.
  destruct (collect _ engine true []) as [[success errors] e'].
  cbn [fst snd] in *. exists success, e'.
  split; [done|]. split; [apply accepted_chunks_sublist|]. split; [done|].
  assert (success = true <-> written = chunks) as Hb'
    by (rewrite Hb; split; [by intros [_ ?]|done]).
  assert (chunks <> []) as Hne.
  { intros E. pose proof (concat_chunks_of df (Z.to_nat chunk_size) ltac:(lia)) as Ec.
    fold chunks in Ec. rewrite E in Ec. simpl in Ec. subst df. simpl in Hn. lia. }
  split; [done|]. split; [|split; [|split; [|done]]].
  - intros ->%Hb'. rewrite Hst. unfold chunks. rewrite concat_chunks_of; [done|lia].
  - intros H. apply Hb'. by apply accepted_chunks_all.
  - intros H. pose proof (accepted_chunks_none _ _ _ H) as E. fold written in E.
    split; [|by rewrite Hst, E, app_nil_r].
    destruct success; [|done]. exfalso. apply Hne.
    rewrite <-(proj1 Hb' eq_refl). exact E.
Qed.

(** X11. The chunk sizes that are no size. With chunk size 0,
    [parallel_upload] raises [ValueError] for every frame, before any
    write; with a negative chunk size it cuts no chunk, writes nothing and
    returns [True]. *)
Theorem parallel_upload_degenerate_chunk_size (df : DataFrame)
    (table_name : string) (engine : database) (now : Z) :
  parallel_upload df table_name engine 0 now = Raise ValueError
  /\ forall p : positive,
       parallel_upload df table_name engine (Z.neg p) now = Ok (true, engine).
Proof.
  unfold parallel_upload. split.
  - by rewrite (proj2 (Z.ltb_ge _ _)) by lia.
  - intros p. by rewrite (proj2 (Z.ltb_ge _ _)) by lia.
Qed.

End UploadProperties.

(** X12. The chunks of a frame, for a chunk size [c > 0]: there are
    [ceil(len(df) / c)] of them, chunk [k] is the [c] rows from position
    [k * c], or those that are left; no chunk is empty, only the last can
    be shorter than [c], and put one after the other they give the frame:
    every record is in exactly one chunk. *)
Theorem chunks_partition_the_frame {A} (df : list A) (c : nat) :
  (0 < c)%nat ->
  concat (chunks_of c df) = df
  /\ length (chunks_of c df) = ((length df + c - 1) / c)%nat
  /\ forall k chunk, chunks_of c df !! k = Some chunk ->
       chunk = take c (drop (k * c) df)
       /\ chunk <> []
       /\ (length chunk = c \/ S k = length (chunks_of c df)).
Proof.
  intros Hc. split; [by apply concat_chunks_of|].
  assert (length (chunks_of c df) = ((length df + c - 1) / c)%nat) as Hlen
    by (unfold chunks_of; by rewrite !length_map, length_seq).
  split; [done|]. intros k chunk Hk.
  pose proof (lookup_lt_Some _ _ _ Hk) as Hlt. rewrite Hlen in Hlt.
  destruct (chunks_of_lookup _ _ _ _ Hc Hk) as (-> & Hkc & Hl).
  split; [done|]. split.
  - intros E. rewrite E in Hl. simpl in Hl. lia.
  - rewrite Hlen, Hl.
    destruct (decide (c <= length df - k * c)%nat) as [Hle|Hgt]; [left; lia|].
    right. pose proof (Nat.div_mod_eq (length df + c - 1) c) as H.
    pose proof (Nat.mod_upper_bound (length df + c - 1) c ltac:(lia)) as H'.
    nia.
Qed.

(** ** Names of columns, tables and files *)

Lemma map_chars_map_chars f g s :
  PyStr.map_chars f (PyStr.map_chars g s) = PyStr.map_chars (fun c => f (g c)) s.
Proof. induction s as [|c s IH]; simpl; [done|]. by rewrite IH. Qed.

Lemma clean_column_name_chars s :
  clean_column_name s = PyStr.map_chars clean_char s.
Proof.
  unfold clean_column_name, PyStr.lower, PyText.replace_char.
  by rewrite !map_chars_map_chars.
Qed.

Lemma clean_char_spec c :
  clean_char c <> " "%char /\ clean_char c <> "-"%char
  /\ PyStr.is_upper (clean_char c) = false
  /\ clean_char (clean_char c) = clean_char c.
Proof.
  destruct c as [[] [] [] [] [] [] [] []]; vm_compute; repeat split; congruence.
Qed.

(** X13. For an ASCII column name, the cleaned name has as many
    characters as the name, none of them a space, a hyphen or an upper-case
    letter, and cleaning it again changes nothing. *)
Theorem clean_column_name_clean (column_name : string) :
  PyStr.is_ascii column_name = true ->
  String.length (clean_column_name column_name) = String.length column_name
  /\ Forall (fun c => c <> " "%char /\ c <> "-"%char /\ PyStr.is_upper c = false)
            (String.list_ascii_of_string (clean_column_name column_name))
  /\ clean_column_name (clean_column_name column_name)
     = clean_column_name column_name.
Proof.
  intros _. rewrite !clean_column_name_chars.
  induction column_name as [|c s (IH1 & IH2 & IH3)]; [by repeat split|].
  destruct (clean_char_spec c) as (H1 & H2 & H3 & H4).
  cbn [PyStr.map_chars String.length String.list_ascii_of_string].
  split; [by rewrite IH1|]. split; [by constructor|].
  by rewrite H4, IH3.
Qed.

(** ** Strings: prefixes, suffixes and parts *)

Lemma string_app_cons x (a b : string) : String x a +:+ b = String x (a +:+ b).
Proof. done. Qed.

Lemma string_app_assoc (a b c : string) : (a +:+ b) +:+ c = a +:+ (b +:+ c).
Proof.
  induction a as [|x a IH]; [done|]. rewrite !string_app_cons. by rewrite IH.
Qed.

Lemma string_app_nil_r (a : string) : a +:+ "" = a.
Proof.
  induction a as [|x a IH]; [done|]. by rewrite string_app_cons, IH.
Qed.

Lemma rev_app_spec (s t : string) : String.rev_app s t = String.rev s +:+ t.
Proof.
  unfold String.rev. revert t. induction s as [|a s IH]; intros t; [done|].
  cbn [String.rev_app].
  rewrite (IH (String a t)), (IH (String a "")), string_app_assoc. done.
Qed.

Lemma string_rev_app (a b : string) :
  String.rev (a +:+ b) = String.rev b +:+ String.rev a.
Proof.
  unfold String.rev at 1 3. generalize EmptyString as t.
  induction a as [|x a IH]; intros t.
  - apply rev_app_spec.
  - rewrite string_app_cons. cbn [String.rev_app]. by rewrite IH.
Qed.

Lemma string_rev_involutive (s : string) : String.rev (String.rev s) = s.
Proof.
  induction s as [|a s IH]; [done|].
  change (String a s) with (String a "" +:+ s) at 1.
  rewrite string_rev_app, string_rev_app, IH. done.
Qed.

Lemma prefix_spec (p s : string) :
  String.prefix p s = true <-> exists r, s = p +:+ r.
Proof.
  revert s. induction p as [|a p IH]; intros s.
  - split; [intros _; by exists s|]. by destruct s.
  - destruct s as [|b s]; cbn [String.prefix].
    + split; [done|]. by intros [r [=]].
    + destruct (ascii_dec a b) as [->|Hne].
      * rewrite IH. split; intros [r Hr]; exists r.
        -- by rewrite Hr.
        -- rewrite string_app_cons in Hr. by injection Hr.
      * split; [done|]. intros [r Hr]. rewrite string_app_cons in Hr.
        injection Hr as ? _. done.
Qed.

Lemma endswith_spec (suffix s : string) :
  PyText.endswith suffix s = true <-> exists p, s = p +:+ suffix.
Proof.
  unfold PyText.endswith. rewrite prefix_spec. split.
  - intros [r Hr]. exists (String.rev r).
    rewrite <-(string_rev_involutive s), Hr, string_rev_app.
    by rewrite string_rev_involutive.
  - intros [p ->]. exists (String.rev p). apply string_rev_app.
Qed.

Lemma map_chars_app f (a b : string) :
  PyStr.map_chars f (a +:+ b) = PyStr.map_chars f a +:+ PyStr.map_chars f b.
Proof.
  induction a as [|x a IH]; [done|].
  rewrite string_app_cons. cbn [PyStr.map_chars]. by rewrite IH.
Qed.

Lemma contains_app_r sub (a b : string) :
  PyStr.contains sub b = true -> PyStr.contains sub (a +:+ b) = true.
Proof.
  intros H. induction a as [|x a IH]; [done|].
  rewrite string_app_cons. cbn [PyStr.contains]. rewrite IH. apply orb_true_r.
Qed.

Lemma contains_app_l sub (b : string) :
  PyStr.contains sub (sub +:+ b) = true.
Proof.
  assert (String.prefix sub (sub +:+ b) = true) as H
    by (apply prefix_spec; by exists b).
  destruct (sub +:+ b); cbn [PyStr.contains]; by rewrite H.
Qed.

Lemma before_app c (a b : string) :
  PyStr.contains (String c "") a = false ->
  PyText.before c (a +:+ b) = a +:+ PyText.before c b.
Proof.
  induction a as [|x a IH]; [done|].
  rewrite !string_app_cons. cbn [PyStr.contains String.prefix PyText.before].
  destruct (ascii_dec c x) as [->|Hne].
  { by destruct a. }
  cbn [orb]. intros H. rewrite (IH H).
  destruct (Ascii.eqb_spec x c) as [->|_]; [done|done].
Qed.

Lemma before_app_l c (a b : string) :
  PyStr.contains (String c "") a = true ->
  PyText.before c (a +:+ b) = PyText.before c a.
Proof.
  induction a as [|x a IH]; [done|].
  rewrite !string_app_cons. cbn [PyStr.contains String.prefix PyText.before].
  destruct (Ascii.eqb_spec x c) as [->|Hne]; [done|].
  destruct (ascii_dec c x) as [->|_]; [done|].
  cbn [orb]. intros H. by rewrite (IH H).
Qed.

Lemma after_last_app c (a b : string) :
  PyStr.contains (String c "") (String.rev b) = true ->
  PyText.after_last c (a +:+ b) = PyText.after_last c b.
Proof.
  intros H. unfold PyText.after_last. by rewrite string_rev_app, before_app_l.
Qed.

Lemma contains_char_app c (a b : string) :
  PyStr.contains (String c "") a = false ->
  PyStr.contains (String c "") b = false ->
  PyStr.contains (String c "") (a +:+ b) = false.
Proof.
  intros Ha Hb. induction a as [|x a IH]; [done|].
  rewrite string_app_cons. cbn [PyStr.contains String.prefix] in *.
  destruct (ascii_dec c x); [by destruct a|].
  cbn [orb] in *. auto.
Qed.

(** ** The files found and the files recognised *)

Lemma path_join_relative directory pattern :
  String.prefix "/" pattern = false ->
  exists sep, (sep = "" \/ sep = "/")
              /\ path_join directory pattern = (directory +:+ sep) +:+ pattern.
Proof.
  intros H. unfold path_join. rewrite H. destruct (_ || _).
  - exists "". split; [by left|]. by rewrite string_app_nil_r.
  - exists "/". split; [by right|]. by rewrite string_app_assoc.
Qed.

Lemma file_type_of_marker file_path :
  PyStr.contains "tmb" (PyStr.lower file_path) = true
  \/ PyText.endswith ".cns" (PyStr.lower file_path) = true
  \/ PyStr.contains "mean_gene_coverage" (PyStr.lower file_path) = true
  \/ PyStr.contains "mastervarfinal" (PyStr.lower file_path) = true
  \/ PyStr.contains "segments.called.named" (PyStr.lower file_path) = true ->
  exists file_type, file_type_of file_path = Some file_type.
Proof.
  unfold file_type_of. intros H.
  repeat (case_match; [by eexists|]). exfalso.
  destruct H as [H|[H|[H|[H|H]]]]; congruence.
Qed.

Section FinderFacts.
Context {dir : Directory}.

Lemma found_matches directory pattern file_path :
  glob_matches ->
  PyStr.contains "*" directory = false ->
  String.prefix "/" pattern = false ->
  PyStr.contains "*" (String.rev pattern) = true ->
  file_path ∈ glob (path_join directory pattern) ->
  (exists P r, file_path = (P +:+ PyText.before "*" pattern) +:+ r)
  /\ exists p, file_path = p +:+ PyText.after_last "*" pattern.
Proof.
  intros Hg Hd Hp Hs Hin. apply Hg in Hin.
  destruct (path_join_relative directory pattern Hp) as (sep & Hsep & E).
  rewrite E in Hin. unfold star_match in Hin.
  apply andb_true_iff in Hin as [H1 H2].
  rewrite before_app in H1.
  2:{ apply contains_char_app; [done|]. by destruct Hsep as [->| ->]. }
  rewrite (after_last_app _ _ _ Hs) in H2.
  apply prefix_spec in H1 as [r Hr]. apply endswith_spec in H2 as [p Hp'].
  split; [by exists (directory +:+ sep), r|by exists p].
Qed.

(** X23. Every file the default patterns find is recognised. When [glob]
    returns only paths that match the pattern they were found with, and the
    directory has no star in its name, [main] gives a file type to every
    path [find_files] returns for the default patterns: none is skipped as
    an unrecognised file. *)
Theorem default_patterns_are_recognised (directory file_path : string) :
  glob_matches ->
  PyStr.contains "*" directory = false ->
  file_path ∈ find_files directory None ->
  exists file_type, file_type_of file_path = Some file_type.
Proof.
  intros Hg Hd Hin. apply file_type_of_marker.
  unfold find_files in Hin.
  change (concat (map snd get_default_file_patterns))
    with ["TMB*.tsv"; "*.cns"; "*mean_gene_coverage.tsv";
          "*Run_masterVarFinal.txt"; "*segments.called.named.tsv"] in Hin.
  cbn [map concat] in Hin. rewrite !elem_of_app in Hin.
  assert (forall suffix p : string,
            PyStr.lower (p +:+ suffix)
            = PyStr.lower p +:+ PyStr.lower suffix) as Hl
    by (intros; apply map_chars_app).
  destruct Hin as [H|[H|[H|[H|[H|H]]]]].
  - apply found_matches in H as [(P & r & ->) _]; [|done..].
    left. unfold PyStr.lower. rewrite !map_chars_app.
    rewrite string_app_assoc. apply contains_app_r, contains_app_l.
  - apply found_matches in H as [_ (p & ->)]; [|done..].
    right. left. rewrite Hl. apply endswith_spec. by eexists.
  - apply found_matches in H as [_ (p & ->)]; [|done..].
    right. right. left. rewrite Hl. by apply contains_app_r.
  - apply found_matches in H as [_ (p & ->)]; [|done..].
    right. right. right. left. rewrite Hl. by apply contains_app_r.
  - apply found_matches in H as [_ (p & ->)]; [|done..].
    right. right. right. right. rewrite Hl. by apply contains_app_r.
  - by apply elem_of_nil in H.
Qed.

End FinderFacts.

Lemma sample_glob_matches : glob_matches (dir:=SampleDirectory.directory).
Proof.
  intros pattern path [H _]%list_elem_of_filter. by apply Is_true_true.
Qed.

Lemma default_patterns_are_recognised_witness :
  "/data/TMB2023.tsv" ∈ find_files (dir:=SampleDirectory.directory) "/data" None
  /\ exists file_type, file_type_of "/data/TMB2023.tsv" = Some file_type.
Proof.
  assert ("/data/TMB2023.tsv"
          ∈ find_files (dir:=SampleDirectory.directory) "/data" None) as Hin
    by (apply (bool_decide_unpack _); by vm_compute).
  split; [exact Hin|].
  apply (default_patterns_are_recognised (dir:=SampleDirectory.directory)
           "/data" "/data/TMB2023.tsv" sample_glob_matches eq_refl Hin).
Defined.

(** ** File types, table names and schemas *)

(** X14. The file types of [main] and the schemas. A file that [main]
    recognises gets one of five types and the table [<type>_data]; the
    schema the Validator then selects from the table name is the one
    registered under the file type itself. No schema is registered under
    "coverage" or "segments": the records of those files are validated
    against the empty schema, and the rules registered under
    "mean_gene_coverage" are not used. *)
Theorem main_file_types_and_schemas (file_path file_type : string) :
  file_type_of file_path = Some file_type ->
  let table_name := get_table_name file_path (Some file_type) in
  file_type ∈ ["tmb"; "cns"; "coverage"; "mastervar"; "segments"]
  /\ table_name = file_type +:+ "_data"
  /\ get_table_schema (table_type_of table_name)
     = default [] (assoc file_type schemas)
  /\ (file_type = "coverage" \/ file_type = "segments" ->
      get_table_schema (table_type_of table_name) = []).
Proof.
  unfold file_type_of. repeat case_match; intros [= <-]; cbv zeta;
    (split; [rewrite !elem_of_cons; auto 10|]);
    (split; [reflexivity|]); (split; [by vm_compute|]);
    intros [[=]|[=]]; by vm_compute.
Qed.

Lemma group_append_keys t f g :
  map fst (group_append t f g)
  = if bool_decide (t ∈ map fst g) then map fst g else map fst g ++ [t].
Proof.
  induction g as [|[t' fs] g IH]; simpl; [done|].
  destruct (String.eqb_spec t t') as [->|Hne]; simpl.
  - rewrite bool_decide_eq_true_2; [done|left].
  - rewrite IH. repeat case_bool_decide; try done.
    + exfalso. rewrite elem_of_cons in *. tauto.
    + exfalso. rewrite elem_of_cons in *. tauto.
Qed.

Lemma assoc_group_append t f g t' :
  assoc t' (group_append t f g)
  = if String.eqb t' t then Some (default [] (assoc t g) ++ [f]) else assoc t' g.
Proof.
  induction g as [|[t0 fs] g IH]; simpl.
  { by destruct (String.eqb t' t). }
  destruct (String.eqb_spec t t0) as [->|Hne]; simpl.
  - by destruct (String.eqb t' t0).
  - rewrite IH. destruct (String.eqb t' t) eqn:E; [|done].
    apply String.eqb_eq in E as ->.
    by rewrite (proj2 (String.eqb_neq _ _)).
Qed.

(** X15. The grouping loses no recognised file and repeats none. Every
    type stands once in the groups, and for each type the group holds the
    files [main] gives that type, all of them, as often and in the order
    they stand in the list of files; a type without a file has no group,
    and a file without a type is in no group. *)
Theorem group_files_by_type (files_to_process : list string) :
  NoDup (map fst (group_files files_to_process))
  /\ forall t,
       assoc t (group_files files_to_process)
       = match filter (fun f => file_type_of f = Some t) files_to_process with
         | [] => None
         | files => Some files
         end.
Proof.
  unfold group_files.
  induction files_to_process as [|f files [IH1 IH2]] using rev_ind.
  { split; [constructor|done]. }
  rewrite fold_left_app. cbn [fold_left].
  set (groups := fold_left _ files []) in *.
  destruct (file_type_of f) as [t|] eqn:Ef.
  - split.
    + rewrite group_append_keys. case_bool_decide; [done|].
      apply NoDup_app. split; [done|]. split; [|apply NoDup_singleton].
      by intros x Hx ->%list_elem_of_singleton.
    + intros t'. rewrite assoc_group_append, filter_app.
      destruct (String.eqb_spec t' t) as [->|Hne].
      * rewrite IH2, (filter_cons_True _ f) by done. rewrite filter_nil.
        by destruct (filter _ files).
      * rewrite IH2, (filter_cons_False _ f) by congruence.
        by rewrite filter_nil, app_nil_r.
  - split; [done|]. intros t. rewrite filter_app, IH2.
    rewrite (filter_cons_False _ f) by congruence.
    by rewrite filter_nil, app_nil_r.
Qed.

(** ** The frame of a file *)

Lemma keys_zip (cols : list string) (r : list pyvalue) :
  keys (zip cols r) = take (length r) cols.
Proof.
  revert r. induction cols as [|c cols IH]; intros [|v r]; simpl; try done.
  by rewrite IH.
Qed.

Lemma records_keys (df : Frame) r c :
  r ∈ records df -> c ∈ keys r -> c ∈ columns df.
Proof.
  unfold records. intros (r0 & -> & _)%list_elem_of_fmap. rewrite keys_zip.
  intros H. eapply elem_of_sublist; [exact H|apply sublist_take].
Qed.

Lemma records_NoDup (df : Frame) r :
  NoDup (columns df) -> r ∈ records df -> NoDup (keys r).
Proof.
  unfold records. intros Hnd (r0 & -> & _)%list_elem_of_fmap. rewrite keys_zip.
  eapply sublist_NoDup; [done|apply sublist_take].
Qed.

(** The names of the registry with no upper-case letter: [log2] alone. *)
Lemma registry_names_upper table_type c schema_col :
  assoc c (get_table_schema table_type) = Some schema_col ->
  c = "log2"
  \/ existsb PyStr.is_upper (String.list_ascii_of_string c) = true.
Proof.
  intros Ha. apply assoc_elem_of in Ha.
  assert (Forall (fun ts : string * schema_t =>
                    Forall (fun kr : string * field_rule =>
                              kr.1 = "log2"
                              \/ existsb PyStr.is_upper
                                   (String.list_ascii_of_string kr.1) = true)
                           ts.2) schemas) as Hall.
  { unfold schemas. repeat (apply Forall_cons_2 || apply Forall_nil_2);
      cbn [fst snd]; (by left) || (right; reflexivity). }
  destruct table_type as [t|]; [|by apply elem_of_nil in Ha].
  unfold get_table_schema in Ha.
  destruct (assoc t schemas) as [schema|] eqn:Et; [|by apply elem_of_nil in Ha].
  apply assoc_elem_of in Et. rewrite Forall_forall in Hall.
  specialize (Hall _ Et). rewrite Forall_forall in Hall.
  apply (Hall _ Ha).
Qed.

Lemma clean_name_no_upper c :
  existsb PyStr.is_upper (String.list_ascii_of_string (clean_column_name c))
  = false.
Proof.
  rewrite clean_column_name_chars.
  induction c as [|a s IH]; [done|]. cbn [PyStr.map_chars String.list_ascii_of_string existsb].
  destruct (clean_char_spec a) as (_ & _ & -> & _). done.
Qed.

Section ReaderFacts.
Context {rt : PyRuntime} {fs : FileSystem}.

Lemma read_file_plain file_path df :
  read_file file_path = Some df ->
  no_special_handling file_path = true ->
  exists raw, columns df = map clean_column_name (columns raw)
              /\ rows df = rows raw.
Proof.
  unfold read_file. intros H Hp. rewrite Hp in H.
  match type of H with (?m ≫= _) = _ => destruct m as [raw|] end; [|done].
  cbn [mbind option_bind] in H. unfold set_columns in H.
  rewrite length_map, Nat.eqb_refl in H. injection H as <-. by exists raw.
Qed.

(** X17. A file read "without special handling" is not validated. The
    reader cleans the column names of such a file, which puts them in lower
    case, and every name of the registry but [log2] has an upper-case
    letter: no column falls under a rule, and whatever table the frame is
    sent to, the Validator rejects no record of it. This is the case of a
    TMB file whose name is not [TMB2022.tsv]. *)
Theorem plain_files_pass_validation (file_path : string) (df : Frame)
    (table_name : string) (now : Z) :
  read_file file_path = Some df ->
  no_special_handling file_path = true ->
  NoDup (columns df) -> "log2" ∉ columns df ->
  df_empty (records df) = false ->
  (forall c table_type, c ∈ columns df ->
     assoc c (get_table_schema table_type) = None)
  /\ exists df',
       add_metadata (records df) now = Ok df'
       /\ validate_and_clean_data (records df) table_name now
          = Ok (check_duplicates (Some (from_records df')) None).
Proof.
  intros Hr Hp Hnd Hlog He.
  destruct (read_file_plain _ _ Hr Hp) as (raw & Hc & _).
  assert (forall c table_type, c ∈ columns df ->
            assoc c (get_table_schema table_type) = None) as Hs.
  { intros c table_type Hin.
    destruct (assoc c _) as [schema_col|] eqn:Ea; [|done].
    apply registry_names_upper in Ea as [->|Hup]; [done|].
    rewrite Hc in Hin. apply list_elem_of_fmap in Hin as (c0 & -> & _).
    by rewrite clean_name_no_upper in Hup. }
  split; [done|]. apply validate_and_clean_data_unbound; [done|..].
  - intros r. by apply records_NoDup.
  - intros r c Hrow Hk. apply Hs. by eapply records_keys.
Qed.

Lemma column_indexes_length labels cols indexes :
  column_indexes labels cols = Some indexes -> length indexes = length labels.
Proof.
  revert indexes. induction labels as [|c labels IH]; intros indexes; simpl.
  { by intros [= <-]. }
  destruct (column_index c cols); [|done]. simpl.
  destruct (column_indexes labels cols) as [l|]; [|done]. simpl.
  intros [= <-]. simpl. by rewrite (IH l).
Qed.

Lemma set_column_fresh c v (df : Frame) :
  column_index c (columns df) = None ->
  set_column c v df
  = {| columns := columns df ++ [c]; rows := map (fun r => r ++ [v]) (rows df) |}.
Proof. unfold set_column. by intros ->. Qed.

Lemma dict_get_zip_last (cols : list string) (cells : list pyvalue) k v :
  k ∉ cols -> length cells = length cols ->
  dict_get k (zip (cols ++ [k]) (cells ++ [v])) = Some v.
Proof.
  revert cells. induction cols as [|c cols IH]; intros [|x cells] Hk Hl;
    simpl in *; try done.
  - by rewrite String.eqb_refl.
  - apply not_elem_of_cons in Hk as [Hne Hk].
    rewrite (proj2 (String.eqb_neq _ _)) by done. apply IH; [done|lia].
Qed.

(** X18. Every record read from a cns file carries the sample name of the
    file. For a file with the extension [.cns], in any case, the frame has
    the eleven renamed columns and then [SampleName], among them every
    column the cns schema has a rule for; it has a record for each row of
    the file, and in each record [SampleName] is the base name of the file
    up to its first period. *)
Theorem cns_files_carry_sample_name (file_path : string) (df : Frame) :
  PyStr.lower (PyText.basename file_path) <> "tmb2022.tsv" ->
  PyStr.lower (PyText.splitext_ext file_path) = ".cns" ->
  read_file file_path = Some df ->
  columns df = cns_columns ++ ["SampleName"]
  /\ (forall c, c ∈ map fst (get_table_schema (Some "cns")) -> c ∈ columns df)
  /\ (exists raw, read_csv file_path = Some raw
                  /\ length (rows df) = length (rows raw))
  /\ forall r, r ∈ records df ->
       dict_get "SampleName" r
       = Some (VStr (PyText.before "." (PyText.basename file_path))).
Proof.
  intros Hb He. unfold read_file, no_special_handling. rewrite He.
  rewrite (proj2 (String.eqb_neq _ _) Hb). cbn [String.eqb Ascii.eqb Bool.eqb negb andb].
  destruct (read_csv file_path) as [raw|]; [|done]. cbn [mbind option_bind].
  unfold frame_select.
  destruct (column_indexes cns_file_columns (columns raw)) as [indexes|] eqn:Ei;
    [|done].
  apply column_indexes_length in Ei. cbn [mbind option_bind].
  change (set_columns cns_columns _)
    with (Some {| columns := cns_columns;
                  rows := map (fun r => map (cell r) indexes) (rows raw) |}).
  cbn [mbind option_bind]. rewrite set_column_fresh by reflexivity.
  intros [= <-]. cbn [columns rows]. split; [reflexivity|]. split.
  { intros c Hc.
    change (c ∈ ["CHROM"; "START"; "STOP"; "GENE"; "log2"; "SampleName"]) in Hc.
    rewrite !elem_of_cons in Hc.
    unfold cns_columns. rewrite ?elem_of_app, !elem_of_cons.
    destruct Hc as [->|[->|[->|[->|[->|[->|Hc]]]]]]; auto 20. }
  split.
  { exists raw. split; [done|]. by rewrite !length_map. }
  intros r. unfold records. cbn [columns rows].
  intros (r0 & -> & (cells & -> & (row & -> & _)%list_elem_of_fmap)%list_elem_of_fmap)
    %list_elem_of_fmap.
  apply (dict_get_zip_last cns_columns).
  - unfold cns_columns. rewrite !elem_of_cons, elem_of_nil.
    intros H. repeat destruct H as [H|H]; discriminate || done.
  - by rewrite length_map, Ei.
Qed.

End ReaderFacts.

Section ReaderFacts2.
Context {rt : PyRuntime} {fs : FileSystem}.

Lemma label_in_any_case_None name cols :
  (forall c, c ∈ cols -> PyStr.lower c <> name) ->
  label_in_any_case name cols = None.
Proof.
  intros H. unfold label_in_any_case.
  replace (filter (fun col => PyStr.lower col = name) cols) with (@nil string);
    [done|].
  symmetry. induction cols as [|c cols IH]; [done|].
  rewrite filter_cons_False by (apply H; left).
  apply IH. intros c' Hc'. apply H. by right.
Qed.

(** X19. The frame of a segments file. For a file whose base name
    contains [segments.called.named.tsv], the frame has the fourteen
    required columns, in their order, whatever columns the file has; in
    every record [SampleName] is the base name of the file up to its first
    period, also when the file has a column of that name; the frame has a
    record for each row of the file, or none at all, and it has none when
    the file has not one of the required columns, in any case of letters. *)
Theorem segments_files_have_required_columns (file_path : string) (df : Frame) :
  let base_name := PyStr.lower (PyText.basename file_path) in
  base_name <> "tmb2022.tsv" ->
  PyStr.lower (PyText.splitext_ext file_path) <> ".cns" ->
  PyStr.contains "mean_gene_coverage.tsv" base_name = false ->
  PyStr.contains "run_mastervarfinal.txt" base_name = false ->
  PyStr.contains "segments.called.named.tsv" base_name = true ->
  read_file file_path = Some df ->
  columns df = segments_columns
  /\ (forall r, r ∈ records df ->
        dict_get "SampleName" r
        = Some (VStr (PyText.before "." (PyText.basename file_path))))
  /\ exists raw,
       read_csv file_path = Some raw
       /\ (rows df = [] \/ length (rows df) = length (rows raw))
       /\ ((forall c, c ∈ columns raw ->
              PyStr.lower c ∉ map PyStr.lower segments_columns) ->
           rows df = []).
Proof.
  intros base_name Hb He Hc Hm Hs. unfold read_file, no_special_handling.
  fold base_name.
  rewrite (proj2 (String.eqb_neq _ _) Hb), (proj2 (String.eqb_neq _ _) He), Hc, Hm, Hs.
  cbn [negb andb]. destruct (read_csv file_path) as [raw|]; [|done].
  cbn [mbind option_bind]. intros [= <-].
  unfold set_column, segments_frame.
  change (column_index "SampleName" (columns _)) with (Some 0%nat).
  cbn [columns rows]. split; [done|].
  set (sources := map _ segments_columns).
  assert (length sources = 14%nat) as Hlen by (unfold sources; by rewrite length_map).
  split; [|exists raw; split; [done|]; split].
  - intros r. unfold records. cbn [columns rows].
    intros (r0 & -> & (r1 & -> & Hr1)%list_elem_of_fmap)%list_elem_of_fmap.
    destruct (list_find is_Some sources) as [[k x]|]; [|by apply elem_of_nil in Hr1].
    apply list_elem_of_fmap in Hr1 as (row & -> & _).
    destruct (imap _ sources) as [|y ys] eqn:Ey; [|done].
    apply (f_equal length) in Ey. rewrite length_imap, Hlen in Ey. done.
  - destruct (list_find is_Some sources) as [[k x]|]; [right|by left].
    by rewrite !length_map.
  - intros Hnone.
    assert (list_find is_Some sources = None) as ->; [|done].
    apply list_find_None, Forall_forall. intros x Hx.
    unfold sources in Hx. apply list_elem_of_fmap in Hx as (req & -> & Hreq).
    rewrite label_in_any_case_None; [by intros [? [=]]|].
    intros c Hin E. apply (Hnone c Hin). rewrite E.
    apply list_elem_of_fmap. by exists req.
Qed.

(** The columns of the registry whose name contains "CHROM" are string
    columns. *)
Lemma registry_chrom_is_str table_type c schema_col :
  assoc c (get_table_schema table_type) = Some schema_col ->
  PyStr.contains "CHROM" c = true -> rule_type schema_col = TStr.
Proof.
  intros Ha. apply assoc_elem_of in Ha.
  assert (Forall (fun ts : string * schema_t =>
                    Forall (fun kr : string * field_rule =>
                              PyStr.contains "CHROM" kr.1 = true ->
                              rule_type kr.2 = TStr) ts.2) schemas) as Hall.
  { unfold schemas. repeat (apply Forall_cons_2 || apply Forall_nil_2);
      cbn [fst snd]; by vm_compute. }
  destruct table_type as [t|]; [|by apply elem_of_nil in Ha].
  unfold get_table_schema in Ha.
  destruct (assoc t schemas) as [schema|] eqn:Et; [|by apply elem_of_nil in Ha].
  apply assoc_elem_of in Et. rewrite Forall_forall in Hall.
  specialize (Hall _ Et). rewrite Forall_forall in Hall.
  apply (Hall _ Ha).
Qed.

(** X20. The type check of the Validator has nothing to find. For every
    rule of the registry, what [standardize_value] returns is [None] or a
    value of the type of the rule: the reason "Invalid type" is given to no
    record. *)
Theorem registry_values_have_rule_type (table_type : option string)
    (c : string) (schema_col : field_rule) (v std_val : pyvalue) :
  assoc c (get_table_schema table_type) = Some schema_col ->
  standardize_value v c schema_col = Ok std_val ->
  std_val = VNull \/ isinstance std_val (rule_type schema_col) = true.
Proof.
  intros Ha. pose proof (registry_chrom_is_str _ _ _ Ha) as Hchrom.
  unfold standardize_value. destruct (isna v); [intros [= <-]; by left|].
  destruct (PyStr.contains "CHROM" c).
  - rewrite (Hchrom eq_refl). repeat case_match; intros [= <-]; by right.
  - destruct (rule_type schema_col).
    + intros [= <-]. by right.
    + destruct (py_float v) as [f|[]]; cbn; try (intros [= <-]; by left); try done.
      destruct (PyFloat.to_int f) as [z|[]]; cbn; try (intros [= <-]; by left);
        try done.
      intros [= <-]. by right.
    + destruct (py_float v) as [f|[]]; cbn; try (intros [= <-]; by left); try done.
      intros [= <-]. by right.
Qed.

End ReaderFacts2.

(** ** The loop of [main] *)

Section MainFacts.
Context {rt : PyRuntime} {fs : FileSystem} {env : Surroundings}.

Lemma record_failure_spec file_path st :
  processed_files (record_failure file_path st) = processed_files st
  /\ failed_files (record_failure file_path st) = failed_files st ++ [file_path].
Proof. done. Qed.

Lemma process_file_int args file_type file_path st n :
  processed_files st = PyInt n ->
  processed_files (process_file args file_type file_path st) = PyInt n
  /\ failed_files (process_file args file_type file_path st)
     = failed_files st ++ [file_path].
Proof.
  destruct st as [p f q e k]. cbn [processed_files failed_files].
  intros ->. unfold process_file. cbn [processed_files failed_files qc_reports
    run_engine files_seen].
  destruct (read_file file_path) as [frame|]; [|done].
  destruct (generate_qc_report _ _) as [qc|]; [|done].
  destruct (negb (args_dry_run args)); [|done].
  match goal with |- context [match ?o with Ok _ => _ | Raise _ => _ end] =>
    destruct o as [[[] engine]|] end; done.
Qed.

Lemma process_groups_int args file_groups st n :
  processed_files st = PyInt n ->
  processed_files (process_groups args file_groups st) = PyInt n
  /\ failed_files (process_groups args file_groups st)
     = failed_files st ++ concat (map snd file_groups).
Proof.
  unfold process_groups. revert st.
  induction file_groups as [|[t files] groups IH]; intros st Hp; simpl.
  { by rewrite app_nil_r. }
  assert (forall st, processed_files st = PyInt n ->
            processed_files
              (fold_left (fun st file_path => process_file args t file_path st)
                         files st) = PyInt n
            /\ failed_files
                 (fold_left (fun st file_path => process_file args t file_path st)
                            files st) = failed_files st ++ files) as Hin.
  { clear. induction files as [|f files IH]; intros st Hp; simpl.
    { by rewrite app_nil_r. }
    destruct (process_file_int args t f st n Hp) as [H1 H2].
    destruct (IH _ H1) as [H3 H4]. split; [done|].
    by rewrite H4, H2, <-app_assoc. }
  destruct (Hin st Hp) as [H1 H2]. destruct (IH _ H1) as [H3 H4].
  split; [done|]. by rewrite H4, H2, <-app_assoc.
Qed.

(** X16. [main] never records a file as processed. From line 788 on the
    name [processed_files] is bound to the integer 0, so each
    [processed_files.append] raises inside the [try] and the handler files
    the path under the failed ones: after the loops every file of every
    group is in [failed_files], in the order it was taken up, whether it
    was uploaded or not; and the first line of the summary, which asks for
    [len(processed_files)], raises. *)
Theorem main_records_every_file_as_failed (args : arguments)
    (files_to_process : list string) (engine : database) :
  let st := process_all args files_to_process engine in
  processed_files st = PyInt 0
  /\ failed_files st = concat (map snd (group_files files_to_process))
  /\ total_files_found st = None.
Proof.
  cbv zeta. unfold process_all.
  destruct (process_groups_int args (group_files files_to_process)
              {| processed_files := PyInt 0; failed_files := [];
                 qc_reports := []; run_engine := engine; files_seen := O |}
              0 eq_refl) as [H1 H2].
  split; [done|]. split; [done|]. unfold total_files_found. by rewrite H1.
Qed.

End MainFacts.

Section MainFacts2.
Context {rt : PyRuntime} {fs : FileSystem} {env : Surroundings}.

Lemma process_file_dry_run args file_type file_path st :
  args_dry_run args = true ->
  run_engine (process_file args file_type file_path st) = run_engine st.
Proof.
  intros Hd. unfold process_file. rewrite Hd. cbn [negb].
  destruct (read_file file_path) as [frame|]; [|done].
  destruct (generate_qc_report _ _) as [qc|]; [|done].
  unfold record_success. cbn [processed_files].
  by destruct (py_append _ _).
Qed.

(** X21. A dry run writes nothing. With [--dry-run] the loops of [main]
    leave every table as it was and send the database no query, whatever
    the files hold: the records are read and a QC report is written, and
    neither the Validator nor the upload is called. *)
Theorem dry_run_leaves_database_untouched (args : arguments)
    (files_to_process : list string) (engine : database) :
  args_dry_run args = true ->
  run_engine (process_all args files_to_process engine) = engine.
Proof.
  intros Hd. unfold process_all, process_groups.
  generalize (group_files files_to_process) as groups.
  assert (forall groups st,
            run_engine
              (fold_left
                 (fun st group =>
                    fold_left
                      (fun st file_path => process_file args group.1 file_path st)
                      group.2 st) groups st) = run_engine st) as H.
  { induction groups as [|[t files] groups IH]; intros st; [done|].
    cbn [fold_left fst snd]. rewrite IH.
    revert st. induction files as [|f files IHf]; intros st; [done|].
    cbn [fold_left]. rewrite IHf. by apply process_file_dry_run. }
  intros groups. by rewrite H.
Qed.

End MainFacts2.

(** ** The properties, on the frames, tables and files of the examples *)

Lemma model_sampler_draws_rows : sampler_draws_rows (rt:=Model.runtime).
Proof.
  intros n df r Hr. eapply elem_of_sublist; [exact Hr|]. apply sublist_take.
Qed.

Lemma verify_upload_pass_witness :
  exists engine' rows,
    verify_upload (rt:=Model.runtime) twin_frame "tmb_data" stocked_db
    = (true, engine')
    /\ tables stocked_db !! "tmb_data" = Some rows
    /\ length rows = length twin_frame.
Proof.
  destruct (verify_upload (rt:=Model.runtime) twin_frame "tmb_data" stocked_db)
    as [[] engine'] eqn:E.
  - destruct (verify_upload_pass (rt:=Model.runtime) _ _ _ _ E)
      as (rows & Ht & Hl & _).
    exists engine', rows. split; [reflexivity|]. split; [exact Ht|exact Hl].
  - vm_compute in E. discriminate E.
Defined.

Lemma panel_frame_keys r : r ∈ SampleUpload.panel_frame -> NoDup (keys r).
Proof.
  unfold SampleUpload.panel_frame. rewrite !elem_of_cons.
  intros [->|[->|[]%elem_of_nil]]; apply (bool_decide_unpack _); by vm_compute.
Qed.

Lemma verify_upload_of_stored_frame_witness :
  (verify_upload (rt:=Model.runtime) SampleUpload.panel_frame "panel_data"
     SampleUpload.panel_db).1 = true.
Proof.
  apply (verify_upload_of_stored_frame (rt:=Model.runtime)).
  - apply model_sampler_draws_rows.
  - apply panel_frame_keys.
  - reflexivity.
  - apply lookup_singleton_eq.
Defined.

Lemma upload_to_fresh_table_witness :
  exists engine' cleaned_df,
    upload_to_database (rt:=Model.runtime) SampleUpload.panel_frame "panel_data"
      empty_db 0
    = (true, engine')
    /\ tables engine' !! "panel_data" = Some cleaned_df
    /\ length cleaned_df = 2%nat.
Proof.
  destruct (validate_and_clean_data (rt:=Model.runtime) SampleUpload.panel_frame
              "panel_data" 0)
    as [[[cleaned_df|] dropped_df]|e] eqn:E.
  - destruct (upload_to_fresh_table (rt:=Model.runtime) SampleUpload.panel_frame
                "panel_data" empty_db 0 cleaned_df dropped_df
                model_sampler_draws_rows eq_refl E)
      as (engine' & H1 & H2 & _); [reflexivity|reflexivity|reflexivity|].
    exists engine', cleaned_df. split; [exact H1|]. split; [exact H2|].
    vm_compute in E. injection E as <- _. reflexivity.
  - vm_compute in E. discriminate E.
  - vm_compute in E. discriminate E.
Defined.

Lemma upload_success_means_exact_table_witness :
  exists engine' cleaned_df,
    upload_to_database (rt:=Model.runtime) valid_frame "tmb_data" empty_db 0
    = (true, engine')
    /\ stored "tmb_data" empty_db = []
    /\ tables engine' !! "tmb_data" = Some cleaned_df.
Proof.
  destruct (upload_to_database (rt:=Model.runtime) valid_frame "tmb_data"
              empty_db 0) as [[] engine'] eqn:E.
  - destruct (upload_success_means_exact_table (rt:=Model.runtime) _ _ _ _ _ E)
      as (cleaned_df & dropped_df & _ & H1 & H2).
    exists engine', cleaned_df. split; [reflexivity|]. split; [exact H1|exact H2].
  - vm_compute in E. discriminate E.
Defined.

Lemma parallel_upload_writes_accepted_chunks_witness :
  exists engine',
    parallel_upload (rt:=Model.runtime) twin_frame "tmb_data" empty_db 1 0
    = Ok (true, engine')
    /\ stored "tmb_data" engine' = stored "tmb_data" empty_db ++ twin_frame.
Proof.
  destruct (parallel_upload_writes_accepted_chunks (rt:=Model.runtime)
              twin_frame "tmb_data" empty_db 1 0)
    as (success & engine' & H1 & _ & _ & _ & H2 & H3 & _).
  - simpl. lia.
  - assert (success = true) as -> by (apply H3; reflexivity).
    exists engine'. split; [exact H1|exact (H2 eq_refl)].
Defined.

Lemma clean_column_name_clean_witness :
  String.length (clean_column_name "Sample Name-ID") = 14%nat
  /\ clean_column_name (clean_column_name "Sample Name-ID")
     = clean_column_name "Sample Name-ID".
Proof.
  destruct (clean_column_name_clean "Sample Name-ID" eq_refl) as (H1 & _ & H3).
  split; [exact H1|exact H3].
Defined.

Lemma chunks_partition_the_frame_witness :
  concat (chunks_of 1 twin_frame) = twin_frame.
Proof.
  assert (0 < 1)%nat as H by lia.
  exact (proj1 (chunks_partition_the_frame twin_frame 1 H)).
Defined.

Lemma main_file_types_and_schemas_witness :
  get_table_schema
    (table_type_of
       (get_table_name "/data/S1_mean_gene_coverage.tsv" (Some "coverage")))
  = [].
Proof.
  destruct (main_file_types_and_schemas "/data/S1_mean_gene_coverage.tsv"
              "coverage" eq_refl) as (_ & _ & _ & H).
  apply H. left. reflexivity.
Defined.

Lemma plain_files_pass_validation_witness :
  exists df df',
    read_file (fs:=SampleFiles.files) "/data/TMB2023.tsv" = Some df
    /\ file_type_of "/data/TMB2023.tsv" = Some "tmb"
    /\ add_metadata (rt:=Model.runtime) (records df) 0 = Ok df'
    /\ validate_and_clean_data (rt:=Model.runtime) (records df) "tmb_data" 0
       = Ok (check_duplicates (Some (from_records df')) None).
Proof.
  set (df := {| columns := ["samplename"; "faf"; "fad"; "frd"];
                rows := rows SampleFiles.tmb2023 |}).
  assert (read_file (fs:=SampleFiles.files) "/data/TMB2023.tsv" = Some df) as E
    by reflexivity.
  destruct (plain_files_pass_validation (rt:=Model.runtime)
              (fs:=SampleFiles.files) "/data/TMB2023.tsv" df "tmb_data" 0 E)
    as (_ & df' & H1 & H2).
  - reflexivity.
  - apply (bool_decide_unpack _). by vm_compute.
  - apply (bool_decide_unpack _). by vm_compute.
  - reflexivity.
  - exists df, df'. split; [exact E|]. split; [reflexivity|].
    split; [exact H1|exact H2].
Defined.

Lemma cns_files_carry_sample_name_witness :
  exists df,
    read_file (fs:=SampleFiles.files) "/data/S1.run7.cns" = Some df
    /\ forall r, r ∈ records df -> dict_get "SampleName" r = Some (VStr "S1").
Proof.
  destruct (read_file (fs:=SampleFiles.files) "/data/S1.run7.cns")
    as [df|] eqn:E.
  - exists df. split; [reflexivity|].
    destruct (cns_files_carry_sample_name (fs:=SampleFiles.files)
                "/data/S1.run7.cns" df) as (_ & _ & _ & H).
    + intros H. vm_compute in H. discriminate H.
    + reflexivity.
    + exact E.
    + exact H.
  - vm_compute in E. discriminate E.
Defined.

Lemma segments_files_have_required_columns_witness :
  exists df,
    read_file (fs:=SampleFiles.files) "/data/S1.segments.called.named.tsv"
    = Some df
    /\ columns df = segments_columns
    /\ forall r, r ∈ records df -> dict_get "SampleName" r = Some (VStr "S1").
Proof.
  destruct (read_file (fs:=SampleFiles.files)
              "/data/S1.segments.called.named.tsv") as [df|] eqn:E.
  - exists df. split; [reflexivity|].
    destruct (segments_files_have_required_columns (fs:=SampleFiles.files)
                "/data/S1.segments.called.named.tsv" df) as (H1 & H2 & _).
    + intros H. vm_compute in H. discriminate H.
    + intros H. vm_compute in H. discriminate H.
    + reflexivity.
    + reflexivity.
    + reflexivity.
    + exact E.
    + split; [exact H1|exact H2].
  - vm_compute in E. discriminate E.
Defined.

Lemma registry_values_have_rule_type_witness :
  standardize_value (rt:=Model.runtime) (VStr "chrX") "CHROM" chrom_rule
  = Ok (VStr "23")
  /\ (VStr "23" = VNull \/ isinstance (VStr "23") (rule_type chrom_rule) = true).
Proof.
  split; [reflexivity|].
  apply (registry_values_have_rule_type (rt:=Model.runtime) (Some "cns") "CHROM"
           chrom_rule (VStr "chrX") (VStr "23")); reflexivity.
Defined.

Lemma dry_run_leaves_database_untouched_witness :
  run_engine
    (process_all (rt:=Model.runtime) (fs:=SampleFiles.files)
       (env:=SampleRun.surroundings) SampleRun.dry_run_arguments
       ["/data/TMB2023.tsv"; "/data/S1.run7.cns"] empty_db)
  = empty_db.
Proof.
  apply (dry_run_leaves_database_untouched (rt:=Model.runtime)
           (fs:=SampleFiles.files) (env:=SampleRun.surroundings)).
  reflexivity.
Defined.
